(** * Video clip sampling and preprocessing: a model of [video_module.py]
      and [dataset.py], with the properties of the pipeline.

    Python integers are [Z].  Python floats are modelled by exact rationals
    ([Q]) extended with the IEEE special values; rounding of finite results
    is not modelled (every finite operation used below on pixel data, frame
    counts and clip lengths is exact in binary floating point for operands
    below 2^24).  Exceptions are values of [exn]; loops that the source
    writes as [while] and that may not exit take fuel. *)

From Stdlib Require Import ZArith QArith Qround Qabs String Ascii DecimalString Bool Lia Lqa Arith List.
Import ListNotations.
Open Scope Z_scope.

(** ** Exceptions, outcomes and the world *)

Inductive exn : Type :=
| AssertionError
| ValueError
| ZeroDivisionError
| IndexError
| TypeError
| FileNotFoundError
| CvError.

Inductive outcome (A : Type) : Type :=
| Ok (a : A)
| Raise (e : exn)
| OutOfFuel.

Arguments Ok {A} a.
Arguments Raise {A} e.
Arguments OutOfFuel {A}.

Definition obind {A B : Type} (m : outcome A) (k : A -> outcome B) : outcome B :=
  match m with
  | Ok a => k a
  | Raise e => Raise e
  | OutOfFuel => OutOfFuel
  end.

Notation "'let!' x ':=' m 'in' k" := (obind m (fun x => k))
  (at level 10, x name, m at level 100, k at level 200).

Definition assert (b : bool) : outcome unit :=
  if b then Ok tt else Raise AssertionError.

(** IEEE values over exact rationals. *)
Inductive fval : Type :=
| Fin (q : Q)
| PInf
| NInf
| NaN.

(** The state a call can read or change: the two global random generators
    ([numpy.random] and [random]), what has been printed, and what freshly
    allocated, uninitialised array memory holds. *)
Record world : Type := mk_world {
  np_random : nat -> Z;
  np_pos : nat;
  py_random : nat -> Z;
  py_pos : nat;
  stdout : list string;
  uninit : list nat -> fval
}.

Definition M (A : Type) : Type := world -> outcome (A * world).

Definition ret {A : Type} (a : A) : M A := fun w => Ok (a, w).

Definition bind {A B : Type} (m : M A) (k : A -> M B) : M B :=
  fun w => match m w with
           | Ok (a, w') => k a w'
           | Raise e => Raise e
           | OutOfFuel => OutOfFuel
           end.

Definition lift {A : Type} (o : outcome A) : M A :=
  fun w => match o with
           | Ok a => Ok (a, w)
           | Raise e => Raise e
           | OutOfFuel => OutOfFuel
           end.

Notation "x <- m ;; k" := (bind m (fun x => k))
  (at level 61, m at next level, right associativity).

(** [np.random.randint(high)]: a draw from [0, high); [ValueError] when the
    range is empty. *)
Definition randint (high : Z) : M Z :=
  fun w =>
    if high <=? 0 then Raise ValueError
    else Ok (np_random w (np_pos w) mod high,
             mk_world (np_random w) (S (np_pos w)) (py_random w) (py_pos w)
                      (stdout w) (uninit w)).

(** [random.randrange(0, stop)]. *)
Definition randrange0 (stop : Z) : M Z :=
  fun w =>
    if stop <=? 0 then Raise ValueError
    else Ok (py_random w (py_pos w) mod stop,
             mk_world (np_random w) (np_pos w) (py_random w) (S (py_pos w))
                      (stdout w) (uninit w)).

Definition print (s : string) : M unit :=
  fun w => Ok (tt, mk_world (np_random w) (np_pos w) (py_random w) (py_pos w)
                            (stdout w ++ [s]) (uninit w)).

(** ** Python sequences *)

(** [l[i]] with Python's negative indices. *)
Definition py_index {A : Type} (l : list A) (i : Z) : outcome A :=
  let n := Z.of_nat (length l) in
  if (0 <=? i) && (i <? n) then
    match nth_error l (Z.to_nat i) with Some a => Ok a | None => Raise IndexError end
  else if (- n <=? i) && (i <? 0) then
    match nth_error l (Z.to_nat (n + i)) with Some a => Ok a | None => Raise IndexError end
  else Raise IndexError.

(** [range(lo, hi)]. *)
Definition py_range (lo hi : Z) : list Z :=
  map (fun k => lo + Z.of_nat k) (seq 0 (Z.to_nat (hi - lo))).

(** [round(x)] on a float: to the nearest integer, ties to the even one. *)
Definition py_round (x : Q) : Z :=
  let f := Qfloor x in
  let d := (x - inject_Z f)%Q in
  match (d ?= 1 # 2)%Q with
  | Lt => f
  | Gt => f + 1
  | Eq => if Z.even f then f else f + 1
  end.

(** ** Temporal sampler *)

(** [clip_len + clip_len / 2] *)
Definition sample_len (clip_len : Z) : Q :=
  (inject_Z clip_len + inject_Z clip_len / 2)%Q.

(** The loop multiplier of [temporal_crop], lines 27-30. *)
Definition crop_multiplier (buffer_len clip_len : Z) : Z :=
  if negb (buffer_len =? 32) && negb (buffer_len =? 0)
  then Qceiling (sample_len clip_len / inject_Z buffer_len)
  else 2.

(** The length of the (looped) source that [temporal_crop] draws from. *)
Definition looped_len (buffer_len clip_len : Z) : Z :=
  if Qle_bool (sample_len clip_len) (inject_Z buffer_len) then buffer_len
  else buffer_len * crop_multiplier buffer_len clip_len.

Definition temporal_crop (buffer_len clip_len : Z) : M (Z * Z) :=
  start_index <-
    (if Qle_bool (sample_len clip_len) (inject_Z buffer_len)
     then randint (buffer_len - clip_len)
     else randint (buffer_len * crop_multiplier buffer_len clip_len - clip_len)) ;;
  ret (start_index, start_index + clip_len).

Definition temporal_center_crop (buffer_len clip_len : Z) : outcome (Z * Z) :=
  let! start_index :=
    (if clip_len <=? buffer_len then Ok ((buffer_len - clip_len) / 2)
     else if buffer_len =? 0 then Raise ZeroDivisionError
     else
       let multiplier := Qceiling (inject_Z clip_len / inject_Z buffer_len) in
       Ok ((buffer_len * multiplier - clip_len) / 2)) in
  Ok (start_index, start_index + clip_len).

(** [buffer_len < (clip_len + clip_len / 2)], the test of the loop. *)
Definition too_short (buffer_len clip_len : Z) : bool :=
  negb (Qle_bool (sample_len clip_len) (inject_Z buffer_len)).

(** [while buffer_len < (clip_len + clip_len / 2): buffer_len *= 2] *)
Fixpoint double_buffer_len (fuel : nat) (buffer_len clip_len : Z) : outcome Z :=
  match fuel with
  | O => OutOfFuel
  | S fuel' =>
      if too_short buffer_len clip_len
      then double_buffer_len fuel' (buffer_len * 2) clip_len
      else Ok buffer_len
  end.

(** The [for i in range(1, clips_per_video - 1)] loop, lines 67-70. *)
Fixpoint middle_windows (range : list Z) (spacing : Q) (clip_len : Z)
         (indices : list (Z * Z)) : outcome (list (Z * Z)) :=
  match range with
  | [] => Ok indices
  | i :: rest =>
      let! prev := py_index indices (i - 1) in
      let start := py_round (inject_Z (snd prev) + spacing) in
      let end_ := start + clip_len in
      middle_windows rest spacing clip_len (indices ++ [(start, end_)])
  end.

Definition temporal_uniform_crop (fuel : nat) (buffer_len clip_len clips_per_video : Z)
  : outcome (list (Z * Z)) :=
  let! buffer_len := double_buffer_len fuel buffer_len clip_len in
  let! spacing :=
    (if clips_per_video - 1 =? 0 then Raise ZeroDivisionError
     else Ok (inject_Z (buffer_len - clip_len * clips_per_video)
              / inject_Z (clips_per_video - 1))%Q) in
  let! indices :=
    middle_windows (py_range 1 (clips_per_video - 1)) spacing clip_len [(0, clip_len)] in
  Ok (indices ++ [(buffer_len - clip_len, buffer_len)]).

(** ** Spatial sampler *)

Definition spatial_crop (buffer_size clip_size : list Z) : M ((Z * Z) * (Z * Z)) :=
  _u <- lift (assert ((length buffer_size =? 2)%nat && (length clip_size =? 2)%nat)) ;;
  b0 <- lift (py_index buffer_size 0) ;;
  c0 <- lift (py_index clip_size 0) ;;
  start_h <- randint (b0 - c0) ;;
  let end_h := start_h + c0 in
  b1 <- lift (py_index buffer_size 1) ;;
  c1 <- lift (py_index clip_size 1) ;;
  start_w <- randint (b1 - c1) ;;
  let end_w := start_w + c1 in
  ret ((start_h, end_h), (start_w, end_w)).

Definition spatial_center_crop (buffer_size clip_size : list Z)
  : outcome ((Z * Z) * (Z * Z)) :=
  let! _u := assert ((length buffer_size =? 2)%nat && (length clip_size =? 2)%nat) in
  let! b0 := py_index buffer_size 0 in
  let! c0 := py_index clip_size 0 in
  let start_h := (b0 - c0) / 2 in
  let end_h := start_h + c0 in
  let! b1 := py_index buffer_size 1 in
  let! c1 := py_index clip_size 1 in
  let start_w := (b1 - c1) / 2 in
  let end_w := start_w + c1 in
  Ok ((start_h, end_h), (start_w, end_w)).

(** ** Floating-point values *)

Definition fneg (a : fval) : fval :=
  match a with
  | Fin x => Fin (- x)
  | PInf => NInf
  | NInf => PInf
  | NaN => NaN
  end.

Definition fadd (a b : fval) : fval :=
  match a, b with
  | NaN, _ | _, NaN => NaN
  | PInf, NInf | NInf, PInf => NaN
  | PInf, _ | _, PInf => PInf
  | NInf, _ | _, NInf => NInf
  | Fin x, Fin y => Fin (x + y)
  end.

Definition fsub (a b : fval) : fval := fadd a (fneg b).

(** An infinity of the sign of [s] times the sign of [q]; [NaN] at zero. *)
Definition inf_times (positive : bool) (q : Q) : fval :=
  match (q ?= 0)%Q with
  | Eq => NaN
  | Gt => if positive then PInf else NInf
  | Lt => if positive then NInf else PInf
  end.

Definition fmul (a b : fval) : fval :=
  match a, b with
  | NaN, _ | _, NaN => NaN
  | Fin x, Fin y => Fin (x * y)
  | PInf, Fin y | Fin y, PInf => inf_times true y
  | NInf, Fin y | Fin y, NInf => inf_times false y
  | PInf, PInf | NInf, NInf => PInf
  | PInf, NInf | NInf, PInf => NInf
  end.

(** Division; a zero divisor is the positive zero. *)
Definition fdiv (a b : fval) : fval :=
  match a, b with
  | NaN, _ | _, NaN => NaN
  | Fin x, Fin y =>
      if Qeq_bool y 0 then
        match (x ?= 0)%Q with Eq => NaN | Gt => PInf | Lt => NInf end
      else Fin (x / y)
  | Fin _, PInf | Fin _, NInf => Fin 0
  | PInf, Fin y => if Qle_bool 0 y then PInf else NInf
  | NInf, Fin y => if Qle_bool 0 y then NInf else PInf
  | PInf, PInf | PInf, NInf | NInf, PInf | NInf, NInf => NaN
  end.

Definition fabs (a : fval) : fval :=
  match a with
  | Fin x => Fin (Qabs x)
  | PInf | NInf => PInf
  | NaN => NaN
  end.

(** [np.minimum] and [np.maximum]: a NaN operand gives NaN. *)
Definition fmin (a b : fval) : fval :=
  match a, b with
  | NaN, _ | _, NaN => NaN
  | NInf, _ | _, NInf => NInf
  | PInf, x | x, PInf => x
  | Fin x, Fin y => if Qle_bool x y then Fin x else Fin y
  end.

Definition fmax (a b : fval) : fval :=
  match a, b with
  | NaN, _ | _, NaN => NaN
  | PInf, _ | _, PInf => PInf
  | NInf, x | x, NInf => x
  | Fin x, Fin y => if Qle_bool x y then Fin y else Fin x
  end.

Definition fsum (l : list fval) : fval := fold_left fadd l (Fin 0).

(** A reduction without identity over a list of operands. *)
Definition freduce (op : fval -> fval -> fval) (l : list fval) : fval :=
  match l with
  | [] => NaN
  | x :: rest => fold_left op rest x
  end.

(** The C conversion of a float to an integer type: truncation. *)
Definition Qtrunc (q : Q) : Z :=
  if Qle_bool 0 q then Qfloor q else Qceiling q.

(** [astype(np.uint8)] on one element.  C defines the conversion when the
    truncated value fits the target type; [None] is a value it leaves
    unspecified. *)
Definition astype_uint8 (v : fval) : option Z :=
  match v with
  | Fin q => let t := Qtrunc q in
             if (0 <=? t) && (t <=? 255) then Some t else None
  | _ => None
  end.

(** ** Arrays *)

(** An n-dimensional array: its shape and its element at each index.  The
    element function is only meaningful on the indices of the shape. *)
Record ndarray (V : Type) : Type := mk_nd {
  shape : list nat;
  item : list nat -> V
}.

Arguments mk_nd {V} shape item.
Arguments shape {V} n.
Arguments item {V} n idx.

Fixpoint valid_index (sh idx : list nat) : bool :=
  match sh, idx with
  | [], [] => true
  | d :: sh', i :: idx' => (i <? d)%nat && valid_index sh' idx'
  | _, _ => false
  end.

Definition nd_map {V W : Type} (f : V -> W) (a : ndarray V) : ndarray W :=
  mk_nd (shape a) (fun idx => f (item a idx)).

(** [np.empty(dims, np.float32)]: the elements are whatever the memory holds. *)
Definition np_empty (dims : list Z) : M (ndarray fval) :=
  fun w =>
    if forallb (fun d => 0 <=? d) dims
    then Ok (mk_nd (map Z.to_nat dims) (uninit w), w)
    else Raise ValueError.

(** [a[i]] on the first axis. *)
Definition nd_index0 {V : Type} (a : ndarray V) (i : Z) : outcome (ndarray V) :=
  match shape a with
  | [] => Raise IndexError
  | d :: sh =>
      let n := Z.of_nat d in
      if (- n <=? i) && (i <? n) then
        let k := Z.to_nat (if i <? 0 then n + i else i) in
        Ok (mk_nd sh (fun idx => item a (k :: idx)))
      else Raise IndexError
  end.

Fixpoint index_of (j : nat) (l : list nat) : nat :=
  match l with
  | [] => O
  | x :: rest => if (x =? j)%nat then O else S (index_of j rest)
  end.

Definition is_permutation (axes : list nat) : bool :=
  forallb (fun j => existsb (Nat.eqb j) axes) (seq 0 (length axes)).

(** [a.transpose(axes)]: axis [k] of the result is axis [axes[k]] of [a]. *)
Definition transpose {V : Type} (a : ndarray V) (axes : list nat) : outcome (ndarray V) :=
  if (length axes =? length (shape a))%nat && is_permutation axes then
    Ok (mk_nd (map (fun j => nth j (shape a) O) axes)
              (fun idx => item a (map (fun j => nth (index_of j axes) idx O)
                                      (seq 0 (length axes)))))
  else Raise ValueError.

(** ** Buffer normalizer *)

(** [(buffer - 128) / 128] on one element. *)
Definition normalize_elt (v : fval) : fval := fdiv (fsub v (Fin 128)) (Fin 128).

(** [(buffer * 128 + 128).astype(np.uint8)] on one element. *)
Definition denormalize_elt (v : fval) : option Z :=
  astype_uint8 (fadd (fmul v (Fin 128)) (Fin 128)).

Definition normalize_buffer (buffer : ndarray fval) : ndarray fval :=
  nd_map normalize_elt buffer.

Definition denormalize_buffer (buffer : ndarray fval) : ndarray (option Z) :=
  nd_map denormalize_elt buffer.

(** A value within [-1, 1]. *)
Definition in_unit_range (v : fval) : Prop :=
  match v with
  | Fin q => (-1 <= q /\ q <= 1)%Q
  | _ => False
  end.

Definition is_fin (v : fval) : Prop :=
  match v with
  | Fin _ => True
  | _ => False
  end.

Definition qval (v : fval) : Q :=
  match v with
  | Fin q => q
  | _ => 0
  end.

(** ** Flow normalizer *)

(** The positions [(l, h, w)] of one clip and channel, axes 1, 2 and 3. *)
Definition positions (L H W : nat) : list (nat * nat * nat) :=
  flat_map (fun l => flat_map (fun h => map (fun w => (l, h, w)) (seq 0 W)) (seq 0 H))
           (seq 0 L).

(** [np.sum(buffer, axis = 1) / sh[1]] at [(n, h, w, c)]. *)
Definition buffer_mean (buffer : ndarray fval) (L : nat) (n h w c : nat) : fval :=
  fdiv (fsum (map (fun l => item buffer [n; l; h; w; c]) (seq 0 L)))
       (Fin (inject_Z (Z.of_nat L))).

(** The buffer after [buffer -= np.expand_dims(buffer_mean, 1)]. *)
Definition centred (buffer : ndarray fval) (L : nat) (n l h w c : nat) : fval :=
  fsub (item buffer [n; l; h; w; c]) (buffer_mean buffer L n h w c).

(** [np.min(buffer, axis = (1, 2, 3))] at [(n, c)], after the subtraction. *)
Definition centred_min (buffer : ndarray fval) (L H W : nat) (n c : nat) : fval :=
  freduce fmin (map (fun p => let '(l, h, w) := p in centred buffer L n l h w c)
                    (positions L H W)).

(** The buffer after [buffer += np.abs(np.min(...))]. *)
Definition shifted (buffer : ndarray fval) (L H W : nat) (n l h w c : nat) : fval :=
  fadd (centred buffer L n l h w c) (fabs (centred_min buffer L H W n c)).

(** [np.max(buffer, axis = (1, 2, 3))] at [(n, c)], after the shift. *)
Definition shifted_max (buffer : ndarray fval) (L H W : nat) (n c : nat) : fval :=
  freduce fmax (map (fun p => let '(l, h, w) := p in shifted buffer L H W n l h w c)
                    (positions L H W)).

(** [flow_mean_sub] on a buffer of shape (clip_num, depth, h, w, chnl).  A
    reduction over no element for a clip and channel that exist is a
    [ValueError]; the function is only called on five axes. *)
Definition flow_mean_sub (buffer : ndarray fval) : outcome (ndarray fval) :=
  match shape buffer with
  | [N; L; H; W; C] =>
      if ((L * H * W =? 0) && negb (N * C =? 0))%nat then Raise ValueError
      else
        Ok (mk_nd [N; L; H; W; C]
              (fun idx =>
                 match idx with
                 | [n; l; h; w; c] =>
                     fmul (fdiv (shifted buffer L H W n l h w c)
                                (shifted_max buffer L H W n c))
                          (Fin 255)
                 | _ => item buffer idx
                 end))
  | _ => Raise ValueError
  end.

(** Every element of the buffer is a finite number. *)
Definition finite_buffer (buffer : ndarray fval) : Prop :=
  forall idx, valid_index (shape buffer) idx = true -> is_fin (item buffer idx).

(** In every clip and channel some pixel takes two different values over the
    frames of the clip. *)
Definition varies_in_time (buffer : ndarray fval) : Prop :=
  match shape buffer with
  | [N; L; H; W; C] =>
      forall n c, (n < N)%nat -> (c < C)%nat ->
        exists l l' h w,
          (l < L)%nat /\ (l' < L)%nat /\ (h < H)%nat /\ (w < W)%nat /\
          ~ (qval (item buffer [n; l; h; w; c]) == qval (item buffer [n; l'; h; w; c]))%Q
  | _ => False
  end.

(** ** The external collaborators *)

(** A decoded JPEG: its size, its colour planes in OpenCV's B, G, R order
    and its grey-level plane. *)
Record image : Type := mk_image {
  rows : positive;
  cols : positive;
  bgr : nat -> nat -> nat -> Z;
  gray : nat -> nat -> Z
}.

(** What the program takes from the file system, the image codec, pathlib
    and numpy's conversion of a string to an integer. *)
Record env : Type := mk_env {
  glob : string -> list string;
  decode : string -> option image;
  resample : ndarray Z -> nat -> nat -> list nat -> Z;
  read_text : string -> option string;
  path_join : string -> string -> string;
  np_int : string -> option Z
}.

Inductive imread_flag : Type := IMREAD_COLOR | IMREAD_GRAYSCALE.

(** [cv2.imread]: [None] when the file cannot be read or decoded. *)
Definition imread (E : env) (path : string) (flag : imread_flag) : option (ndarray Z) :=
  match decode E path with
  | None => None
  | Some im =>
      match flag with
      | IMREAD_COLOR =>
          Some (mk_nd [Pos.to_nat (rows im); Pos.to_nat (cols im); 3%nat]
                      (fun idx => match idx with
                                  | [r; c; k] => bgr im r c k
                                  | _ => 0
                                  end))
      | IMREAD_GRAYSCALE =>
          Some (mk_nd [Pos.to_nat (rows im); Pos.to_nat (cols im)]
                      (fun idx => match idx with
                                  | [r; c] => gray im r c
                                  | _ => 0
                                  end))
      end
  end.

(** [cv2.cvtColor(src, cv2.COLOR_BGR2RGB)]: an error on [None] and on an
    image without three or four channels. *)
Definition cvtColor_BGR2RGB (src : option (ndarray Z)) : outcome (ndarray Z) :=
  match src with
  | None => Raise CvError
  | Some a =>
      match shape a with
      | [h; w; k] =>
          if ((k =? 3) || (k =? 4))%nat then
            Ok (mk_nd [h; w; 3%nat]
                      (fun idx => match idx with
                                  | [r; c; ch] => item a [r; c; (2 - ch)%nat]
                                  | _ => item a idx
                                  end))
          else Raise CvError
      | _ => Raise CvError
      end
  end.

(** [cv2.resize(src, (w, h))]. *)
Definition resize (E : env) (src : ndarray Z) (w h : Z) : outcome (ndarray Z) :=
  if (w <=? 0) || (h <=? 0) || existsb (Nat.eqb 0) (firstn 2 (shape src))
     || (length (shape src) <? 2)%nat
  then Raise CvError
  else Ok (mk_nd (Z.to_nat h :: Z.to_nat w :: skipn 2 (shape src))
                 (resample E src (Z.to_nat h) (Z.to_nat w))).

(** [a[:, :, np.newaxis]] *)
Definition newaxis2 {V : Type} (a : ndarray V) : outcome (ndarray V) :=
  if (length (shape a) <? 2)%nat then Raise IndexError
  else Ok (mk_nd (firstn 2 (shape a) ++ 1%nat :: skipn 2 (shape a))
                 (fun idx => item a (firstn 2 idx ++ skipn 3 idx))).

(** The bounds of a slice [start:stop] on an axis of length [n]. *)
Definition slice_bound (n i : Z) : Z :=
  if i <? 0 then Z.max (i + n) 0 else Z.min i n.

Definition slice_lo (n start : Z) : nat := Z.to_nat (slice_bound n start).

Definition slice_len (n start stop : Z) : nat :=
  Z.to_nat (slice_bound n stop - slice_bound n start).

(** [a[h0:h1, w0:w1, :]] on an array of three axes. *)
Definition crop3 {V : Type} (a : ndarray V) (hs ws : Z * Z) : outcome (ndarray V) :=
  match shape a with
  | [h; w; k] =>
      let H := Z.of_nat h in
      let W := Z.of_nat w in
      Ok (mk_nd [slice_len H (fst hs) (snd hs); slice_len W (fst ws) (snd ws); k]
                (fun idx => match idx with
                            | [r; c; ch] =>
                                item a [(slice_lo H (fst hs) + r)%nat;
                                        (slice_lo W (fst ws) + c)%nat; ch]
                            | _ => item a idx
                            end))
  | _ => Raise IndexError
  end.

(** [a[:, :, 0]] on an array of three axes. *)
Definition plane0 {V : Type} (a : ndarray V) : outcome (ndarray V) :=
  match shape a with
  | [h; w; k] =>
      if (k =? 0)%nat then Raise IndexError
      else Ok (mk_nd [h; w] (fun idx => item a (idx ++ [O])))
  | _ => Raise IndexError
  end.

(** Whether a source of shape [src] broadcasts to the shape [dst], both
    read from the last axis. *)
Fixpoint broadcasts_rev (src dst : list nat) : bool :=
  match src, dst with
  | [], _ => true
  | _ :: _, [] => false
  | s :: src', d :: dst' => ((s =? d) || (s =? 1))%nat && broadcasts_rev src' dst'
  end.

Definition broadcasts (src dst : list nat) : bool :=
  broadcasts_rev (rev src) (rev dst).

(** The index of the source element that lands on index [idx] of the
    destination. *)
Definition broadcast_index (src : list nat) (idx : list nat) : list nat :=
  let idx' := skipn (length idx - length src) idx in
  map (fun p => if (fst p =? 1)%nat then O else snd p) (combine src idx').

Definition to_float (z : Z) : fval := Fin (inject_Z z).

(** An index on an axis of length [d], negative ones counted from the end. *)
Definition axis_index (d : nat) (i : Z) : outcome nat :=
  let n := Z.of_nat d in
  if (- n <=? i) && (i <? n) then Ok (Z.to_nat (if i <? 0 then n + i else i))
  else Raise IndexError.

(** [np.copyto(buffer[c, t, :, :, :], src)] *)
Definition store_rgb (buffer : ndarray fval) (c t : Z) (src : ndarray Z)
  : outcome (ndarray fval) :=
  match shape buffer with
  | [N; L; H; W; C] =>
      let! c' := axis_index N c in
      let! t' := axis_index L t in
      if broadcasts (shape src) [H; W; C] then
        Ok (mk_nd (shape buffer)
              (fun idx =>
                 match idx with
                 | [n; l; h; w; k] =>
                     if ((n =? c') && (l =? t'))%nat
                     then to_float (item src (broadcast_index (shape src) [h; w; k]))
                     else item buffer idx
                 | _ => item buffer idx
                 end))
      else Raise ValueError
  | _ => Raise IndexError
  end.

(** [np.copyto(buffer[c, t, :, :, i], src)] *)
Definition store_flow (buffer : ndarray fval) (c t i : Z) (src : ndarray Z)
  : outcome (ndarray fval) :=
  match shape buffer with
  | [N; L; H; W; C] =>
      let! c' := axis_index N c in
      let! t' := axis_index L t in
      let! i' := axis_index C i in
      if broadcasts (shape src) [H; W] then
        Ok (mk_nd (shape buffer)
              (fun idx =>
                 match idx with
                 | [n; l; h; w; k] =>
                     if ((n =? c') && (l =? t') && (k =? i'))%nat
                     then to_float (item src (broadcast_index (shape src) [h; w]))
                     else item buffer idx
                 | _ => item buffer idx
                 end))
      else Raise ValueError
  | _ => Raise IndexError
  end.

(** [list.sort()] on strings. *)
Fixpoint insert_sorted (x : string) (l : list string) : list string :=
  match l with
  | [] => [x]
  | y :: rest => if String.leb x y then x :: l else y :: insert_sorted x rest
  end.

Definition sort (l : list string) : list string := fold_right insert_sorted [] l.

Definition str_in (s : string) (l : list string) : bool := existsb (String.eqb s) l.

(** ** Frame assembler *)

(** [ccount = count; while ccount >= frame_count: ccount -= frame_count] *)
Fixpoint wrap_index (fuel : nat) (ccount frame_count : Z) : outcome Z :=
  match fuel with
  | O => OutOfFuel
  | S fuel' =>
      if frame_count <=? ccount then wrap_index fuel' (ccount - frame_count) frame_count
      else Ok ccount
  end.

(** The body of [for i in range(len(buffer_frame))], lines 266-287. *)
Definition store_frame (E : env) (modality : string) (scale_h scale_w : Z)
           (s_index : (Z * Z) * (Z * Z)) (path_content : list (list string))
           (c t ccount : Z) (buffer_frame : list (option (ndarray Z)))
           (i : Z) (buffer : ndarray fval) : M (ndarray fval) :=
  frame <- lift (py_index buffer_frame i) ;;
  match frame with
  | Some f =>
      f <- lift (resize E f scale_w scale_h) ;;
      f <- (if String.eqb modality "flow" then lift (newaxis2 f) else ret f) ;;
      f <- lift (crop3 f (fst s_index) (snd s_index)) ;;
      if String.eqb modality "rgb" then lift (store_rgb buffer c t f)
      else (p <- lift (plane0 f) ;; lift (store_flow buffer c t i p))
  | None =>
      listing <- lift (py_index path_content i) ;;
      path <- lift (py_index listing ccount) ;;
      _u <- print path ;;
      ret buffer
  end.

Fixpoint store_frames (E : env) (modality : string) (scale_h scale_w : Z)
         (s_index : (Z * Z) * (Z * Z)) (path_content : list (list string))
         (c t ccount : Z) (buffer_frame : list (option (ndarray Z)))
         (range : list Z) (buffer : ndarray fval) : M (ndarray fval) :=
  match range with
  | [] => ret buffer
  | i :: rest =>
      buffer <- store_frame E modality scale_h scale_w s_index path_content
                            c t ccount buffer_frame i buffer ;;
      store_frames E modality scale_h scale_w s_index path_content
                   c t ccount buffer_frame rest buffer
  end.

(** The frames read for one temporal position, lines 248-262. *)
Definition read_frames (E : env) (frame_chn : Z) (path_content : list (list string))
           (ccount : Z) : outcome (list (option (ndarray Z))) :=
  if frame_chn =? 3 then
    let! listing := py_index path_content 0 in
    let! path := py_index listing ccount in
    let! f := cvtColor_BGR2RGB (imread E path IMREAD_COLOR) in
    Ok [Some f]
  else
    let! listing0 := py_index path_content 0 in
    let! path0 := py_index listing0 ccount in
    let f0 := imread E path0 IMREAD_GRAYSCALE in
    let! listing1 := py_index path_content 1 in
    let! path1 := py_index listing1 ccount in
    let f1 := imread E path1 IMREAD_GRAYSCALE in
    Ok [f0; f1].

(** One turn of [while count < t_index[c][1]], lines 244-289. *)
Definition frame_step (E : env) (fuel : nat) (modality : string) (scale_h scale_w : Z)
           (s_index : (Z * Z) * (Z * Z)) (path_content : list (list string))
           (frame_count frame_chn : Z) (c start count : Z) (buffer : ndarray fval)
  : M (ndarray fval) :=
  ccount <- lift (wrap_index fuel count frame_count) ;;
  buffer_frame <- lift (read_frames E frame_chn path_content ccount) ;;
  store_frames E modality scale_h scale_w s_index path_content c (count - start) ccount
               buffer_frame (py_range 0 (Z.of_nat (length buffer_frame))) buffer.

(** [while count < t_index[c][1]: ...; count += 1], by the number of turns
    left. *)
Fixpoint frame_loop (E : env) (fuel : nat) (modality : string) (scale_h scale_w : Z)
         (s_index : (Z * Z) * (Z * Z)) (path_content : list (list string))
         (frame_count frame_chn : Z) (c start : Z) (turns : nat) (count : Z)
         (buffer : ndarray fval) : M (ndarray fval) :=
  match turns with
  | O => ret buffer
  | S turns' =>
      buffer <- frame_step E fuel modality scale_h scale_w s_index path_content
                           frame_count frame_chn c start count buffer ;;
      frame_loop E fuel modality scale_h scale_w s_index path_content
                 frame_count frame_chn c start turns' (count + 1) buffer
  end.

(** [for c in range(clips_per_video)], lines 238-289. *)
Fixpoint clip_loop (E : env) (fuel : nat) (modality : string) (scale_h scale_w : Z)
         (s_index : (Z * Z) * (Z * Z)) (path_content : list (list string))
         (frame_count frame_chn : Z) (t_index : list (Z * Z)) (range : list Z)
         (buffer : ndarray fval) : M (ndarray fval) :=
  match range with
  | [] => ret buffer
  | c :: rest =>
      window <- lift (py_index t_index c) ;;
      buffer <- frame_loop E fuel modality scale_h scale_w s_index path_content
                           frame_count frame_chn c (fst window)
                           (Z.to_nat (snd window - fst window)) (fst window) buffer ;;
      clip_loop E fuel modality scale_h scale_w s_index path_content
                frame_count frame_chn t_index rest buffer
  end.

Definition clips_per_video_of (mode : string) : Z :=
  if str_in mode ["train"; "validation"]%string then 1 else 10.

Definition frame_chn_of (modality : string) : Z :=
  if String.eqb modality "rgb" then 3 else 2.

(** The temporal windows and the spatial window of a call, lines 216-230. *)
Definition select_windows (fuel : nat) (mode : string) (frame_count : Z)
           (scale_h scale_w output_h output_w output_len : Z)
  : M (list (Z * Z) * ((Z * Z) * (Z * Z))) :=
  if str_in mode ["train"; "validation"]%string then
    if String.eqb mode "train" then
      t <- temporal_crop frame_count output_len ;;
      s <- spatial_crop [scale_h; scale_w] [output_h; output_w] ;;
      ret ([t], s)
    else
      t <- lift (temporal_center_crop frame_count output_len) ;;
      s <- lift (spatial_center_crop [scale_h; scale_w] [output_h; output_w]) ;;
      ret ([t], s)
  else
    t <- lift (temporal_uniform_crop fuel frame_count output_len (clips_per_video_of mode)) ;;
    s <- lift (spatial_center_crop [scale_h; scale_w] [output_h; output_w]) ;;
    ret (t, s).

(** The buffer as it is after the loading loops, before any normalisation,
    lines 189-289. *)
Definition assemble (E : env) (fuel : nat) (frames_path : list string) (modality : string)
           (scale_h scale_w output_h output_w output_len : Z) (mode : string)
  : M (ndarray fval) :=
  _u <- lift (assert (if String.eqb modality "rgb"
                      then (length frames_path =? 1)%nat
                      else (length frames_path =? 2)%nat)) ;;
  _u <- lift (assert (str_in mode ["train"; "validation"; "test"]%string)) ;;
  let clips_per_video := clips_per_video_of mode in
  let path_content := map (fun d => sort (glob E (d ++ "/*.jpg")%string)) frames_path in
  listing0 <- lift (py_index path_content 0) ;;
  let frame_count := Z.of_nat (length listing0) in
  let frame_chn := frame_chn_of modality in
  ts <- select_windows fuel mode frame_count scale_h scale_w output_h output_w output_len ;;
  buffer <- np_empty [clips_per_video; output_len; output_h; output_w; frame_chn] ;;
  clip_loop E fuel modality scale_h scale_w (snd ts) path_content frame_count frame_chn
            (fst ts) (py_range 0 clips_per_video) buffer.

Definition load_clips (E : env) (fuel : nat) (frames_path : list string) (modality : string)
           (scale_h scale_w output_h output_w output_len : Z) (mode : string)
           (mean_sub : bool) : M (ndarray fval) :=
  buffer <- assemble E fuel frames_path modality scale_h scale_w output_h output_w
                     output_len mode ;;
  buffer <- (if mean_sub && String.eqb modality "flow"
             then lift (flow_mean_sub buffer) else ret buffer) ;;
  let buffer := normalize_buffer buffer in
  if str_in mode ["train"; "validation"]%string then
    b <- lift (nd_index0 buffer 0) ;;
    lift (transpose b [3; 0; 1; 2]%nat)
  else lift (transpose buffer [0; 4; 1; 2; 3]%nat).

(** ** Calls with keyword arguments *)

Inductive pyval : Type :=
| PStr (s : string)
| PInt (z : Z)
| PBool (b : bool)
| PStrs (l : list string).

Fixpoint bind_positional (params : list string) (args : list pyval)
  : outcome (list (string * pyval)) :=
  match args, params with
  | [], _ => Ok []
  | _ :: _, [] => Raise TypeError
  | a :: args', p :: params' =>
      let! r := bind_positional params' args' in Ok ((p, a) :: r)
  end.

(** A keyword that names no parameter, or one already given by position,
    is a [TypeError]. *)
Fixpoint bind_keywords (params : list string) (bound kwargs : list (string * pyval))
  : outcome (list (string * pyval)) :=
  match kwargs with
  | [] => Ok bound
  | kv :: rest =>
      if negb (str_in (fst kv) params) then Raise TypeError
      else if str_in (fst kv) (map fst bound) then Raise TypeError
      else bind_keywords params (bound ++ [kv]) rest
  end.

Fixpoint lookup (k : string) (l : list (string * pyval)) : option pyval :=
  match l with
  | [] => None
  | kv :: rest => if String.eqb (fst kv) k then Some (snd kv) else lookup k rest
  end.

Fixpoint fill_defaults (params : list string) (defaults bound : list (string * pyval))
  : outcome (list pyval) :=
  match params with
  | [] => Ok []
  | p :: rest =>
      let! v := match lookup p bound with
                | Some v => Ok v
                | None => match lookup p defaults with
                          | Some v => Ok v
                          | None => Raise TypeError
                          end
                end in
      let! vs := fill_defaults rest defaults bound in
      Ok (v :: vs)
  end.

(** The values of the parameters of a call, in the order of the signature. *)
Definition bind_arguments (params : list string) (defaults : list (string * pyval))
           (args : list pyval) (kwargs : list (string * pyval)) : outcome (list pyval) :=
  let! bound := bind_positional params args in
  let! bound := bind_keywords params bound kwargs in
  fill_defaults params defaults bound.

(** The signature of [load_clips], line 170. *)
Definition load_clips_params : list string :=
  ["frames_path"; "modality"; "scale_h"; "scale_w"; "output_h"; "output_w";
   "output_len"; "mode"; "mean_sub"]%string.

Definition load_clips_defaults : list (string * pyval) :=
  [("mean_sub"%string, PBool true)].

(** A call of [load_clips] with positional and keyword arguments. *)
Definition call_load_clips (E : env) (fuel : nat) (args : list pyval)
           (kwargs : list (string * pyval)) : M (ndarray fval) :=
  values <- lift (bind_arguments load_clips_params load_clips_defaults args kwargs) ;;
  match values with
  | [PStrs frames_path; PStr modality; PInt scale_h; PInt scale_w; PInt output_h;
     PInt output_w; PInt output_len; PStr mode; PBool mean_sub] =>
      load_clips E fuel frames_path modality scale_h scale_w output_h output_w
                 output_len mode mean_sub
  | _ => lift (Raise TypeError)
  end.

(** ** Sample provider *)

(** [s.split(sep)] for a separator of one character. *)
Fixpoint split_on (sep : ascii) (s : string) : list string :=
  match s with
  | EmptyString => [EmptyString]
  | String ch rest =>
      if Ascii.eqb ch sep then EmptyString :: split_on sep rest
      else match split_on sep rest with
           | [] => [String ch EmptyString]
           | h :: t => String ch h :: t
           end
  end.

Definition newline : ascii := "010"%char.

(** [str(n)] on an integer. *)
Definition str_of_int (n : Z) : string := NilZero.string_of_int (Z.to_int n).

Fixpoint select {A : Type} (l : list A) (indices : list Z) : outcome (list A) :=
  match indices with
  | [] => Ok []
  | i :: rest =>
      let! a := py_index l i in
      let! r := select l rest in
      Ok (a :: r)
  end.

Fixpoint convert_labels (E : env) (labels : list string) : outcome (list Z) :=
  match labels with
  | [] => Ok []
  | s :: rest =>
      match np_int E s with
      | None => Raise ValueError
      | Some z => let! r := convert_labels E rest in Ok (z :: r)
      end
  end.

Module VideoDataset.

Record t : Type := mk {
  _resize_height : Z;
  _resize_width : Z;
  _crop_height : Z;
  _crop_width : Z;
  _mode : string;
  _crop_depth : Z;
  _load_mode : string;
  _clips_per_video : Z;
  _modality : string;
  _clip_names : list (list string);
  _labels : list Z
}.

(** The assertions of the constructor, lines 49-60. *)
Definition validate (dataset : string) (split : Z) (mode modality load_mode : string)
           (clips_per_video : Z) : outcome unit :=
  let! _u := assert (str_in dataset ["ucf"; "hmdb"]%string) in
  let! _u := assert (existsb (Z.eqb split) (py_range 1 4)) in
  let! _u := assert (str_in mode ["train"; "test"]%string) in
  let! _u := assert (str_in modality ["rgb"; "flow"]%string) in
  let! _u := (if String.eqb mode "train"
              then assert (String.eqb load_mode "clip") else Ok tt) in
  if String.eqb load_mode "clip" then assert (clips_per_video =? 1)
  else assert (1 <? clips_per_video).

(** The frame directory of a dataset and modality, lines 65-79. *)
Definition frame_dir (E : env) (path dataset modality : string) : string :=
  if String.eqb dataset "ucf" then
    if String.eqb modality "rgb"
    then path_join E (path_join E path "ucf101_jpegs_256") "jpegs_256"
    else path_join E (path_join E path "ucf101_tvl1_flow") "tvl1_flow"
  else
    if String.eqb modality "rgb"
    then path_join E (path_join E path "hmdb51_jpegs_256") "jpegs_256"
    else path_join E (path_join E path "hmdb51_tvl1_flow") "tvl1_flow".

Definition dataset_name (dataset : string) : outcome string :=
  if String.eqb dataset "ucf" then Ok "UCF-101"%string
  else if String.eqb dataset "hmdb" then Ok "HMDB-51"%string
  else Raise IndexError.

(** The loop over the lines of the mapping file, lines 93-101. *)
Fixpoint read_mapping (E : env) (dir modality : string) (buffer_str : list string)
  : outcome (list (list string) * list string) :=
  match buffer_str with
  | [] => Ok ([], [])
  | line :: rest =>
      let buffer_map := split_on " " line in
      let! token := py_index buffer_map 0 in
      let! name := py_index (split_on "." token) 0 in
      let names :=
        if String.eqb modality "rgb" then [path_join E dir name]
        else [path_join E (path_join E dir "u") name;
              path_join E (path_join E dir "v") name] in
      let! label := py_index buffer_map 1 in
      let! r := read_mapping E dir modality rest in
      Ok (names :: fst r, label :: snd r)
  end.

Definition len (clip_names : list (list string)) (labels : list Z) : outcome Z :=
  let! _u := assert (length clip_names =? length labels)%nat in
  Ok (Z.of_nat (length labels)).

Definition __len__ (self : t) : outcome Z := len (_clip_names self) (_labels self).

(** [[random.randrange(0, self.__len__()) for i in range(test_amt)]] *)
Fixpoint sample_indices (clip_names : list (list string)) (labels : list Z)
         (range : list Z) : M (list Z) :=
  match range with
  | [] => ret []
  | _ :: rest =>
      n <- lift (len clip_names labels) ;;
      i <- randrange0 n ;;
      r <- sample_indices clip_names labels rest ;;
      ret (i :: r)
  end.

Definition __init__ (E : env) (path dataset : string) (split : Z) (mode modality : string)
           (clip_len : Z) (test_mode : bool) (test_amt : Z) (load_mode : string)
           (clips_per_video : Z) : M t :=
  _u <- lift (validate dataset split mode modality load_mode clips_per_video) ;;
  name <- lift (dataset_name dataset) ;;
  let dir := frame_dir E path dataset modality in
  let txt_file := (dataset ++ "_" ++ mode ++ "list0" ++ str_of_int split ++ ".txt")%string in
  content <- lift (match read_text E (path_join E ("mapping/" ++ name)%string txt_file) with
                   | Some c => Ok c
                   | None => Raise FileNotFoundError
                   end) ;;
  let buffer_str := removelast (split_on newline content) in
  m <- lift (read_mapping E dir modality buffer_str) ;;
  labels <- lift (convert_labels E (snd m)) ;;
  cl <- (if test_mode then
           indices <- sample_indices (fst m) labels (py_range 0 test_amt) ;;
           names <- lift (select (fst m) indices) ;;
           labels <- lift (select labels indices) ;;
           ret (names, labels)
         else ret (fst m, labels)) ;;
  ret (mk 128 171 112 112 mode clip_len load_mode clips_per_video modality
          (fst cl) (snd cl)).

Definition __getitem__ (E : env) (fuel : nat) (self : t) (index : Z)
  : M (ndarray fval * Z) :=
  frames_path <- lift (py_index (_clip_names self) index) ;;
  buffer <- call_load_clips E fuel
              [PStrs frames_path; PStr (_modality self);
               PInt (_resize_height self); PInt (_resize_width self);
               PInt (_crop_height self); PInt (_crop_width self);
               PInt (_crop_depth self)]
              [("mode"%string, PStr (_load_mode self));
               ("clips_per_video"%string, PInt (_clips_per_video self))] ;;
  label <- lift (py_index (_labels self) index) ;;
  ret (buffer, label).

End VideoDataset.

(** ** The canonical shape *)

(** The shape of a returned volume: channel first for one clip, clip first
    and channel second for the clips of a test. *)
Definition canonical_shape (modality mode : string) (clip_len crop_h crop_w : Z)
  : list nat :=
  let channels := Z.to_nat (frame_chn_of modality) in
  if str_in mode ["train"; "validation"]%string
  then [channels; Z.to_nat clip_len; Z.to_nat crop_h; Z.to_nat crop_w]
  else [Z.to_nat (clips_per_video_of mode); channels;
        Z.to_nat clip_len; Z.to_nat crop_h; Z.to_nat crop_w].

(** ** Valid calls of the frame assembler *)

(** The sorted listing of a frame directory. *)
Definition listing_of (E : env) (dir : string) : list string :=
  sort (glob E (dir ++ "/*.jpg")%string).

(** The frame count of a call: the length of the first listing. *)
Definition frame_count_of (E : env) (frames_path : list string) : Z :=
  match frames_path with
  | d :: _ => Z.of_nat (length (listing_of E d))
  | [] => 0
  end.

(** A call within the preconditions of the assembler: a known usage mode;
    one directory of frames that all decode for colour, two directories of
    as many frames for flow; a video of one frame or more; a clip length and
    a crop of one or more that fits the scaled frame, strictly for the
    random crop of training; and, in training, not 32 frames with a clip
    length of 64 or more. *)
Definition valid_call (E : env) (frames_path : list string) (modality : string)
           (scale_h scale_w crop_h crop_w clip_len : Z) (mode : string) : Prop :=
  In mode ["train"; "validation"; "test"]%string /\
  1 <= frame_count_of E frames_path /\
  1 <= clip_len /\
  1 <= crop_h <= scale_h /\ 1 <= crop_w <= scale_w /\
  (mode = "train"%string ->
   crop_h < scale_h /\ crop_w < scale_w /\
   ~ (frame_count_of E frames_path = 32 /\ 64 <= clip_len)) /\
  ((modality = "rgb"%string /\
    exists d0, frames_path = [d0] /\
               forall p, In p (listing_of E d0) -> decode E p <> None) \/
   (modality = "flow"%string /\
    exists d0 d1, frames_path = [d0; d1] /\
                  length (listing_of E d1) = length (listing_of E d0))).

(** The latest end of a list of windows. *)
Definition max_end (ws : list (Z * Z)) : Z :=
  fold_right (fun w m => Z.max (snd w) m) 0 ws.

(** ** Frames that fail to decode *)

(** The path of the frame of direction [i] at index [ccount]. *)
Definition frame_path (path_content : list (list string)) (i ccount : Z) : string :=
  match py_index path_content i with
  | Ok listing => match py_index listing ccount with
                  | Ok path => path
                  | _ => EmptyString
                  end
  | _ => EmptyString
  end.

(** In flow modality, the frame of direction [i] at position [count] of a
    video of [frame_count] frames cannot be decoded. *)
Definition missing (E : env) (modality : string) (path_content : list (list string))
           (frame_count i count : Z) : Prop :=
  modality = "flow"%string /\
  decode E (frame_path path_content i (count mod frame_count)) = None.

(** The elements of the buffer whose frame cannot be decoded. *)
Definition skipped (E : env) (modality : string) (path_content : list (list string))
           (frame_count : Z) (t_index : list (Z * Z)) (idx : list nat) : Prop :=
  match idx with
  | [n; l; _; _; k] =>
      exists window,
        nth_error t_index n = Some window /\
        missing E modality path_content frame_count (Z.of_nat k) (fst window + Z.of_nat l)
  | _ => False
  end.

(** The indices of the slot of clip [c], position [t] and, when given,
    channel [i]. *)
Definition in_slot (c t : Z) (i : option Z) (idx : list nat) : Prop :=
  match idx with
  | [n; l; _; _; k] =>
      n = Z.to_nat c /\ l = Z.to_nat t /\
      match i with Some i => k = Z.to_nat i | None => True end
  | _ => False
  end.

(** A window of [c] frames. *)
Definition has_width (c : Z) (w : Z * Z) : Prop := snd w = fst w + c.

(** ** What the loading loops keep *)

(** The shape of the buffer of a call. *)
Definition good_shape (modality : string) (crop_h crop_w : Z) (N : nat) (L : Z)
           (buffer : ndarray fval) : Prop :=
  shape buffer = [N; Z.to_nat L; Z.to_nat crop_h; Z.to_nat crop_w;
                  Z.to_nat (frame_chn_of modality)].

(** What a part of the loading leaves: the shape, the uninitialised memory
    and what was printed before are kept, and so is every element whose
    frame cannot be decoded. *)
Definition keeps (E : env) (modality : string) (crop_h crop_w : Z)
           (listing0 : list string) (path_content : list (list string))
           (t_index : list (Z * Z)) (N : nat) (L : Z)
           (buffer : ndarray fval) (w : world) (b' : ndarray fval) (w' : world) : Prop :=
  good_shape modality crop_h crop_w N L b' /\ uninit w' = uninit w /\
  incl (stdout w) (stdout w') /\
  forall idx,
    skipped E modality path_content (Z.of_nat (length listing0)) t_index idx ->
    item b' idx = item buffer idx.

(** ** The configurations the specification rejects *)

(** The configurations that must fail at construction: an unknown dataset,
    split, mode or modality, train mode with multi-clip loading, single-clip
    loading with a clip count other than one, multi-clip loading with a clip
    count of one or less. *)
Definition invalid_configuration (dataset : string) (split : Z)
           (mode modality load_mode : string) (clips_per_video : Z) : Prop :=
  ~ In dataset ["ucf"; "hmdb"]%string \/
  ~ In split [1; 2; 3] \/
  ~ In mode ["train"; "test"]%string \/
  ~ In modality ["rgb"; "flow"]%string \/
  (mode = "train"%string /\ load_mode <> "clip"%string) \/
  (load_mode = "clip"%string /\ clips_per_video <> 1) \/
  (load_mode <> "clip"%string /\ clips_per_video <= 1).

(** The mapping file of the configuration is there, every line of it has a
    path token and a label that converts to an integer, and there is a
    sample to draw when the reduced subset is asked for. *)
Definition mapping_loads (E : env) (path dataset : string) (split : Z)
           (mode modality : string) (test_mode : bool) (test_amt : Z) : Prop :=
  exists name content m labels,
    VideoDataset.dataset_name dataset = Ok name /\
    read_text E (path_join E ("mapping/" ++ name)%string
                   (dataset ++ "_" ++ mode ++ "list0" ++ str_of_int split ++ ".txt")%string)
      = Some content /\
    VideoDataset.read_mapping E (VideoDataset.frame_dir E path dataset modality) modality
                              (removelast (split_on newline content)) = Ok m /\
    convert_labels E (snd m) = Ok labels /\
    (test_mode = true -> 0 < test_amt -> labels <> []).

(** ** A small world to run the model in *)

Definition demo_image : image :=
  mk_image 4 5 (fun r c k => Z.of_nat (r + c + k)) (fun r c => Z.of_nat (r * c)).

(** Two lines of a mapping file. *)
Definition demo_mapping : string :=
  ("v_Foo_g01_c01.avi 7" ++ String newline ("v_Bar_g02_c03.avi 3" ++ String newline ""))%string.

(** Three frames in each of the directories [u], [v] and [c]; the second
    frame of [u] cannot be decoded. *)
Definition demo_env : env :=
  mk_env
    (fun pattern =>
       if String.eqb pattern "u/*.jpg" then ["u/2.jpg"; "u/1.jpg"; "u/3.jpg"]%string
       else if String.eqb pattern "v/*.jpg" then ["v/2.jpg"; "v/1.jpg"; "v/3.jpg"]%string
       else if String.eqb pattern "c/*.jpg" then ["c/3.jpg"; "c/2.jpg"; "c/1.jpg"]%string
       else [])
    (fun path => if String.eqb path "u/2.jpg" then None else Some demo_image)
    (fun src h w idx => item src idx)
    (fun path => if String.eqb path "mapping/UCF-101/ucf_testlist01.txt"
                 then Some demo_mapping else None)
    (fun a b => (a ++ "/" ++ b)%string)
    (fun s => if String.eqb s "7" then Some 7
              else if String.eqb s "3" then Some 3 else None).

(** A world whose generators follow fixed sequences and whose fresh memory
    holds the value 255 everywhere. *)
Definition demo_world : world :=
  mk_world (fun n => Z.of_nat n * 7 + 3) 0 (fun n => Z.of_nat n * 5 + 1) 0 []
           (fun _ => Fin 255).

(** The provider that the demonstration code of [dataset.py] builds, over
    the two samples of [demo_mapping]. *)
Definition demo_provider : VideoDataset.t :=
  VideoDataset.mk 128 171 112 112 "test" 16 "video" 10 "rgb"
                  [["root/ucf101_jpegs_256/jpegs_256/v_Foo_g01_c01"%string];
                   ["root/ucf101_jpegs_256/jpegs_256/v_Bar_g02_c03"%string]]
                  [7; 3].

(** The windows of a test on three frames with a clip length of two. *)
Definition demo_windows : list (Z * Z) * ((Z * Z) * (Z * Z)) :=
  ([(0, 2); (0, 2); (0, 2); (0, 2); (0, 2); (0, 2); (0, 2); (0, 2); (0, 2); (1, 3)],
   ((0, 2), (1, 3))).

(** A buffer of two rows of intensities. *)
Definition ramp_buffer : ndarray fval :=
  mk_nd [2; 3]%nat (fun idx => match idx with
                               | [i; j] => to_float (Z.of_nat (100 * i + 50 * j))
                               | _ => NaN
                               end).

(** One clip of two frames of two pixels and two channels, every value
    different over time. *)
Definition moving_buffer : ndarray fval :=
  mk_nd [1; 2; 1; 2; 2]%nat
        (fun idx => match idx with
                    | [n; l; h; w; c] => to_float (Z.of_nat (l * (w + 1) + c * 7 + l))
                    | _ => NaN
                    end).

(** The same clip with no motion: every frame is the same. *)
Definition still_buffer : ndarray fval :=
  mk_nd [1; 2; 1; 2; 2]%nat (fun _ => to_float 5).

(** ** The remaining functions of the module *)

(** [transpose_video_buffer]: from (clip, chnl, depth, h, w) back to
    (clip, depth, h, w, chnl). *)
Definition transpose_video_buffer {V : Type} (buffer : ndarray V) : outcome (ndarray V) :=
  transpose buffer [0; 2; 3; 4; 1]%nat.

(** [transpose_clip_buffer]: from (chnl, depth, h, w) back to
    (depth, h, w, chnl). *)
Definition transpose_clip_buffer {V : Type} (buffer : ndarray V) : outcome (ndarray V) :=
  transpose buffer [1; 2; 3; 0]%nat.

(** The length that [temporal_center_crop] centres the clip in: the frame
    count, looped when it is shorter than the clip. *)
Definition centre_len (buffer_len clip_len : Z) : Z :=
  if clip_len <=? buffer_len then buffer_len
  else buffer_len * Qceiling (inject_Z clip_len / inject_Z buffer_len).

(** The sum of the values of a list of finite numbers. *)
Fixpoint qsum (l : list fval) : Q :=
  match l with
  | [] => 0
  | x :: rest => qval x + qsum rest
  end.

(** ** Well-formed mapping files *)

(** Whether a character occurs in a string. *)
Fixpoint has_char (ch : ascii) (s : string) : bool :=
  match s with
  | EmptyString => false
  | String x rest => Ascii.eqb x ch || has_char ch rest
  end.

(** A sample as a mapping file names it: the name of its frame directory,
    the extension of the video file, and its label as written and as an
    integer. *)
Record sample : Type := mk_sample {
  sample_name : string;
  sample_ext : string;
  sample_label : string;
  sample_class : Z
}.

(** The line of a sample, without its newline. *)
Definition mapping_line (s : sample) : string :=
  (sample_name s ++ "." ++ sample_ext s ++ " " ++ sample_label s)%string.

(** The text of a mapping file: every line ends with a newline. *)
Fixpoint mapping_text (samples : list sample) : string :=
  match samples with
  | [] => EmptyString
  | s :: rest => (mapping_line s ++ String newline (mapping_text rest))%string
  end.

(** The name holds no dot, no space and no newline, the extension and the
    label no space and no newline, and the label converts to the class. *)
Definition well_formed_sample (E : env) (s : sample) : Prop :=
  has_char "." (sample_name s) = false /\
  has_char " " (sample_name s) = false /\
  has_char newline (sample_name s) = false /\
  has_char " " (sample_ext s) = false /\
  has_char newline (sample_ext s) = false /\
  has_char " " (sample_label s) = false /\
  has_char newline (sample_label s) = false /\
  np_int E (sample_label s) = Some (sample_class s).

(** The frame directories of a sample under a frame root. *)
Definition sample_dirs (E : env) (dir modality : string) (s : sample) : list string :=
  if String.eqb modality "rgb" then [path_join E dir (sample_name s)]
  else [path_join E (path_join E dir "u") (sample_name s);
        path_join E (path_join E dir "v") (sample_name s)].

(** The samples of [demo_mapping]. *)
Definition demo_samples : list sample :=
  [mk_sample "v_Foo_g01_c01" "avi" "7" 7; mk_sample "v_Bar_g02_c03" "avi" "3" 3].

(** ** What the assembled buffer holds *)

(** The pixel that the loading loops store at row [h], column [x] and
    channel [k] of a slot, for the frame at index [ccount]: the frame of the
    listing (converted to RGB for colour, the flow direction [k] in grey
    levels for flow), resized, at the offset of the spatial window; [None]
    when the frame cannot be decoded. *)
Definition frame_pixel (E : env) (modality : string) (path_content : list (list string))
           (scale_h scale_w : Z) (s_index : (Z * Z) * (Z * Z)) (ccount : Z)
           (h x k : nat) : option Z :=
  let row := (Z.to_nat (fst (fst s_index)) + h)%nat in
  let col := (Z.to_nat (fst (snd s_index)) + x)%nat in
  if String.eqb modality "rgb" then
    match cvtColor_BGR2RGB (imread E (frame_path path_content 0 ccount) IMREAD_COLOR) with
    | Ok g =>
        match resize E g scale_w scale_h with
        | Ok r => Some (item r [row; col; k])
        | _ => None
        end
    | _ => None
    end
  else
    match imread E (frame_path path_content (Z.of_nat k) ccount) IMREAD_GRAYSCALE with
    | Some f =>
        match resize E f scale_w scale_h with
        | Ok r => Some (item r [row; col])
        | _ => None
        end
    | None => None
    end.

(** What the element at [idx] holds once its slot has been loaded, in a
    buffer that was [buffer] before: the pixel of the frame at the looped
    position of the window, or what the buffer held when there is none. *)
Definition expected_item (E : env) (modality : string) (path_content : list (list string))
           (scale_h scale_w : Z) (s_index : (Z * Z) * (Z * Z)) (frame_count : Z)
           (t_index : list (Z * Z)) (buffer : ndarray fval) (idx : list nat) : fval :=
  match idx with
  | [n; l; h; x; k] =>
      match nth_error t_index n with
      | Some window =>
          match frame_pixel E modality path_content scale_h scale_w s_index
                            ((fst window + Z.of_nat l) mod frame_count) h x k with
          | Some z => to_float z
          | None => item buffer idx
          end
      | None => item buffer idx
      end
  | _ => item buffer idx
  end.

Lemma sample_len_le (b c : Z) :
  Qle_bool (sample_len c) (inject_Z b) = (3 * c <=? 2 * b).
Proof.
  apply Bool.eq_true_iff_eq. rewrite Qle_bool_iff, Z.leb_le.
  unfold sample_len, Qle, Qplus, Qdiv, Qmult, Qinv, inject_Z. cbn [Qnum Qden Pos.mul]. lia.
Qed.

Lemma too_short_lt (b c : Z) : too_short b c = (2 * b <? 3 * c).
Proof.
  unfold too_short. rewrite sample_len_le.
  destruct (Z.leb_spec (3 * c) (2 * b)), (Z.ltb_spec (2 * b) (3 * c)); simpl; auto; lia.
Qed.

Lemma double_buffer_len_spec (m : nat) :
  forall b c, 1 <= b -> (Z.to_nat (3 * c - 2 * b) <= m)%nat ->
  exists k : nat,
    (forall j, (j < k)%nat -> 2 * (b * 2 ^ Z.of_nat j) < 3 * c) /\
    3 * c <= 2 * (b * 2 ^ Z.of_nat k) /\
    forall fuel, (k < fuel)%nat -> double_buffer_len fuel b c = Ok (b * 2 ^ Z.of_nat k).
Proof.
  induction m as [|m IH]; intros b c Hb Hm.
  - exists O. split; [intros j Hj; lia|]. split; [try change (Z.of_nat 0) with 0; rewrite ?Z.pow_0_r; lia|].
    intros [|fuel] Hf; [lia|]. simpl. rewrite too_short_lt.
    destruct (Z.ltb_spec (2 * b) (3 * c)); [lia | f_equal; try change (Z.of_nat 0) with 0; rewrite ?Z.pow_0_r; lia].
  - destruct (Z.leb_spec (3 * c) (2 * b)) as [Hle|Hgt].
    + exists O. split; [intros j Hj; lia|]. split; [try change (Z.of_nat 0) with 0; rewrite ?Z.pow_0_r; lia|].
      intros [|fuel] Hf; [lia|]. simpl. rewrite too_short_lt.
      destruct (Z.ltb_spec (2 * b) (3 * c)); [lia | f_equal; try change (Z.of_nat 0) with 0; rewrite ?Z.pow_0_r; lia].
    + destruct (IH (b * 2) c) as (k & Hlt & Hge & Hrun); [lia | lia |].
      exists (S k). 
      assert (Hpow : forall j : nat, b * 2 * 2 ^ Z.of_nat j = b * 2 ^ Z.of_nat (S j)).
      { intros j. rewrite Nat2Z.inj_succ, Z.pow_succ_r by lia. ring. }
      split; [|split].
      * intros [|j] Hj; [try change (Z.of_nat 0) with 0; rewrite ?Z.pow_0_r; lia|]. rewrite <- Hpow. apply Hlt. lia.
      * rewrite <- Hpow. exact Hge.
      * intros [|fuel] Hf; [lia|]. simpl double_buffer_len. rewrite too_short_lt.
        destruct (Z.ltb_spec (2 * b) (3 * c)); [|lia].
        rewrite Hrun by lia. f_equal. apply Hpow.
Qed.

Lemma py_index_nonneg {A : Type} (l : list A) (i : Z) (a : A) :
  nth_error l (Z.to_nat i) = Some a -> 0 <= i -> py_index l i = Ok a.
Proof.
  intros Hn Hi. unfold py_index.
  assert (Hlt : (Z.to_nat i < length l)%nat) by (apply nth_error_Some; congruence).
  destruct (Z.leb_spec 0 i); [|lia].
  destruct (Z.ltb_spec i (Z.of_nat (length l))); [|lia].
  simpl. rewrite Hn. reflexivity.
Qed.

Lemma py_index_last {A : Type} (l : list A) (x : A) :
  py_index (l ++ [x]) (Z.of_nat (length l)) = Ok x.
Proof.
  apply py_index_nonneg; [|lia].
  rewrite Nat2Z.id, nth_error_app2, Nat.sub_diag by lia. reflexivity.
Qed.

Lemma py_index_in_range {A : Type} (l : list A) (i : Z) :
  0 <= i < Z.of_nat (length l) -> exists a, py_index l i = Ok a /\ In a l.
Proof.
  intros Hi. destruct (nth_error l (Z.to_nat i)) as [a|] eqn:Hn.
  - exists a. split; [apply py_index_nonneg; [exact Hn | lia] | eapply nth_error_In; eauto].
  - apply nth_error_None in Hn. lia.
Qed.

Lemma py_round_nonneg (x : Q) : (0 <= x)%Q -> 0 <= py_round x.
Proof.
  intros Hx. unfold py_round.
  assert (Hf : 0 <= Qfloor x).
  { change 0 with (Qfloor 0). apply Qfloor_resp_le. exact Hx. }
  destruct (_ ?= _)%Q; [destruct (Z.even _)|..]; lia.
Qed.

Lemma middle_windows_spec (sp : Q) (c : Z) :
  forall (m s : nat) (indices : list (Z * Z)),
    length indices = S s ->
    Forall (has_width c) indices ->
    exists extra,
      middle_windows (map (fun k => 1 + Z.of_nat k) (seq s m)) sp c indices
        = Ok (indices ++ extra) /\
      length extra = m /\
      Forall (has_width c) extra /\
      ((0 <= inject_Z c + sp)%Q ->
       Forall (fun w => 0 <= fst w) indices ->
       Forall (fun w => 0 <= fst w) extra).
Proof.
  induction m as [|m IH]; intros s indices Hlen Hw.
  - exists []. simpl. rewrite app_nil_r. repeat split; auto.
  - destruct (exists_last (l := indices)) as (front & prev & ->).
    { intros ->. discriminate. }
    rewrite length_app in Hlen. simpl in Hlen.
    assert (Hs : length front = s) by lia.
    cbn [map seq middle_windows].
    replace (1 + Z.of_nat s - 1) with (Z.of_nat (length front)) by lia.
    rewrite py_index_last. cbn [obind].
    set (start := py_round (inject_Z (snd prev) + sp)).
    destruct (IH (S s) ((front ++ [prev]) ++ [(start, start + c)]))
      as (extra & Hrun & Hlen' & Hw' & Hpos).
    { rewrite !length_app. simpl. lia. }
    { apply Forall_app. split; [exact Hw|]. constructor; [reflexivity|constructor]. }
    exists ((start, start + c) :: extra).
    rewrite Hrun. split; [rewrite <- app_assoc; reflexivity|].
    split; [simpl; lia|]. split; [constructor; [reflexivity | exact Hw']|].
    intros Hsp Hnn.
    assert (Hprev : has_width c prev /\ 0 <= fst prev).
    { apply Forall_app in Hw. apply Forall_app in Hnn.
      destruct Hw as [_ Hw]. destruct Hnn as [_ Hnn].
      inversion Hw; inversion Hnn; subst. auto. }
    destruct Hprev as [Hpw Hpn].
    assert (Hstart : 0 <= start).
    { apply py_round_nonneg. rewrite Hpw, inject_Z_plus.
      assert (0 <= inject_Z (fst prev))%Q
        by (change (inject_Z 0 <= inject_Z (fst prev))%Q; rewrite <- Zle_Qle; exact Hpn).
      lra. }
    constructor; [exact Hstart|].
    apply Hpos; [exact Hsp|].
    apply Forall_app. split; [exact Hnn|]. constructor; [exact Hstart|constructor].
Qed.

Lemma py_range_from_1 (n : Z) :
  py_range 1 (n - 1) = map (fun k => 1 + Z.of_nat k) (seq 0 (Z.to_nat (n - 2))).
Proof. unfold py_range. f_equal. f_equal. lia. Qed.

Lemma py_index_not_out_of_fuel {A : Type} (l : list A) (i : Z) :
  py_index l i <> OutOfFuel.
Proof.
  unfold py_index.
  destruct (_ && _); [destruct (nth_error _ _); discriminate|].
  destruct (_ && _); [destruct (nth_error _ _); discriminate|discriminate].
Qed.

Lemma middle_windows_not_out_of_fuel (sp : Q) (c : Z) :
  forall range indices, middle_windows range sp c indices <> OutOfFuel.
Proof.
  induction range as [|i rest IH]; intros indices; simpl; [discriminate|].
  destruct (py_index indices (i - 1)) eqn:Hp; simpl;
    [apply IH | discriminate | exact (fun _ => py_index_not_out_of_fuel _ _ Hp)].
Qed.

(** With the clip length added, the spacing is the free length divided among
    the gaps. *)
Lemma spacing_plus_clip (b c n : Z) :
  2 <= n -> 0 <= c -> c <= b ->
  (0 <= inject_Z c + inject_Z (b - c * n) / inject_Z (n - 1))%Q.
Proof.
  intros Hn Hc Hb.
  assert (Hd : (0 < inject_Z (n - 1))%Q).
  { change (inject_Z 0 < inject_Z (n - 1))%Q. rewrite <- Zlt_Qlt. lia. }
  assert (H1 : (- inject_Z c <= inject_Z (b - c * n) / inject_Z (n - 1))%Q).
  { apply Qle_shift_div_l; [exact Hd|].
    rewrite <- inject_Z_opp, <- inject_Z_mult, <- Zle_Qle. nia. }
  revert H1. generalize (inject_Z (b - c * n) / inject_Z (n - 1))%Q (inject_Z c).
  intros x y H1. lra.
Qed.

Lemma last_app_one {A : Type} (l : list A) (x d : A) : last (l ++ [x]) d = x.
Proof. apply last_last. Qed.

(** What [temporal_uniform_crop] returns for two clips or more. *)
Lemma temporal_uniform_crop_spec (b c n : Z) :
  1 <= b -> 2 <= n ->
  exists k : nat,
    (forall j, (j < k)%nat -> 2 * (b * 2 ^ Z.of_nat j) < 3 * c) /\
    3 * c <= 2 * (b * 2 ^ Z.of_nat k) /\
    forall fuel, (k < fuel)%nat ->
      double_buffer_len fuel b c = Ok (b * 2 ^ Z.of_nat k) /\
      exists ws,
        temporal_uniform_crop fuel b c n = Ok ws /\
        length ws = Z.to_nat n /\
        Forall (has_width c) ws /\
        nth_error ws 0 = Some (0, c) /\
        last ws (0, 0) = (b * 2 ^ Z.of_nat k - c, b * 2 ^ Z.of_nat k) /\
        (0 <= c -> Forall (fun w => 0 <= fst w) ws).
Proof.
  intros Hb Hn.
  destruct (double_buffer_len_spec (Z.to_nat (3 * c - 2 * b)) b c Hb (le_n _))
    as (k & Hlt & Hge & Hrun).
  exists k. split; [exact Hlt|]. split; [exact Hge|].
  intros fuel Hf. split; [apply Hrun; exact Hf|].
  unfold temporal_uniform_crop. rewrite (Hrun fuel Hf). cbn [obind].
  set (b' := b * 2 ^ Z.of_nat k) in *.
  destruct (Z.eqb_spec (n - 1) 0) as [Hz|_]; [lia|]. cbn [obind].
  set (sp := (inject_Z (b' - c * n) / inject_Z (n - 1))%Q).
  rewrite py_range_from_1.
  destruct (middle_windows_spec sp c (Z.to_nat (n - 2)) 0 [(0, c)])
    as (extra & Hmid & Hlen & Hw & Hpos).
  { reflexivity. }
  { constructor; [reflexivity|constructor]. }
  rewrite Hmid. cbn [obind].
  exists (([(0, c)] ++ extra) ++ [(b' - c, b')]).
  split; [reflexivity|]. split.
  { rewrite !length_app. simpl. lia. }
  split.
  { apply Forall_app. split.
    - constructor; [reflexivity | exact Hw].
    - constructor; [unfold has_width; simpl; lia | constructor]. }
  split; [reflexivity|]. split; [apply last_app_one|].
  intros Hc. apply Forall_app. split.
  - constructor; [simpl; lia|]. apply Hpos.
    + apply spacing_plus_clip; lia.
    + constructor; [simpl; lia|constructor].
  - constructor; [simpl; lia|constructor].
Qed.

(** C3, as the code has it: for frame_count >= 1, clip_len >= 1 and two clips
    or more, [temporal_uniform_crop] returns exactly [n] windows, each of
    width [clip_len]; the first is [(0, clip_len)] and the last ends at the
    frame count the doubling loop leaves. *)
Theorem uniform_windows_spec (frame_count clip_len n : Z) :
  1 <= frame_count -> 1 <= clip_len -> 2 <= n ->
  exists (fuel0 : nat) (doubled : Z),
    forall fuel, (fuel0 <= fuel)%nat ->
      double_buffer_len fuel frame_count clip_len = Ok doubled /\
      exists ws,
        temporal_uniform_crop fuel frame_count clip_len n = Ok ws /\
        Z.of_nat (length ws) = n /\
        Forall (fun w => snd w - fst w = clip_len) ws /\
        nth_error ws 0 = Some (0, clip_len) /\
        snd (last ws (0, 0)) = doubled.
Proof.
  intros Hb Hc Hn.
  destruct (temporal_uniform_crop_spec frame_count clip_len n Hb Hn)
    as (k & _ & _ & Hrun).
  exists (S k), (frame_count * 2 ^ Z.of_nat k). intros fuel Hf.
  destruct (Hrun fuel) as (Hd & ws & Hws & Hlen & Hw & Hfirst & Hlast & _); [lia|].
  split; [exact Hd|]. exists ws. split; [exact Hws|].
  split; [lia|]. split.
  - eapply Forall_impl; [|exact Hw]. unfold has_width. intros w H. lia.
  - split; [exact Hfirst|]. rewrite Hlast. reflexivity.
Qed.

Lemma uniform_windows_spec_witness :
  exists (fuel0 : nat) (doubled : Z),
    forall fuel, (fuel0 <= fuel)%nat ->
      double_buffer_len fuel 5 16 = Ok doubled /\
      exists ws,
        temporal_uniform_crop fuel 5 16 10 = Ok ws /\
        Z.of_nat (length ws) = 10 /\
        Forall (fun w => snd w - fst w = 16) ws /\
        nth_error ws 0 = Some (0, 16) /\
        snd (last ws (0, 0)) = doubled.
Proof. apply (uniform_windows_spec 5 16 10); lia. Defined.

(** C3 fails for a single clip: the spacing divides by [clips_per_video - 1]. *)
Lemma uniform_windows_one_clip :
  temporal_uniform_crop 10 5 16 1 = Raise ZeroDivisionError /\
  forall fuel, ~ exists ws, temporal_uniform_crop fuel 5 16 1 = Ok ws /\ length ws = 1%nat.
Proof.
  split; [reflexivity|].
  intros fuel (ws & Hws & _). unfold temporal_uniform_crop in Hws.
  destruct (double_buffer_len fuel 5 16); simpl in Hws; discriminate.
Qed.

(** C10: for frame_count >= 1 the doubling loop of [temporal_uniform_crop]
    grows the frame count strictly on each of its [k] turns, stops after
    them, and the function then ends, with windows or an exception. *)
Theorem temporal_uniform_crop_terminates (frame_count clip_len n : Z) :
  1 <= frame_count ->
  exists k : nat,
    (forall j, (j < k)%nat ->
       too_short (frame_count * 2 ^ Z.of_nat j) clip_len = true /\
       frame_count * 2 ^ Z.of_nat j < frame_count * 2 ^ Z.of_nat j * 2) /\
    too_short (frame_count * 2 ^ Z.of_nat k) clip_len = false /\
    forall fuel, (k < fuel)%nat ->
      double_buffer_len fuel frame_count clip_len = Ok (frame_count * 2 ^ Z.of_nat k) /\
      temporal_uniform_crop fuel frame_count clip_len n <> OutOfFuel.
Proof.
  intros Hb.
  destruct (double_buffer_len_spec (Z.to_nat (3 * clip_len - 2 * frame_count))
              frame_count clip_len Hb (le_n _)) as (k & Hlt & Hge & Hrun).
  exists k. split; [|split].
  - intros j Hj. rewrite too_short_lt. split.
    + apply Z.ltb_lt. apply Hlt. exact Hj.
    + assert (0 < 2 ^ Z.of_nat j) by (apply Z.pow_pos_nonneg; lia). nia.
  - rewrite too_short_lt. apply Z.ltb_ge. exact Hge.
  - intros fuel Hf. split; [apply Hrun; exact Hf|].
    unfold temporal_uniform_crop. rewrite (Hrun fuel Hf). cbn [obind].
    destruct (_ =? 0); cbn [obind]; [discriminate|].
    destruct (middle_windows _ _ _ _) eqn:Hm; cbn [obind]; try discriminate.
    exact (fun _ => middle_windows_not_out_of_fuel _ _ _ _ Hm).
Qed.

Lemma temporal_uniform_crop_terminates_witness :
  exists k : nat,
    (forall j, (j < k)%nat ->
       too_short (5 * 2 ^ Z.of_nat j) 16 = true /\
       5 * 2 ^ Z.of_nat j < 5 * 2 ^ Z.of_nat j * 2) /\
    too_short (5 * 2 ^ Z.of_nat k) 16 = false /\
    forall fuel, (k < fuel)%nat ->
      double_buffer_len fuel 5 16 = Ok (5 * 2 ^ Z.of_nat k) /\
      temporal_uniform_crop fuel 5 16 10 <> OutOfFuel.
Proof. apply (temporal_uniform_crop_terminates 5 16 10); lia. Defined.

(** ** Random windows *)

Ltac msimpl := unfold bind, lift, ret; cbn beta iota.

Lemma randint_spec (high : Z) (w : world) :
  0 < high ->
  exists r w', randint high w = Ok (r, w') /\ 0 <= r < high.
Proof.
  intros Hh. unfold randint. destruct (Z.leb_spec high 0); [lia|].
  eexists _, _. split; [reflexivity|]. apply Z.mod_pos_bound. exact Hh.
Qed.

Lemma randint_empty (high : Z) (w : world) : high <= 0 -> randint high w = Raise ValueError.
Proof. intros Hh. unfold randint. destruct (Z.leb_spec high 0); [reflexivity|lia]. Qed.

(** The looped length covers the clip whenever the multiplier is computed. *)
Lemma crop_multiplier_covers (b c : Z) :
  1 <= b -> b <> 32 -> 2 * b < 3 * c -> 3 * c <= 2 * (b * crop_multiplier b c).
Proof.
  intros Hb H32 Hlt. unfold crop_multiplier.
  destruct (Z.eqb_spec b 32); [contradiction|].
  destruct (Z.eqb_spec b 0); [lia|]. cbn [negb andb].
  set (m := Qceiling (sample_len c / inject_Z b)).
  assert (Hm : (sample_len c / inject_Z b <= inject_Z m)%Q) by apply Qle_ceiling.
  assert (Hbq : (0 < inject_Z b)%Q).
  { change (inject_Z 0 < inject_Z b)%Q. rewrite <- Zlt_Qlt. lia. }
  assert (Hs : (sample_len c <= inject_Z m * inject_Z b)%Q).
  { apply (Qmult_le_compat_r _ _ (inject_Z b)) in Hm; [|apply Qlt_le_weak; exact Hbq].
    rewrite Qmult_comm, Qmult_div_r in Hm; [exact Hm|].
    intros H0. rewrite H0 in Hbq. apply (Qlt_irrefl 0 Hbq). }
  rewrite <- inject_Z_mult in Hs.
  assert (Hb' := sample_len_le (m * b) c).
  apply Qle_bool_iff in Hs. rewrite Hs in Hb'. symmetry in Hb'. apply Z.leb_le in Hb'. lia.
Qed.

Lemma temporal_crop_spec (b c : Z) (w : world) :
  1 <= b -> ~ (b = 32 /\ 64 <= c) ->
  exists s w', temporal_crop b c w = Ok ((s, s + c), w') /\
               0 <= s /\ s + c <= looped_len b c.
Proof.
  intros Hb H32. unfold temporal_crop, looped_len, bind, ret.
  rewrite sample_len_le. destruct (Z.leb_spec (3 * c) (2 * b)) as [Hle|Hgt].
  - destruct (randint_spec (b - c) w) as (r & w' & Hr & Hrange); [lia|].
    rewrite Hr. exists r, w'. split; [reflexivity|lia].
  - assert (Hcover : c < b * crop_multiplier b c).
    { destruct (Z.eq_dec b 32) as [->|Hne].
      - unfold crop_multiplier. simpl. lia.
      - pose proof (crop_multiplier_covers b c Hb Hne Hgt). lia. }
    destruct (randint_spec (b * crop_multiplier b c - c) w) as (r & w' & Hr & Hrange); [lia|].
    rewrite Hr. exists r, w'. split; [reflexivity|lia].
Qed.

Lemma spatial_crop_spec (scale_h scale_w crop_h crop_w : Z) (w : world) :
  crop_h < scale_h -> crop_w < scale_w ->
  exists sh sw w', spatial_crop [scale_h; scale_w] [crop_h; crop_w] w
                   = Ok (((sh, sh + crop_h), (sw, sw + crop_w)), w') /\
                   0 <= sh /\ sh + crop_h <= scale_h /\
                   0 <= sw /\ sw + crop_w <= scale_w.
Proof.
  intros Hh Hw. unfold spatial_crop. cbn [length Nat.eqb andb assert lift bind].
  change (py_index [scale_h; scale_w] 0) with (Ok scale_h).
  change (py_index [crop_h; crop_w] 0) with (Ok crop_h).
  change (py_index [scale_h; scale_w] 1) with (Ok scale_w).
  change (py_index [crop_h; crop_w] 1) with (Ok crop_w).
  msimpl.
  destruct (randint_spec (scale_h - crop_h) w) as (r & w1 & Hr & Hrange); [lia|].
  rewrite Hr.
  destruct (randint_spec (scale_w - crop_w) w1) as (r' & w2 & Hr' & Hrange'); [lia|].
  rewrite Hr'. exists r, r', w2. split; [reflexivity|lia].
Qed.

(** C4, as the code has it: outside the frame count 32 met with a clip
    length of 64 or more, [temporal_crop] returns a window inside the looped
    source for every draw; and for a crop strictly smaller than the scaled
    frame in both directions, [spatial_crop] returns a window inside the
    scaled frame for every draw. *)
Theorem random_windows_within_bounds
        (frame_count clip_len scale_h scale_w crop_h crop_w : Z) (w : world) :
  1 <= frame_count -> ~ (frame_count = 32 /\ 64 <= clip_len) ->
  crop_h < scale_h -> crop_w < scale_w ->
  (exists start end_ w',
      temporal_crop frame_count clip_len w = Ok ((start, end_), w') /\
      0 <= start /\ end_ <= looped_len frame_count clip_len) /\
  (exists start_h end_h start_w end_w w',
      spatial_crop [scale_h; scale_w] [crop_h; crop_w] w
        = Ok (((start_h, end_h), (start_w, end_w)), w') /\
      0 <= start_h /\ end_h <= scale_h /\ 0 <= start_w /\ end_w <= scale_w).
Proof.
  intros Hb H32 Hh Hw. split.
  - destruct (temporal_crop_spec frame_count clip_len w Hb H32) as (s & w' & Hr & H0 & H1).
    exists s, (s + clip_len), w'. auto.
  - destruct (spatial_crop_spec scale_h scale_w crop_h crop_w w Hh Hw)
      as (sh & sw & w' & Hr & H).
    exists sh, (sh + crop_h), sw, (sw + crop_w), w'. split; [exact Hr|lia].
Qed.

Lemma random_windows_within_bounds_witness :
  (exists start end_ w',
      temporal_crop 5 16 demo_world = Ok ((start, end_), w') /\
      0 <= start /\ end_ <= looped_len 5 16) /\
  (exists start_h end_h start_w end_w w',
      spatial_crop [128; 171] [112; 112] demo_world
        = Ok (((start_h, end_h), (start_w, end_w)), w') /\
      0 <= start_h /\ end_h <= 128 /\ 0 <= start_w /\ end_w <= 171).
Proof. apply (random_windows_within_bounds 5 16 128 171 112 112 demo_world); lia. Defined.

(** C4 fails at a crop as high as the scaled frame, which its precondition
    allows, and at 32 frames with a clip length of 64: the draw is from an
    empty range, whatever the generator holds. *)
Lemma random_windows_empty_range :
  (forall w : world, spatial_crop [112; 171] [112; 112] w = Raise ValueError) /\
  (forall w : world, temporal_crop 32 64 w = Raise ValueError).
Proof.
  split; intros w.
  - unfold spatial_crop. cbn [length Nat.eqb andb assert lift bind].
    change (py_index [112; 171] 0) with (@Ok Z 112).
    change (py_index [112; 112] 0) with (@Ok Z 112).
    msimpl. rewrite randint_empty by lia. reflexivity.
  - unfold temporal_crop, bind. rewrite sample_len_le.
    change (3 * 64 <=? 2 * 32) with false. cbn iota.
    rewrite randint_empty; [reflexivity|]. unfold crop_multiplier. simpl. lia.
Qed.

(** ** Buffer normalizer *)

Lemma Qtrunc_inject_Z (q : Q) (x : Z) : (q == inject_Z x)%Q -> Qtrunc q = x.
Proof.
  intros Hq. unfold Qtrunc.
  destruct (Qle_bool 0 q); rewrite Hq; [apply Qfloor_Z | apply Qceiling_Z].
Qed.

(** On an 8-bit intensity the two transforms are exact inverses. *)
Lemma denormalize_normalize_elt (x : Z) :
  0 <= x <= 255 -> denormalize_elt (normalize_elt (to_float x)) = Some x.
Proof.
  intros Hx. unfold denormalize_elt, normalize_elt, to_float.
  cbn [fsub fneg fadd fdiv fmul]. change (Qeq_bool 128 0) with false. cbn iota.
  cbn [fmul fadd astype_uint8].
  rewrite (Qtrunc_inject_Z _ x) by field.
  destruct (Z.leb_spec 0 x); [|lia]. destruct (Z.leb_spec x 255); [|lia]. reflexivity.
Qed.


Lemma ramp_buffer_pixels :
  forall idx, valid_index (shape ramp_buffer) idx = true ->
              exists x, 0 <= x <= 255 /\ item ramp_buffer idx = to_float x.
Proof.
  intros idx H. destruct idx as [|i [|j [|? ?]]]; cbn [valid_index shape ramp_buffer] in H;
    try discriminate;
    apply andb_prop in H; destruct H as [Hi Hj]; try discriminate;
    apply andb_prop in Hj; destruct Hj as [Hj H]; try discriminate.
  apply Nat.ltb_lt in Hi. apply Nat.ltb_lt in Hj.
  exists (Z.of_nat (100 * i + 50 * j)). split; [lia|reflexivity].
Qed.


(** ** Flow normalizer *)

Lemma fadd_fin (a b : fval) : is_fin a -> is_fin b -> fadd a b = Fin (qval a + qval b).
Proof. destruct a, b; simpl; intros; try contradiction; reflexivity. Qed.

Lemma fsub_fin (a b : fval) : is_fin a -> is_fin b -> fsub a b = Fin (qval a + - qval b).
Proof. destruct a, b; simpl; intros; try contradiction; reflexivity. Qed.

Lemma fabs_fin (a : fval) : is_fin a -> fabs a = Fin (Qabs (qval a)).
Proof. destruct a; simpl; intros; try contradiction; reflexivity. Qed.

Lemma fmin_fin (a b : fval) :
  is_fin a -> is_fin b ->
  is_fin (fmin a b) /\ (qval (fmin a b) <= qval a)%Q /\ (qval (fmin a b) <= qval b)%Q.
Proof.
  destruct a as [x| | |], b as [y| | |]; simpl; intros; try contradiction.
  destruct (Qle_bool x y) eqn:Hxy; simpl.
  - apply Qle_bool_iff in Hxy. repeat split; [apply Qle_refl | exact Hxy].
  - assert (Hlt : (y < x)%Q).
    { apply Qnot_le_lt. intros Hle. apply Qle_bool_iff in Hle. congruence. }
    repeat split; [apply Qlt_le_weak; exact Hlt | apply Qle_refl].
Qed.

Lemma fmax_fin (a b : fval) :
  is_fin a -> is_fin b ->
  is_fin (fmax a b) /\ (qval a <= qval (fmax a b))%Q /\ (qval b <= qval (fmax a b))%Q.
Proof.
  destruct a as [x| | |], b as [y| | |]; simpl; intros; try contradiction.
  destruct (Qle_bool x y) eqn:Hxy; simpl.
  - apply Qle_bool_iff in Hxy. repeat split; [exact Hxy | apply Qle_refl].
  - assert (Hlt : (y < x)%Q).
    { apply Qnot_le_lt. intros Hle. apply Qle_bool_iff in Hle. congruence. }
    repeat split; [apply Qle_refl | apply Qlt_le_weak; exact Hlt].
Qed.

Lemma fold_fadd_fin (l : list fval) :
  forall acc, is_fin acc -> Forall is_fin l -> is_fin (fold_left fadd l acc).
Proof.
  induction l as [|x l IH]; intros acc Ha Hl; simpl; [exact Ha|].
  apply Forall_cons_iff in Hl; destruct Hl as [Hx Hl]. apply IH; [|assumption].
  rewrite fadd_fin by assumption. exact I.
Qed.

Lemma fold_fmin_fin (l : list fval) :
  forall acc, is_fin acc -> Forall is_fin l ->
    is_fin (fold_left fmin l acc) /\
    (qval (fold_left fmin l acc) <= qval acc)%Q /\
    Forall (fun x => (qval (fold_left fmin l acc) <= qval x)%Q) l.
Proof.
  induction l as [|x l IH]; intros acc Ha Hl; simpl.
  - repeat split; [exact Ha | apply Qle_refl | constructor].
  - apply Forall_cons_iff in Hl; destruct Hl as [Hx Hl].
    destruct (fmin_fin acc x) as (Hf & H1 & H2); [assumption..|].
    destruct (IH (fmin acc x) Hf) as (Hf' & H3 & H4); [assumption|].
    repeat split; [exact Hf' | eapply Qle_trans; eauto |].
    constructor; [eapply Qle_trans; eauto | exact H4].
Qed.

Lemma fold_fmax_fin (l : list fval) :
  forall acc, is_fin acc -> Forall is_fin l ->
    is_fin (fold_left fmax l acc) /\
    (qval acc <= qval (fold_left fmax l acc))%Q /\
    Forall (fun x => (qval x <= qval (fold_left fmax l acc))%Q) l.
Proof.
  induction l as [|x l IH]; intros acc Ha Hl; simpl.
  - repeat split; [exact Ha | apply Qle_refl | constructor].
  - apply Forall_cons_iff in Hl; destruct Hl as [Hx Hl].
    destruct (fmax_fin acc x) as (Hf & H1 & H2); [assumption..|].
    destruct (IH (fmax acc x) Hf) as (Hf' & H3 & H4); [assumption|].
    repeat split; [exact Hf' | eapply Qle_trans; eauto |].
    constructor; [eapply Qle_trans; eauto | exact H4].
Qed.

Lemma freduce_fmin_fin (l : list fval) :
  l <> [] -> Forall is_fin l ->
  is_fin (freduce fmin l) /\ Forall (fun x => (qval (freduce fmin l) <= qval x)%Q) l.
Proof.
  destruct l as [|x l]; [congruence|]. intros _ Hl. apply Forall_cons_iff in Hl; destruct Hl as [Hx Hl]. simpl.
  destruct (fold_fmin_fin l x) as (Hf & H1 & H2); [assumption..|].
  split; [exact Hf|]. constructor; assumption.
Qed.

Lemma freduce_fmax_fin (l : list fval) :
  l <> [] -> Forall is_fin l ->
  is_fin (freduce fmax l) /\ Forall (fun x => (qval x <= qval (freduce fmax l))%Q) l.
Proof.
  destruct l as [|x l]; [congruence|]. intros _ Hl. apply Forall_cons_iff in Hl; destruct Hl as [Hx Hl]. simpl.
  destruct (fold_fmax_fin l x) as (Hf & H1 & H2); [assumption..|].
  split; [exact Hf|]. constructor; assumption.
Qed.

Lemma in_positions (L H W l h w : nat) :
  In (l, h, w) (positions L H W) <-> (l < L /\ h < H /\ w < W)%nat.
Proof.
  unfold positions. rewrite in_flat_map. split.
  - intros (l' & Hl & Hin). apply in_flat_map in Hin. destruct Hin as (h' & Hh & Hin).
    apply in_map_iff in Hin. destruct Hin as (w' & Heq & Hw). inversion Heq; subst.
    apply in_seq in Hl, Hh, Hw. lia.
  - intros (Hl & Hh & Hw). exists l. split; [apply in_seq; lia|].
    apply in_flat_map. exists h. split; [apply in_seq; lia|].
    apply in_map_iff. exists w. split; [reflexivity | apply in_seq; lia].
Qed.

Lemma valid_index5 (N L H W C n l h w c : nat) :
  valid_index [N; L; H; W; C] [n; l; h; w; c] = true <->
  (n < N /\ l < L /\ h < H /\ w < W /\ c < C)%nat.
Proof.
  cbn [valid_index]. rewrite !andb_true_iff, !Nat.ltb_lt. intuition.
Qed.

Lemma fdiv_fin (a : fval) (q : Q) :
  is_fin a -> ~ (q == 0)%Q -> fdiv a (Fin q) = Fin (qval a / q).
Proof.
  destruct a as [x| | |]; simpl; intros Ha Hq; try contradiction.
  destruct (Qeq_bool q 0) eqn:Hz; [|reflexivity].
  apply Qeq_bool_iff in Hz. contradiction.
Qed.

Lemma normalize_elt_range (v : Q) :
  (0 <= v)%Q -> (v <= 255)%Q -> in_unit_range (normalize_elt (Fin v)).
Proof.
  intros H0 H1. unfold normalize_elt. cbn [fsub fneg fadd].
  rewrite fdiv_fin; [|exact I|discriminate].
  cbn [qval in_unit_range]. split.
  - apply Qle_shift_div_l; [reflexivity|]. lra.
  - apply Qle_shift_div_r; [reflexivity|]. lra.
Qed.

Section FlowMeanSub.

Variable buffer : ndarray fval.
Variables N L H W C : nat.
Hypothesis Hshape : shape buffer = [N; L; H; W; C].
Hypothesis Hfin : finite_buffer buffer.
Variables n c : nat.
Hypothesis Hn : (n < N)%nat.
Hypothesis Hc : (c < C)%nat.
Hypothesis HL : (0 < L)%nat.

Let ps := positions L H W.

Lemma item_fin (l h w : nat) :
  (l < L)%nat -> (h < H)%nat -> (w < W)%nat -> is_fin (item buffer [n; l; h; w; c]).
Proof.
  intros Hl Hh Hw. apply Hfin. rewrite Hshape. apply valid_index5. lia.
Qed.

Lemma buffer_mean_fin (h w : nat) :
  (h < H)%nat -> (w < W)%nat -> is_fin (buffer_mean buffer L n h w c).
Proof.
  intros Hh Hw. unfold buffer_mean. rewrite fdiv_fin; [exact I| |].
  - apply fold_fadd_fin; [exact I|]. apply Forall_forall. intros x Hx.
    apply in_map_iff in Hx. destruct Hx as (l & <- & Hl). apply in_seq in Hl.
    apply item_fin; lia.
  - intros H0. assert (Hpos : (inject_Z 0 < inject_Z (Z.of_nat L))%Q).
    { rewrite <- Zlt_Qlt. lia. }
    rewrite H0 in Hpos. apply (Qlt_irrefl _ Hpos).
Qed.

Lemma centred_fin (l h w : nat) :
  (l < L)%nat -> (h < H)%nat -> (w < W)%nat ->
  centred buffer L n l h w c
  = Fin (qval (item buffer [n; l; h; w; c]) + - qval (buffer_mean buffer L n h w c)).
Proof.
  intros Hl Hh Hw. unfold centred.
  apply fsub_fin; [apply item_fin | apply buffer_mean_fin]; assumption.
Qed.

Let mn := centred_min buffer L H W n c.

Lemma centred_min_fin :
  ps <> [] ->
  is_fin mn /\
  forall l h w, (l < L)%nat -> (h < H)%nat -> (w < W)%nat ->
                (qval mn <= qval (centred buffer L n l h w c))%Q.
Proof.
  intros Hne. unfold mn, centred_min. fold ps.
  set (f := fun p : nat * nat * nat => let '(l, h, w) := p in centred buffer L n l h w c).
  destruct (freduce_fmin_fin (map f ps)) as (Hf & Hall).
  - destruct ps; [congruence|discriminate].
  - apply Forall_forall. intros x Hx. apply in_map_iff in Hx.
    destruct Hx as (((l, h), w) & <- & Hin). apply in_positions in Hin.
    simpl. rewrite centred_fin by lia. exact I.
  - split; [exact Hf|]. intros l h w Hl Hh Hw.
    rewrite Forall_forall in Hall. apply (Hall (f (l, h, w))).
    apply in_map. apply in_positions. lia.
Qed.

Lemma shifted_fin (l h w : nat) :
  ps <> [] -> (l < L)%nat -> (h < H)%nat -> (w < W)%nat ->
  shifted buffer L H W n l h w c
  = Fin (qval (centred buffer L n l h w c) + Qabs (qval mn)) /\
  (0 <= qval (centred buffer L n l h w c) + Qabs (qval mn))%Q.
Proof.
  intros Hne Hl Hh Hw. destruct (centred_min_fin Hne) as (Hf & Hle).
  unfold shifted. fold mn. rewrite fabs_fin by exact Hf.
  rewrite fadd_fin; [|rewrite centred_fin by assumption; exact I|exact I].
  split; [reflexivity|].
  specialize (Hle l h w Hl Hh Hw).
  assert (Habs : (- qval mn <= Qabs (qval mn))%Q).
  { rewrite <- Qabs_opp. apply Qle_Qabs. }
  lra.
Qed.

Let mx := shifted_max buffer L H W n c.

Lemma shifted_max_fin :
  ps <> [] ->
  is_fin mx /\
  forall l h w, (l < L)%nat -> (h < H)%nat -> (w < W)%nat ->
                (qval (shifted buffer L H W n l h w c) <= qval mx)%Q.
Proof.
  intros Hne. unfold mx, shifted_max. fold ps.
  set (f := fun p : nat * nat * nat =>
              let '(l, h, w) := p in shifted buffer L H W n l h w c).
  destruct (freduce_fmax_fin (map f ps)) as (Hf & Hall).
  - destruct ps; [congruence|discriminate].
  - apply Forall_forall. intros x Hx. apply in_map_iff in Hx.
    destruct Hx as (((l, h), w) & <- & Hin). apply in_positions in Hin.
    simpl. destruct (shifted_fin l h w Hne) as [-> _]; [lia..|]. exact I.
  - split; [exact Hf|]. intros l h w Hl Hh Hw.
    rewrite Forall_forall in Hall. apply (Hall (f (l, h, w))).
    apply in_map. apply in_positions. lia.
Qed.

(** Two positions of a pixel with different values make the maximum of the
    shifted buffer positive. *)
Lemma shifted_max_pos (l l' h w : nat) :
  (l < L)%nat -> (l' < L)%nat -> (h < H)%nat -> (w < W)%nat ->
  ~ (qval (item buffer [n; l; h; w; c]) == qval (item buffer [n; l'; h; w; c]))%Q ->
  (0 < qval mx)%Q.
Proof.
  intros Hl Hl' Hh Hw Hneq.
  assert (Hne : ps <> []).
  { intros He. assert (Hin : In (l, h, w) ps) by (apply in_positions; lia).
    rewrite He in Hin. exact Hin. }
  destruct (shifted_max_fin Hne) as (_ & Hmax).
  destruct (shifted_fin l h w Hne Hl Hh Hw) as (Hs & Hs0).
  destruct (shifted_fin l' h w Hne Hl' Hh Hw) as (Hs' & Hs0').
  pose proof (Hmax l h w Hl Hh Hw) as Hm. pose proof (Hmax l' h w Hl' Hh Hw) as Hm'.
  rewrite Hs in Hm. rewrite Hs' in Hm'. cbn [qval] in Hm, Hm'.
  rewrite (centred_fin l h w) in * by assumption.
  rewrite (centred_fin l' h w) in * by assumption.
  cbn [qval] in *.
  destruct (Qlt_le_dec 0 (qval mx)) as [Hpos|Hle]; [exact Hpos|].
  exfalso. apply Hneq. lra.
Qed.

Lemma flow_elt_range (l h w : nat) :
  (l < L)%nat -> (h < H)%nat -> (w < W)%nat ->
  (0 < qval mx)%Q ->
  in_unit_range
    (normalize_elt (fmul (fdiv (shifted buffer L H W n l h w c) mx) (Fin 255))).
Proof.
  intros Hl Hh Hw Hpos.
  assert (Hne : ps <> []).
  { intros He. assert (Hin : In (l, h, w) ps) by (apply in_positions; lia).
    rewrite He in Hin. exact Hin. }
  destruct (shifted_max_fin Hne) as (Hmf & Hmax).
  destruct (shifted_fin l h w Hne Hl Hh Hw) as (Hs & Hs0).
  specialize (Hmax l h w Hl Hh Hw). rewrite Hs in Hmax |- *. cbn [qval] in Hmax.
  destruct mx as [m| | |] eqn:Hmx; try contradiction. cbn [qval] in *.
  rewrite fdiv_fin; [|exact I|intros H0; rewrite H0 in Hpos; apply (Qlt_irrefl _ Hpos)].
  cbn [qval fmul].
  set (s := (qval (centred buffer L n l h w c) + Qabs (qval mn))%Q) in *.
  assert (H1 : (0 <= s / m)%Q).
  { apply Qle_shift_div_l; [exact Hpos|]. lra. }
  assert (H2 : (s / m <= 1)%Q).
  { apply Qle_shift_div_r; [exact Hpos|]. lra. }
  apply normalize_elt_range; nra.
Qed.

End FlowMeanSub.


Lemma moving_buffer_finite : finite_buffer moving_buffer.
Proof.
  intros idx Hidx. cbn [shape moving_buffer] in Hidx.
  destruct idx as [|n [|l [|h [|w [|c [|? ?]]]]]];
    try (cbn [valid_index] in Hidx; rewrite ?andb_false_r in Hidx; discriminate).
  exact I.
Qed.

Lemma moving_buffer_varies : varies_in_time moving_buffer.
Proof.
  unfold varies_in_time. cbn [shape moving_buffer]. intros n c Hn Hc.
  exists 0%nat, 1%nat, 0%nat, 0%nat. repeat split; try lia.
  cbn [item moving_buffer to_float qval]. intros Heq.
  unfold Qeq in Heq. cbn [Qnum Qden inject_Z] in Heq. lia.
Qed.



(** ** Sample provider *)

Lemma str_in_In (s : string) (l : list string) : str_in s l = true <-> In s l.
Proof.
  unfold str_in. rewrite existsb_exists. split.
  - intros (x & Hin & Heq). apply String.eqb_eq in Heq. subst. exact Hin.
  - intros Hin. exists s. split; [exact Hin | apply String.eqb_refl].
Qed.

Lemma str_in_not_In (s : string) (l : list string) : str_in s l = false <-> ~ In s l.
Proof.
  rewrite <- str_in_In. destruct (str_in s l); split; intros; congruence.
Qed.

Lemma split_in_range (split : Z) :
  existsb (Z.eqb split) (py_range 1 4) = true <-> In split [1; 2; 3].
Proof.
  change (py_range 1 4) with [1; 2; 3]. rewrite existsb_exists. split.
  - intros (x & Hin & Heq). apply Z.eqb_eq in Heq. subst. exact Hin.
  - intros Hin. exists split. split; [exact Hin | apply Z.eqb_refl].
Qed.

(** The assertions of the constructor reject exactly the invalid
    configurations. *)
Lemma validate_cases (dataset : string) (split : Z) (mode modality load_mode : string)
      (cpv : Z) :
  (VideoDataset.validate dataset split mode modality load_mode cpv = Ok tt /\
   ~ invalid_configuration dataset split mode modality load_mode cpv) \/
  (VideoDataset.validate dataset split mode modality load_mode cpv = Raise AssertionError /\
   invalid_configuration dataset split mode modality load_mode cpv).
Proof.
  unfold VideoDataset.validate, invalid_configuration.
  destruct (str_in dataset ["ucf"; "hmdb"]%string) eqn:H1; cbn [assert obind];
    [apply str_in_In in H1 | apply str_in_not_In in H1; right; split; [reflexivity|tauto]].
  destruct (existsb (Z.eqb split) (py_range 1 4)) eqn:H2; cbn [assert obind];
    [apply split_in_range in H2
    | right; split; [reflexivity|]; right; left; intros Hin;
      apply split_in_range in Hin; congruence].
  destruct (str_in mode ["train"; "test"]%string) eqn:H3; cbn [assert obind];
    [apply str_in_In in H3 | apply str_in_not_In in H3; right; split; [reflexivity|tauto]].
  destruct (str_in modality ["rgb"; "flow"]%string) eqn:H4; cbn [assert obind];
    [apply str_in_In in H4 | apply str_in_not_In in H4; right; split; [reflexivity|tauto]].
  destruct (String.eqb_spec mode "train") as [Hm|Hm];
    destruct (String.eqb_spec load_mode "clip") as [Hl|Hl]; cbn [assert obind];
    try (right; split; [reflexivity|tauto]);
    [destruct (Z.eqb_spec cpv 1) | destruct (Z.eqb_spec cpv 1) | destruct (Z.ltb_spec 1 cpv)];
    cbn [assert obind];
    try (left; split; [reflexivity|]; intuition (try congruence; try lia));
    right; split; try reflexivity; intuition (try congruence; try lia).
Qed.

Lemma read_mapping_lengths (E : env) (dir modality : string) :
  forall lines m,
    VideoDataset.read_mapping E dir modality lines = Ok m ->
    length (fst m) = length (snd m).
Proof.
  induction lines as [|line rest IH]; intros m Hm; simpl in Hm.
  - inversion Hm. reflexivity.
  - destruct (py_index (split_on " " line) 0); try discriminate. cbn [obind] in Hm.
    destruct (py_index (split_on "." a) 0); try discriminate. cbn [obind] in Hm.
    destruct (py_index (split_on " " line) 1); try discriminate. cbn [obind] in Hm.
    destruct (VideoDataset.read_mapping E dir modality rest) as [r| |] eqn:Hr;
      try discriminate.
    cbn [obind] in Hm. inversion Hm. simpl. f_equal. apply IH. reflexivity.
Qed.

Lemma convert_labels_length (E : env) :
  forall strs labels, convert_labels E strs = Ok labels -> length labels = length strs.
Proof.
  induction strs as [|s rest IH]; intros labels Hl; simpl in Hl.
  - inversion Hl. reflexivity.
  - destruct (np_int E s); try discriminate.
    destruct (convert_labels E rest) as [r| |]; try discriminate.
    cbn [obind] in Hl. inversion Hl. simpl. f_equal. apply IH. reflexivity.
Qed.

Lemma sample_indices_spec (names : list (list string)) (labels : list Z) :
  length names = length labels ->
  forall range w,
    (range <> [] -> labels <> []) ->
    exists idxs w',
      VideoDataset.sample_indices names labels range w = Ok (idxs, w') /\
      length idxs = length range /\
      Forall (fun i => 0 <= i < Z.of_nat (length labels)) idxs.
Proof.
  intros Hlen. induction range as [|x rest IH]; intros w Hne.
  - exists [], w. repeat split. constructor.
  - assert (Hl : labels <> []) by (apply Hne; discriminate).
    assert (Hpos : 0 < Z.of_nat (length labels)).
    { destruct labels; [congruence|simpl; lia]. }
    cbn [VideoDataset.sample_indices]. unfold VideoDataset.len.
    rewrite Hlen, Nat.eqb_refl. cbn [assert obind]. msimpl.
    unfold randrange0. destruct (Z.leb_spec (Z.of_nat (length labels)) 0); [lia|].
    cbn beta iota.
    match goal with
    | |- context [VideoDataset.sample_indices names labels rest ?w1] =>
        destruct (IH w1) as (idxs & w' & Hrun & Hlen' & Hall); [intros _; exact Hl|]
    end.
    rewrite Hrun. eexists _, _. split; [reflexivity|]. split; [simpl; lia|].
    constructor; [apply Z.mod_pos_bound; exact Hpos | exact Hall].
Qed.

Lemma select_spec {A : Type} (l : list A) :
  forall idxs,
    Forall (fun i => 0 <= i < Z.of_nat (length l)) idxs ->
    exists r, select l idxs = Ok r /\ length r = length idxs.
Proof.
  induction idxs as [|i rest IH]; intros Hall.
  - exists []. split; reflexivity.
  - apply Forall_cons_iff in Hall. destruct Hall as [Hi Hall].
    destruct (py_index_in_range l i Hi) as (a & Ha & _).
    destruct (IH Hall) as (r & Hr & Hlen).
    exists (a :: r). simpl. rewrite Ha, Hr. split; [reflexivity|simpl; lia].
Qed.

(** C8: construction stops with an assertion failure on every invalid
    configuration, before anything is read; on a valid one it goes on, and
    returns a provider with as many samples as labels once the mapping file
    loads. *)
Theorem construction_validates
        (E : env) (path dataset : string) (split : Z) (mode modality : string)
        (clip_len : Z) (test_mode : bool) (test_amt : Z) (load_mode : string)
        (clips_per_video : Z) (w : world) :
  (invalid_configuration dataset split mode modality load_mode clips_per_video ->
   VideoDataset.__init__ E path dataset split mode modality clip_len test_mode test_amt
                         load_mode clips_per_video w = Raise AssertionError) /\
  (~ invalid_configuration dataset split mode modality load_mode clips_per_video ->
   VideoDataset.validate dataset split mode modality load_mode clips_per_video = Ok tt /\
   (mapping_loads E path dataset split mode modality test_mode test_amt ->
    exists self w',
      VideoDataset.__init__ E path dataset split mode modality clip_len test_mode test_amt
                            load_mode clips_per_video w = Ok (self, w') /\
      length (VideoDataset._clip_names self) = length (VideoDataset._labels self) /\
      VideoDataset._modality self = modality /\
      VideoDataset._load_mode self = load_mode /\
      VideoDataset._clips_per_video self = clips_per_video /\
      VideoDataset._crop_depth self = clip_len)).
Proof.
  destruct (validate_cases dataset split mode modality load_mode clips_per_video)
    as [[Hv Hok]|[Hv Hbad]]; split; try tauto.
  - intros _. split; [exact Hv|].
    intros (name & content & m & labels & Hname & Hread & Hmap & Hconv & Hsome).
    unfold VideoDataset.__init__. rewrite Hv, Hname. msimpl.
    rewrite Hread. cbn beta iota. rewrite Hmap. cbn beta iota.
    rewrite Hconv. cbn beta iota.
    assert (Hlen : length (fst m) = length labels).
    { rewrite (read_mapping_lengths _ _ _ _ _ Hmap).
      symmetry. apply (convert_labels_length _ _ _ Hconv). }
    destruct test_mode.
    + destruct (sample_indices_spec (fst m) labels Hlen (py_range 0 test_amt) w)
        as (idxs & w' & Hrun & Hlen' & Hall).
      { intros Hne. apply Hsome; [reflexivity|].
        destruct (Z.ltb_spec 0 test_amt) as [Hp|Hp]; [exact Hp|].
        exfalso. apply Hne. unfold py_range.
        replace (Z.to_nat (test_amt - 0)) with O by lia. reflexivity. }
      rewrite Hrun.
      destruct (select_spec (fst m) idxs) as (names' & Hn' & Hln); [rewrite Hlen; exact Hall|].
      destruct (select_spec labels idxs Hall) as (labels' & Hl' & Hll).
      rewrite Hn'. cbn beta iota. rewrite Hl'. cbn beta iota.
      eexists _, _. split; [reflexivity|]. cbn. repeat split. lia.
    + eexists _, _. split; [reflexivity|]. cbn. repeat split. exact Hlen.
  - intros _. unfold VideoDataset.__init__. rewrite Hv. reflexivity.
Qed.

(** The call that [__getitem__] makes names a parameter that [load_clips]
    does not have. *)
Lemma call_load_clips_unexpected_keyword
      (E : env) (fuel : nat) (a1 a2 a3 a4 a5 a6 a7 v1 v2 : pyval) (w : world) :
  call_load_clips E fuel [a1; a2; a3; a4; a5; a6; a7]
                  [("mode"%string, v1); ("clips_per_video"%string, v2)] w
  = Raise TypeError.
Proof. reflexivity. Qed.

(** The loading modes of the provider are not usage modes of [load_clips]. *)
Lemma load_clips_rejects_other_modes
      (E : env) (fuel : nat) (frames_path : list string) (modality : string)
      (scale_h scale_w output_h output_w output_len : Z) (mode : string)
      (mean_sub : bool) (w : world) :
  ~ In mode ["train"; "validation"; "test"]%string ->
  load_clips E fuel frames_path modality scale_h scale_w output_h output_w output_len
             mode mean_sub w = Raise AssertionError.
Proof.
  intros Hmode. apply str_in_not_In in Hmode.
  unfold load_clips, assemble. msimpl. rewrite Hmode.
  destruct (if String.eqb modality "rgb" then _ else _); reflexivity.
Qed.

(** C1 on the code: for every provider and every index of a sample,
    [__getitem__] stops with a [TypeError] at the call of [load_clips] and
    returns no pair. *)
Theorem getitem_raises_type_error
        (E : env) (fuel : nat) (self : VideoDataset.t) (index : Z) (w : world) :
  0 <= index < Z.of_nat (length (VideoDataset._clip_names self)) ->
  VideoDataset.__getitem__ E fuel self index w = Raise TypeError.
Proof.
  intros Hidx. unfold VideoDataset.__getitem__.
  destruct (py_index_in_range _ _ Hidx) as (frames_path & Hfp & _).
  unfold bind at 1. unfold lift at 1. rewrite Hfp.
  unfold bind at 1. rewrite call_load_clips_unexpected_keyword. reflexivity.
Qed.

(** ** Looping over short videos *)

(** With fuel for every subtraction, the loop leaves the position reduced
    modulo the frame count. *)
Lemma wrap_index_spec (frame_count : Z) :
  1 <= frame_count ->
  forall fuel count,
    0 <= count < frame_count * Z.of_nat fuel ->
    wrap_index fuel count frame_count = Ok (count mod frame_count).
Proof.
  intros Hfc. induction fuel as [|fuel IH]; intros count Hcount; [lia|].
  cbn [wrap_index]. destruct (Z.leb_spec frame_count count) as [Hge|Hlt].
  - rewrite IH by lia. f_equal.
    replace count with (count - frame_count + 1 * frame_count) at 2 by ring.
    symmetry. apply Z.mod_add. lia.
  - f_equal. symmetry. apply Z.mod_small. lia.
Qed.

Lemma randint_ok (high r : Z) (w w' : world) :
  randint high w = Ok (r, w') -> 0 <= r < high /\ uninit w' = uninit w /\ stdout w' = stdout w.
Proof.
  unfold randint. destruct (Z.leb_spec high 0); [discriminate|].
  intros Heq. inversion Heq; subst. cbn. split; [apply Z.mod_pos_bound; lia|auto].
Qed.

Lemma temporal_crop_ok (b c s e : Z) (w w' : world) :
  temporal_crop b c w = Ok ((s, e), w') ->
  0 <= s /\ e = s + c /\ uninit w' = uninit w /\ stdout w' = stdout w.
Proof.
  unfold temporal_crop, bind, ret. intros Hrun.
  destruct (Qle_bool _ _);
    match type of Hrun with
    | context [randint ?h w] =>
        destruct (randint h w) as [[r w1]| |] eqn:Hr; try discriminate;
        apply randint_ok in Hr; inversion Hrun; subst; intuition
    end.
Qed.

Lemma temporal_center_crop_ok (b c s e : Z) :
  1 <= b -> temporal_center_crop b c = Ok (s, e) -> 0 <= s /\ e = s + c.
Proof.
  intros Hb. unfold temporal_center_crop.
  destruct (Z.leb_spec c b) as [Hle|Hgt]; cbn [obind].
  - intros Heq. inversion Heq; subst. split; [apply Z.div_pos; lia | reflexivity].
  - destruct (Z.eqb_spec b 0); [lia|]. cbn [obind]. intros Heq. inversion Heq; subst.
    split; [|reflexivity]. apply Z.div_pos; [|lia].
    set (m := Qceiling (inject_Z c / inject_Z b)).
    assert (Hm : (inject_Z c / inject_Z b <= inject_Z m)%Q) by apply Qle_ceiling.
    assert (Hbq : (0 < inject_Z b)%Q).
    { change (inject_Z 0 < inject_Z b)%Q. rewrite <- Zlt_Qlt. lia. }
    apply (Qmult_le_compat_r _ _ (inject_Z b)) in Hm; [|apply Qlt_le_weak; exact Hbq].
    rewrite Qmult_comm, Qmult_div_r in Hm.
    + rewrite <- inject_Z_mult, <- Zle_Qle in Hm. lia.
    + intros H0. rewrite H0 in Hbq. apply (Qlt_irrefl 0 Hbq).
Qed.

Lemma double_buffer_len_more_fuel (c : Z) :
  forall fuel fuel' b r,
    double_buffer_len fuel b c = Ok r -> (fuel <= fuel')%nat ->
    double_buffer_len fuel' b c = Ok r.
Proof.
  induction fuel as [|fuel IH]; intros fuel' b r Hrun Hle; [discriminate|].
  destruct fuel' as [|fuel']; [lia|]. cbn [double_buffer_len] in *.
  destruct (too_short b c); [apply (IH fuel'); [exact Hrun|lia] | exact Hrun].
Qed.

(** The windows of the uniform policy, whatever fuel produced them. *)
Lemma temporal_uniform_crop_ok (fuel : nat) (b c n : Z) (ws : list (Z * Z)) :
  1 <= b -> 2 <= n ->
  temporal_uniform_crop fuel b c n = Ok ws ->
  length ws = Z.to_nat n /\ Forall (has_width c) ws /\
  (0 <= c -> Forall (fun w => 0 <= fst w) ws).
Proof.
  intros Hb Hn Hrun.
  destruct (temporal_uniform_crop_spec b c n Hb Hn) as (k & _ & _ & Hspec).
  destruct (Hspec (Nat.max fuel (S k))) as (Hd & ws' & Hws' & Hlen & Hw & _ & _ & Hpos);
    [lia|].
  assert (Heq : temporal_uniform_crop fuel b c n
                = temporal_uniform_crop (Nat.max fuel (S k)) b c n).
  { unfold temporal_uniform_crop in Hrun |- *.
    destruct (double_buffer_len fuel b c) as [r| |] eqn:Hf; try discriminate.
    rewrite (double_buffer_len_more_fuel c fuel (Nat.max fuel (S k)) b r Hf) by lia.
    reflexivity. }
  rewrite Heq, Hws' in Hrun. inversion Hrun; subst. auto.
Qed.

Lemma lift_ok {A : Type} (o : outcome A) (a : A) (w w' : world) :
  lift o w = Ok (a, w') -> o = Ok a /\ w' = w.
Proof. unfold lift. destruct o; intros Heq; inversion Heq; auto. Qed.

(** Every position of every selected window is at or after frame 0. *)
Lemma select_windows_positions
      (fuel : nat) (mode : string) (frame_count : Z)
      (scale_h scale_w output_h output_w output_len : Z)
      (w w' : world) (ts : list (Z * Z) * ((Z * Z) * (Z * Z))) :
  1 <= frame_count ->
  select_windows fuel mode frame_count scale_h scale_w output_h output_w output_len w
  = Ok (ts, w') ->
  length (fst ts) = Z.to_nat (clips_per_video_of mode) /\
  Forall (has_width output_len) (fst ts) /\
  forall window count,
    In window (fst ts) -> fst window <= count < snd window -> 0 <= count.
Proof.
  intros Hfc. unfold select_windows, clips_per_video_of.
  destruct (str_in mode ["train"; "validation"]%string).
  - destruct (String.eqb mode "train").
    + unfold bind, ret. intros Hrun.
      destruct (temporal_crop frame_count output_len w) as [[[s e] w1]| |] eqn:Ht;
        try discriminate.
      destruct (spatial_crop _ _ w1) as [[sp w2]| |]; try discriminate.
      inversion Hrun; subst. cbn [fst].
      apply temporal_crop_ok in Ht. destruct Ht as (Hs & He & _).
      split; [reflexivity|]. split; [constructor; [exact He|constructor]|].
      intros window count [<-|[]] Hc. cbn in Hc. lia.
    + unfold bind, ret. intros Hrun.
      destruct (lift (temporal_center_crop frame_count output_len) w)
        as [[[s e] w1]| |] eqn:Ht; try discriminate.
      destruct (lift (spatial_center_crop _ _) w1) as [[sp w2]| |]; try discriminate.
      inversion Hrun; subst. cbn [fst].
      apply lift_ok in Ht. destruct Ht as [Ht _].
      apply temporal_center_crop_ok in Ht; [|exact Hfc]. destruct Ht as (Hs & He).
      split; [reflexivity|]. split; [constructor; [exact He|constructor]|].
      intros window count [<-|[]] Hc. cbn in Hc. lia.
  - unfold bind, ret. intros Hrun.
    destruct (lift (temporal_uniform_crop fuel frame_count output_len 10) w)
      as [[t w1]| |] eqn:Ht; try discriminate.
    destruct (lift (spatial_center_crop _ _) w1) as [[sp w2]| |]; try discriminate.
    inversion Hrun; subst. cbn [fst].
    apply lift_ok in Ht. destruct Ht as [Ht _].
    apply temporal_uniform_crop_ok in Ht; [|exact Hfc|lia].
    destruct Ht as (Hlen & Hw & Hpos).
    split; [exact Hlen|]. split; [exact Hw|].
    intros window count Hin Hc.
    rewrite Forall_forall in Hw. specialize (Hw window Hin). unfold has_width in Hw.
    destruct (Z.le_gt_cases 0 output_len) as [Hnn|Hneg]; [|lia].
    specialize (Hpos Hnn). rewrite Forall_forall in Hpos.
    specialize (Hpos window Hin). cbn in Hpos. lia.
Qed.


(** ** Frame assembler: one stored frame *)

Lemma axis_index_ok (d : nat) (i : Z) :
  0 <= i < Z.of_nat d -> axis_index d i = Ok (Z.to_nat i).
Proof.
  intros Hi. unfold axis_index.
  destruct (Z.leb_spec (- Z.of_nat d) i); [|lia].
  destruct (Z.ltb_spec i (Z.of_nat d)); [|lia]. cbn [andb].
  destruct (Z.ltb_spec i 0); [lia|reflexivity].
Qed.

Lemma broadcasts_rev_refl (l : list nat) : broadcasts_rev l l = true.
Proof. induction l as [|x l IH]; [reflexivity|]. simpl. rewrite Nat.eqb_refl. exact IH. Qed.

Lemma broadcasts_refl (l : list nat) : broadcasts l l = true.
Proof. apply broadcasts_rev_refl. Qed.

Lemma slice_len_inside (n a len : Z) :
  0 <= a -> 0 <= len -> a + len <= n -> slice_len n a (a + len) = Z.to_nat len.
Proof.
  intros Ha Hl Hn. unfold slice_len, slice_bound.
  destruct (Z.ltb_spec (a + len) 0); [lia|]. destruct (Z.ltb_spec a 0); [lia|].
  f_equal. lia.
Qed.

Lemma resize_ok (E : env) (src : ndarray Z) (w h : Z) (r c : nat) (rest : list nat) :
  1 <= w -> 1 <= h -> shape src = S r :: S c :: rest ->
  exists dst, resize E src w h = Ok dst /\ shape dst = Z.to_nat h :: Z.to_nat w :: rest.
Proof.
  intros Hw Hh Hs. unfold resize. rewrite Hs.
  destruct (Z.leb_spec w 0); [lia|]. destruct (Z.leb_spec h 0); [lia|].
  cbn. eexists. split; reflexivity.
Qed.

Lemma crop3_ok {V : Type} (f : ndarray V) (h w k : nat) (a b ch cw : Z) :
  shape f = [h; w; k] ->
  0 <= a -> 0 <= ch -> a + ch <= Z.of_nat h ->
  0 <= b -> 0 <= cw -> b + cw <= Z.of_nat w ->
  exists g, crop3 f (a, a + ch) (b, b + cw) = Ok g /\
            shape g = [Z.to_nat ch; Z.to_nat cw; k].
Proof.
  intros Hs Ha Hch Hh Hb Hcw Hw. unfold crop3. rewrite Hs. cbn [fst snd].
  rewrite !slice_len_inside by assumption. eexists. split; reflexivity.
Qed.

Lemma store_rgb_ok (buffer : ndarray fval) (N L H W C : nat) (c t : Z) (src : ndarray Z) :
  shape buffer = [N; L; H; W; C] ->
  0 <= c < Z.of_nat N -> 0 <= t < Z.of_nat L -> shape src = [H; W; C] ->
  exists b', store_rgb buffer c t src = Ok b' /\
             shape b' = shape buffer /\
             forall idx, ~ in_slot c t None idx -> item b' idx = item buffer idx.
Proof.
  intros Hs Hc Ht Hsrc. unfold store_rgb. rewrite Hs.
  rewrite (axis_index_ok N c Hc), (axis_index_ok L t Ht). cbn [obind].
  rewrite Hsrc, broadcasts_refl. eexists. split; [reflexivity|]. split; [reflexivity|].
  intros idx Hslot. cbn [item].
  destruct idx as [|n [|l [|h [|w [|k [|? ?]]]]]]; try reflexivity.
  destruct (Nat.eqb_spec n (Z.to_nat c)); [|reflexivity].
  destruct (Nat.eqb_spec l (Z.to_nat t)); [|reflexivity].
  exfalso. apply Hslot. cbn. auto.
Qed.

Lemma store_flow_ok (buffer : ndarray fval) (N L H W C : nat) (c t i : Z)
      (src : ndarray Z) :
  shape buffer = [N; L; H; W; C] ->
  0 <= c < Z.of_nat N -> 0 <= t < Z.of_nat L -> 0 <= i < Z.of_nat C ->
  shape src = [H; W] ->
  exists b', store_flow buffer c t i src = Ok b' /\
             shape b' = shape buffer /\
             forall idx, ~ in_slot c t (Some i) idx -> item b' idx = item buffer idx.
Proof.
  intros Hs Hc Ht Hi Hsrc. unfold store_flow. rewrite Hs.
  rewrite (axis_index_ok N c Hc), (axis_index_ok L t Ht), (axis_index_ok C i Hi).
  cbn [obind].
  rewrite Hsrc, broadcasts_refl. eexists. split; [reflexivity|]. split; [reflexivity|].
  intros idx Hslot. cbn [item].
  destruct idx as [|n [|l [|h [|w [|k [|? ?]]]]]]; try reflexivity.
  destruct (Nat.eqb_spec n (Z.to_nat c)); [|reflexivity].
  destruct (Nat.eqb_spec l (Z.to_nat t)); [|reflexivity].
  destruct (Nat.eqb_spec k (Z.to_nat i)); [|reflexivity].
  exfalso. apply Hslot. cbn. auto.
Qed.

Lemma imread_none (E : env) (path : string) (flag : imread_flag) :
  imread E path flag = None <-> decode E path = None.
Proof.
  unfold imread. destruct (decode E path); [destruct flag|]; split; intros; congruence.
Qed.

Lemma imread_gray_shape (E : env) (path : string) (f : ndarray Z) :
  imread E path IMREAD_GRAYSCALE = Some f -> exists r c, shape f = [S r; S c].
Proof.
  unfold imread. destruct (decode E path) as [im|]; [|discriminate].
  intros Heq. inversion Heq; subst. cbn [shape].
  destruct (Pos2Nat.is_succ (rows im)) as [r ->].
  destruct (Pos2Nat.is_succ (cols im)) as [c ->]. eauto.
Qed.

Lemma imread_color_shape (E : env) (path : string) (f : ndarray Z) :
  imread E path IMREAD_COLOR = Some f -> exists r c, shape f = [S r; S c; 3%nat].
Proof.
  unfold imread. destruct (decode E path) as [im|]; [|discriminate].
  intros Heq. inversion Heq; subst. cbn [shape].
  destruct (Pos2Nat.is_succ (rows im)) as [r ->].
  destruct (Pos2Nat.is_succ (cols im)) as [c ->]. eauto.
Qed.

Ltac mgo H := rewrite H; cbn beta iota.

Section StoreFrame.

Variable E : env.
Variables scale_h scale_w crop_h crop_w a b : Z.
Variables N L : nat.
Variables c t ccount : Z.

Hypothesis Hsh : 1 <= scale_h.
Hypothesis Hsw : 1 <= scale_w.
Hypothesis Ha : 0 <= a.
Hypothesis Hch : 0 <= crop_h.
Hypothesis Hah : a + crop_h <= scale_h.
Hypothesis Hb : 0 <= b.
Hypothesis Hcw : 0 <= crop_w.
Hypothesis Hbw : b + crop_w <= scale_w.
Hypothesis Hc : 0 <= c < Z.of_nat N.
Hypothesis Ht : 0 <= t < Z.of_nat L.

(** A frame of a flow direction that decodes is written to its slot and to
    no other; one that does not is skipped and its path printed. *)
Lemma store_frame_flow_spec
      (path_content : list (list string)) (buffer_frame : list (option (ndarray Z)))
      (i : Z) (listing : list string) (path : string) (buffer : ndarray fval) (w : world) :
  0 <= i < 2 ->
  py_index buffer_frame i = Ok (imread E path IMREAD_GRAYSCALE) ->
  py_index path_content i = Ok listing ->
  py_index listing ccount = Ok path ->
  shape buffer = [N; L; Z.to_nat crop_h; Z.to_nat crop_w; 2%nat] ->
  exists b' w',
    store_frame E "flow" scale_h scale_w ((a, a + crop_h), (b, b + crop_w)) path_content
                c t ccount buffer_frame i buffer w = Ok (b', w') /\
    shape b' = shape buffer /\
    uninit w' = uninit w /\
    ((decode E path <> None /\ stdout w' = stdout w /\
      forall idx, ~ in_slot c t (Some i) idx -> item b' idx = item buffer idx) \/
     (decode E path = None /\ b' = buffer /\ stdout w' = stdout w ++ [path])).
Proof.
  intros Hi Hframe Hlisting Hpath Hshape. unfold store_frame. msimpl. mgo Hframe.
  destruct (imread E path IMREAD_GRAYSCALE) as [f|] eqn:Hread.
  - destruct (imread_gray_shape E path f Hread) as (r0 & c0 & Hf).
    destruct (resize_ok E f scale_w scale_h r0 c0 [] Hsw Hsh Hf) as (f1 & Hr & Hf1).
    mgo Hr. cbn [String.eqb Ascii.eqb Bool.eqb]. cbn beta iota.
    unfold newaxis2. rewrite Hf1. cbn [length Nat.ltb Nat.leb firstn skipn app].
    cbn beta iota. cbn [fst snd].
    match goal with
    | |- context [crop3 ?g _ _] =>
        destruct (crop3_ok g (Z.to_nat scale_h) (Z.to_nat scale_w) 1 a b crop_h crop_w)
          as (f2 & Hcrop & Hf2); [reflexivity|lia..|]
    end.
    mgo Hcrop. unfold plane0. rewrite Hf2. cbn [Nat.eqb]. cbn beta iota.
    match goal with
    | |- context [store_flow buffer c t i ?p] =>
        destruct (store_flow_ok buffer N L (Z.to_nat crop_h) (Z.to_nat crop_w) 2 c t i p)
          as (b' & Hstore & Hb' & Hkeep); [exact Hshape|exact Hc|exact Ht|lia|reflexivity|]
    end.
    mgo Hstore. exists b', w. split; [reflexivity|]. split; [exact Hb'|].
    split; [reflexivity|]. left. split; [|split; [reflexivity|exact Hkeep]].
    intros Hnone. apply (imread_none E path IMREAD_GRAYSCALE) in Hnone. congruence.
  - mgo Hlisting. mgo Hpath. unfold print. cbn beta iota.
    eexists _, _. split; [reflexivity|]. split; [reflexivity|]. split; [reflexivity|].
    right. split; [apply (imread_none E path IMREAD_GRAYSCALE); exact Hread|].
    split; reflexivity.
Qed.

(** A colour frame that decodes is written to its slot. *)
Lemma store_frame_rgb_spec
      (path_content : list (list string)) (f : ndarray Z) (r0 c0 : nat)
      (buffer : ndarray fval) (w : world) :
  shape f = [S r0; S c0; 3%nat] ->
  shape buffer = [N; L; Z.to_nat crop_h; Z.to_nat crop_w; 3%nat] ->
  exists b',
    store_frame E "rgb" scale_h scale_w ((a, a + crop_h), (b, b + crop_w)) path_content
                c t ccount [Some f] 0 buffer w = Ok (b', w) /\
    shape b' = shape buffer.
Proof.
  intros Hf Hshape. unfold store_frame. msimpl.
  change (py_index [Some f] 0) with (Ok (Some f)). cbn beta iota.
  destruct (resize_ok E f scale_w scale_h r0 c0 [3%nat] Hsw Hsh Hf) as (f1 & Hr & Hf1).
  mgo Hr. cbn [String.eqb Ascii.eqb Bool.eqb]. cbn beta iota. cbn [fst snd].
  destruct (crop3_ok f1 (Z.to_nat scale_h) (Z.to_nat scale_w) 3 a b crop_h crop_w)
    as (f2 & Hcrop & Hf2); [exact Hf1|lia..|].
  mgo Hcrop.
  destruct (store_rgb_ok buffer N L (Z.to_nat crop_h) (Z.to_nat crop_w) 3 c t f2)
    as (b' & Hstore & Hb' & _); [exact Hshape|exact Hc|exact Ht|exact Hf2|].
  mgo Hstore. exists b'. split; [reflexivity|exact Hb'].
Qed.

End StoreFrame.

(** ** Frame assembler: the loading loops *)

Lemma cvtColor_ok (f : ndarray Z) (r c : nat) :
  shape f = [r; c; 3%nat] ->
  exists g, cvtColor_BGR2RGB (Some f) = Ok g /\ shape g = [r; c; 3%nat].
Proof.
  intros Hf. unfold cvtColor_BGR2RGB. rewrite Hf. cbn. eexists. split; reflexivity.
Qed.

Section Assemble.

Variable E : env.
Variable fuel : nat.
Variable modality : string.
Variables scale_h scale_w crop_h crop_w a b : Z.
Variables listing0 listing1 : list string.
Variable path_content : list (list string).
Variable t_index : list (Z * Z).
Variable N : nat.
Variable L : Z.

Let fc := Z.of_nat (length listing0).
Let s_index := ((a, a + crop_h), (b, b + crop_w)).

Local Abbreviation good := (good_shape modality crop_h crop_w N L).
Local Abbreviation kept :=
  (keeps E modality crop_h crop_w listing0 path_content t_index N L).

Hypothesis Hcase :
  (modality = "rgb"%string /\ path_content = [listing0]) \/
  (modality = "flow"%string /\ path_content = [listing0; listing1] /\
   length listing1 = length listing0).
Hypothesis Hfc : 1 <= fc.
Hypothesis Hdec :
  modality = "rgb"%string -> forall p, In p listing0 -> decode E p <> None.
Hypothesis Hsh : 1 <= scale_h.
Hypothesis Hsw : 1 <= scale_w.
Hypothesis Ha : 0 <= a.
Hypothesis Hch : 0 <= crop_h.
Hypothesis Hah : a + crop_h <= scale_h.
Hypothesis Hb : 0 <= b.
Hypothesis Hcw : 0 <= crop_w.
Hypothesis Hbw : b + crop_w <= scale_w.
Hypothesis HL : 0 <= L.
Hypothesis Hlen : length t_index = N.
Hypothesis Hwin :
  forall window, In window t_index ->
    has_width L window /\
    forall count, fst window <= count < snd window ->
                  0 <= count < fc * Z.of_nat fuel.

Lemma keeps_trans (b0 b1 b2 : ndarray fval) (w0 w1 w2 : world) :
  kept b0 w0 b1 w1 -> kept b1 w1 b2 w2 -> kept b0 w0 b2 w2.
Proof.
  intros (_ & Hu1 & Hs1 & Hk1) (Hg2 & Hu2 & Hs2 & Hk2).
  split; [exact Hg2|]. split; [congruence|].
  split; [eapply incl_tran; eauto|].
  intros idx Hidx. rewrite Hk2, Hk1 by exact Hidx. reflexivity.
Qed.

Lemma frame_step_spec (c : Z) (window : Z * Z) (count : Z)
      (buffer : ndarray fval) (w : world) :
  0 <= c < Z.of_nat N ->
  nth_error t_index (Z.to_nat c) = Some window ->
  fst window <= count < snd window ->
  good buffer ->
  exists b' w',
    frame_step E fuel modality scale_h scale_w s_index path_content fc
               (frame_chn_of modality) c (fst window) count buffer w = Ok (b', w') /\
    kept buffer w b' w' /\
    forall i, 0 <= i < 2 -> missing E modality path_content fc i count ->
              In (frame_path path_content i (count mod fc)) (stdout w').
Proof.
  intros Hc Hnth Hcount Hshape.
  assert (Hin : In window t_index) by (eapply nth_error_In; eauto).
  destruct (Hwin window Hin) as (Hwidth & Hrange). specialize (Hrange count Hcount).
  unfold has_width in Hwidth.
  assert (Ht : 0 <= count - fst window < Z.of_nat (Z.to_nat L)) by lia.
  unfold frame_step. msimpl. rewrite (wrap_index_spec fc Hfc fuel count Hrange).
  cbn beta iota.
  assert (Hcc : 0 <= count mod fc < fc) by (apply Z.mod_pos_bound; lia).
  set (ccount := count mod fc) in *.
  destruct (py_index_in_range listing0 ccount Hcc) as (p0 & Hp0 & Hin0).
  destruct Hcase as [(Hm & Hpc)|(Hm & Hpc & Hlen1)].
  - (* colour frames *)
    unfold good_shape in *. unfold keeps, good_shape. rewrite Hm in *. rewrite Hpc in *.
    cbn [frame_chn_of String.eqb Ascii.eqb Bool.eqb] in *.
    unfold read_frames. cbn [Z.eqb Pos.eqb].
    change (py_index [listing0] 0) with (Ok listing0). cbn [obind]. rewrite Hp0.
    cbn [obind].
    destruct (imread E p0 IMREAD_COLOR) as [f|] eqn:Hread.
    2:{ apply imread_none in Hread. exfalso. exact (Hdec eq_refl p0 Hin0 Hread). }
    destruct (imread_color_shape E p0 f Hread) as (r0 & c0 & Hf).
    destruct (cvtColor_ok f (S r0) (S c0) Hf) as (g & Hg & Hgs).
    rewrite Hg. cbn [obind]. cbn beta iota.
    change (py_range 0 (Z.of_nat (length [Some g]))) with [0].
    cbn [store_frames]. msimpl.
    destruct (store_frame_rgb_spec E scale_h scale_w crop_h crop_w a b N (Z.to_nat L)
                c (count - fst window) ccount Hsh Hsw Ha Hch Hah Hb Hcw Hbw Hc Ht
                [listing0] g r0 c0 buffer w Hgs Hshape) as (b' & Hstore & Hb').
    fold s_index in Hstore. rewrite Hstore. cbn beta iota.
    exists b', w. split; [reflexivity|]. split.
    + split; [rewrite Hb'; exact Hshape|]. split; [reflexivity|]. split; [apply incl_refl|].
      intros idx Hsk. exfalso.
      destruct idx as [|? [|? [|? [|? [|? [|? ?]]]]]]; try exact Hsk.
      destruct Hsk as (? & _ & Hmiss & _). discriminate.
    + intros i _ (Hmiss & _). discriminate.
  - (* flow frames *)
    unfold good_shape in *. unfold keeps, good_shape. rewrite Hm in *. rewrite Hpc in *.
    cbn [frame_chn_of String.eqb Ascii.eqb Bool.eqb] in *.
    unfold read_frames. cbn [Z.eqb Pos.eqb].
    change (py_index [listing0; listing1] 0) with (Ok listing0).
    change (py_index [listing0; listing1] 1) with (Ok listing1).
    cbn [obind]. rewrite Hp0. cbn [obind].
    assert (Hcc1 : 0 <= ccount < Z.of_nat (length listing1)) by (rewrite Hlen1; exact Hcc).
    destruct (py_index_in_range listing1 ccount Hcc1) as (p1 & Hp1 & _).
    rewrite Hp1. cbn [obind]. cbn beta iota.
    set (frames := [imread E p0 IMREAD_GRAYSCALE; imread E p1 IMREAD_GRAYSCALE]).
    change (py_range 0 (Z.of_nat (length frames))) with [0; 1].
    cbn [store_frames]. msimpl.
    destruct (store_frame_flow_spec E scale_h scale_w crop_h crop_w a b N (Z.to_nat L)
                c (count - fst window) ccount Hsh Hsw Ha Hch Hah Hb Hcw Hbw Hc Ht
                [listing0; listing1] frames 0 listing0 p0 buffer w)
      as (b1 & w1 & Hs1 & Hb1 & Hu1 & Hr1);
      [lia|reflexivity|reflexivity|exact Hp0|exact Hshape|].
    fold s_index in Hs1. rewrite Hs1. cbn beta iota.
    destruct (store_frame_flow_spec E scale_h scale_w crop_h crop_w a b N (Z.to_nat L)
                c (count - fst window) ccount Hsh Hsw Ha Hch Hah Hb Hcw Hbw Hc Ht
                [listing0; listing1] frames 1 listing1 p1 b1 w1)
      as (b2 & w2 & Hs2 & Hb2 & Hu2 & Hr2);
      [lia|reflexivity|reflexivity|exact Hp1|rewrite Hb1; exact Hshape|].
    fold s_index in Hs2. rewrite Hs2. cbn beta iota.
    exists b2, w2. split; [reflexivity|].
    assert (Hpath0 : frame_path [listing0; listing1] 0 ccount = p0)
      by (unfold frame_path; change (py_index [listing0; listing1] 0) with (Ok listing0);
          cbn beta iota; rewrite Hp0; reflexivity).
    assert (Hpath1 : frame_path [listing0; listing1] 1 ccount = p1)
      by (unfold frame_path; change (py_index [listing0; listing1] 1) with (Ok listing1);
          cbn beta iota; rewrite Hp1; reflexivity).
    assert (Hout1 : incl (stdout w) (stdout w1)).
    { destruct Hr1 as [(_ & -> & _)|(_ & _ & ->)];
        [apply incl_refl | apply incl_appl, incl_refl]. }
    assert (Hout2 : incl (stdout w1) (stdout w2)).
    { destruct Hr2 as [(_ & -> & _)|(_ & _ & ->)];
        [apply incl_refl | apply incl_appl, incl_refl]. }
    (* an element whose frame is missing is in no slot that is written *)
    assert (Hslot : forall i idx,
               0 <= i < 2 ->
               skipped E "flow" [listing0; listing1] fc t_index idx ->
               in_slot c (count - fst window) (Some i) idx ->
               decode E (frame_path [listing0; listing1] i ccount) = None).
    { intros i idx Hi Hsk Hslot.
      destruct idx as [|n [|l [|h [|x [|k [|? ?]]]]]]; try contradiction.
      cbn [skipped in_slot] in Hsk, Hslot.
      destruct Hslot as (-> & -> & ->). destruct Hsk as (window' & Hnth' & _ & Hnone).
      rewrite Hnth in Hnth'. inversion Hnth'; subst window'.
      rewrite !Z2Nat.id in Hnone by lia.
      replace (fst window + (count - fst window)) with count in Hnone by lia.
      exact Hnone. }
    split.
    + split; [rewrite Hb2, Hb1; exact Hshape|]. split; [congruence|].
      split; [eapply incl_tran; eauto|].
      intros idx Hsk.
      assert (H2 : item b2 idx = item b1 idx).
      { destruct Hr2 as [(Hsome & _ & Hkeep)|(_ & -> & _)]; [|reflexivity].
        apply Hkeep. intros Hslot'. apply Hsome. rewrite <- Hpath1.
        apply (Hslot 1 idx); [lia|exact Hsk|exact Hslot']. }
      assert (H1 : item b1 idx = item buffer idx).
      { destruct Hr1 as [(Hsome & _ & Hkeep)|(_ & -> & _)]; [|reflexivity].
        apply Hkeep. intros Hslot'. apply Hsome. rewrite <- Hpath0.
        apply (Hslot 0 idx); [lia|exact Hsk|exact Hslot']. }
      congruence.
    + intros i Hi (_ & Hnone). fold ccount in Hnone.
      assert (Hi' : i = 0 \/ i = 1) by lia. destruct Hi' as [->| ->].
      * rewrite Hpath0 in *. apply Hout2.
        destruct Hr1 as [(Hsome & _)|(_ & _ & ->)]; [contradiction|].
        apply in_or_app. right. left. reflexivity.
      * rewrite Hpath1 in *.
        destruct Hr2 as [(Hsome & _)|(_ & _ & ->)]; [contradiction|].
        apply in_or_app. right. left. reflexivity.
Qed.

Lemma keeps_refl (buffer : ndarray fval) (w : world) :
  good buffer -> kept buffer w buffer w.
Proof.
  intros Hg. split; [exact Hg|]. split; [reflexivity|]. split; [apply incl_refl|].
  reflexivity.
Qed.

Lemma frame_loop_spec (c : Z) (window : Z * Z) :
  0 <= c < Z.of_nat N ->
  nth_error t_index (Z.to_nat c) = Some window ->
  forall (turns : nat) (count : Z) (buffer : ndarray fval) (w : world),
    fst window <= count -> count + Z.of_nat turns <= snd window ->
    good buffer ->
    exists b' w',
      frame_loop E fuel modality scale_h scale_w s_index path_content fc
                 (frame_chn_of modality) c (fst window) turns count buffer w
      = Ok (b', w') /\
      kept buffer w b' w' /\
      forall i count',
        0 <= i < 2 -> count <= count' < count + Z.of_nat turns ->
        missing E modality path_content fc i count' ->
        In (frame_path path_content i (count' mod fc)) (stdout w').
Proof.
  intros Hc Hnth. induction turns as [|turns IH]; intros count buffer w Hlo Hhi Hshape.
  - exists buffer, w. split; [reflexivity|]. split; [apply keeps_refl; exact Hshape|].
    intros i count' _ Hcount'. lia.
  - cbn [frame_loop]. unfold bind at 1.
    destruct (frame_step_spec c window count buffer w Hc Hnth) as (b1 & w1 & Hs1 & Hk1 & Hlog1);
      [lia|exact Hshape|].
    rewrite Hs1.
    destruct (IH (count + 1) b1 w1) as (b2 & w2 & Hs2 & Hk2 & Hlog2);
      [lia|lia|exact (proj1 Hk1)|].
    rewrite Hs2. exists b2, w2. split; [reflexivity|].
    split; [eapply keeps_trans; eauto|].
    intros i count' Hi Hcount' Hmiss.
    destruct (Z.eq_dec count' count) as [->|Hne].
    + destruct Hk2 as (_ & _ & Hincl & _). apply Hincl. apply Hlog1; assumption.
    + apply Hlog2; [exact Hi|lia|exact Hmiss].
Qed.

Lemma clip_loop_spec :
  forall (range : list Z) (buffer : ndarray fval) (w : world),
    (forall c, In c range -> 0 <= c < Z.of_nat N) ->
    good buffer ->
    exists b' w',
      clip_loop E fuel modality scale_h scale_w s_index path_content fc
                (frame_chn_of modality) t_index range buffer w = Ok (b', w') /\
      kept buffer w b' w' /\
      forall c window i count,
        In c range -> nth_error t_index (Z.to_nat c) = Some window ->
        0 <= i < 2 -> fst window <= count < snd window ->
        missing E modality path_content fc i count ->
        In (frame_path path_content i (count mod fc)) (stdout w').
Proof.
  induction range as [|c rest IH]; intros buffer w Hrange Hshape.
  - exists buffer, w. split; [reflexivity|]. split; [apply keeps_refl; exact Hshape|].
    intros c window i count [].
  - assert (Hc : 0 <= c < Z.of_nat N) by (apply Hrange; left; reflexivity).
    assert (Hc' : 0 <= c < Z.of_nat (length t_index)) by (rewrite Hlen; exact Hc).
    destruct (nth_error t_index (Z.to_nat c)) as [window|] eqn:Hnth;
      [|apply nth_error_None in Hnth; lia].
    cbn [clip_loop]. unfold bind at 1. unfold lift at 1.
    rewrite (py_index_nonneg t_index c window Hnth) by lia.
    unfold bind at 1.
    assert (Hwidth : has_width L window).
    { apply Hwin. eapply nth_error_In; eauto. }
    unfold has_width in Hwidth.
    destruct (frame_loop_spec c window Hc Hnth (Z.to_nat (snd window - fst window))
                (fst window) buffer w) as (b1 & w1 & Hs1 & Hk1 & Hlog1);
      [lia|lia|exact Hshape|].
    rewrite Hs1.
    destruct (IH b1 w1) as (b2 & w2 & Hs2 & Hk2 & Hlog2);
      [intros c0 Hc0; apply Hrange; right; exact Hc0|exact (proj1 Hk1)|].
    rewrite Hs2. exists b2, w2. split; [reflexivity|].
    split; [eapply keeps_trans; eauto|].
    intros c0 window0 i count [<-|Hin] Hnth0 Hi Hcount Hmiss.
    + rewrite Hnth in Hnth0. inversion Hnth0; subst window0.
      destruct Hk2 as (_ & _ & Hincl & _). apply Hincl.
      apply Hlog1; [exact Hi|lia|exact Hmiss].
    + eapply Hlog2; eauto.
Qed.

End Assemble.

(** ** The shape of the assembled buffer *)

Lemma bind_ok {A B : Type} (m : M A) (k : A -> M B) (w w' : world) (r : B) :
  bind m k w = Ok (r, w') -> exists a w1, m w = Ok (a, w1) /\ k a w1 = Ok (r, w').
Proof.
  unfold bind. destruct (m w) as [[a w1]| |]; try discriminate. intros Hk. eauto.
Qed.

Lemma obind_ok {A B : Type} (m : outcome A) (k : A -> outcome B) (r : B) :
  obind m k = Ok r -> exists a, m = Ok a /\ k a = Ok r.
Proof. destruct m; try discriminate. intros Hk. eauto. Qed.

Lemma ret_ok {A : Type} (a r : A) (w w' : world) : ret a w = Ok (r, w') -> r = a /\ w' = w.
Proof. unfold ret. intros Heq. inversion Heq. auto. Qed.

Lemma store_rgb_shape (buffer b' : ndarray fval) (c t : Z) (src : ndarray Z) :
  store_rgb buffer c t src = Ok b' -> shape b' = shape buffer.
Proof.
  unfold store_rgb. destruct (shape buffer) as [|N [|L [|H [|W [|C [|? ?]]]]]];
    try discriminate.
  intros Hrun. apply obind_ok in Hrun. destruct Hrun as (c' & _ & Hrun).
  apply obind_ok in Hrun. destruct Hrun as (t' & _ & Hrun).
  destruct (broadcasts _ _); [|discriminate]. inversion Hrun. reflexivity.
Qed.

Lemma store_flow_shape (buffer b' : ndarray fval) (c t i : Z) (src : ndarray Z) :
  store_flow buffer c t i src = Ok b' -> shape b' = shape buffer.
Proof.
  unfold store_flow. destruct (shape buffer) as [|N [|L [|H [|W [|C [|? ?]]]]]];
    try discriminate.
  intros Hrun. apply obind_ok in Hrun. destruct Hrun as (c' & _ & Hrun).
  apply obind_ok in Hrun. destruct Hrun as (t' & _ & Hrun).
  apply obind_ok in Hrun. destruct Hrun as (i' & _ & Hrun).
  destruct (broadcasts _ _); [|discriminate]. inversion Hrun. reflexivity.
Qed.

Lemma store_frame_shape
      (E : env) (modality : string) (scale_h scale_w : Z) (s_index : (Z * Z) * (Z * Z))
      (path_content : list (list string)) (c t ccount : Z)
      (buffer_frame : list (option (ndarray Z))) (i : Z)
      (buffer b' : ndarray fval) (w w' : world) :
  store_frame E modality scale_h scale_w s_index path_content c t ccount buffer_frame i
              buffer w = Ok (b', w') ->
  shape b' = shape buffer.
Proof.
  unfold store_frame. intros Hrun.
  apply bind_ok in Hrun. destruct Hrun as ([f|] & w1 & _ & Hrun).
  - apply bind_ok in Hrun. destruct Hrun as (f1 & w2 & _ & Hrun).
    apply bind_ok in Hrun. destruct Hrun as (f2 & w3 & _ & Hrun).
    apply bind_ok in Hrun. destruct Hrun as (f3 & w4 & _ & Hrun).
    destruct (String.eqb modality "rgb").
    + apply lift_ok in Hrun. destruct Hrun as [Hrun _].
      apply (store_rgb_shape _ _ _ _ _ Hrun).
    + apply bind_ok in Hrun. destruct Hrun as (p & w5 & _ & Hrun).
      apply lift_ok in Hrun. destruct Hrun as [Hrun _].
      apply (store_flow_shape _ _ _ _ _ _ Hrun).
  - apply bind_ok in Hrun. destruct Hrun as (l & w2 & _ & Hrun).
    apply bind_ok in Hrun. destruct Hrun as (p & w3 & _ & Hrun).
    apply bind_ok in Hrun. destruct Hrun as (u & w4 & _ & Hrun).
    apply ret_ok in Hrun. destruct Hrun as [-> _]. reflexivity.
Qed.

Lemma store_frames_shape
      (E : env) (modality : string) (scale_h scale_w : Z) (s_index : (Z * Z) * (Z * Z))
      (path_content : list (list string)) (c t ccount : Z)
      (buffer_frame : list (option (ndarray Z))) :
  forall (range : list Z) (buffer b' : ndarray fval) (w w' : world),
    store_frames E modality scale_h scale_w s_index path_content c t ccount buffer_frame
                 range buffer w = Ok (b', w') ->
    shape b' = shape buffer.
Proof.
  induction range as [|i rest IH]; intros buffer b' w w' Hrun; cbn [store_frames] in Hrun.
  - apply ret_ok in Hrun. destruct Hrun as [-> _]. reflexivity.
  - apply bind_ok in Hrun. destruct Hrun as (b1 & w1 & H1 & Hrun).
    rewrite (IH _ _ _ _ Hrun). apply (store_frame_shape _ _ _ _ _ _ _ _ _ _ _ _ _ _ _ H1).
Qed.

Lemma frame_loop_shape
      (E : env) (fuel : nat) (modality : string) (scale_h scale_w : Z)
      (s_index : (Z * Z) * (Z * Z)) (path_content : list (list string))
      (frame_count frame_chn c start : Z) :
  forall (turns : nat) (count : Z) (buffer b' : ndarray fval) (w w' : world),
    frame_loop E fuel modality scale_h scale_w s_index path_content frame_count frame_chn
               c start turns count buffer w = Ok (b', w') ->
    shape b' = shape buffer.
Proof.
  induction turns as [|turns IH]; intros count buffer b' w w' Hrun; cbn [frame_loop] in Hrun.
  - apply ret_ok in Hrun. destruct Hrun as [-> _]. reflexivity.
  - apply bind_ok in Hrun. destruct Hrun as (b1 & w1 & H1 & Hrun).
    rewrite (IH _ _ _ _ _ Hrun). unfold frame_step in H1.
    apply bind_ok in H1. destruct H1 as (cc & w2 & _ & H1).
    apply bind_ok in H1. destruct H1 as (fr & w3 & _ & H1).
    apply (store_frames_shape _ _ _ _ _ _ _ _ _ _ _ _ _ _ _ H1).
Qed.

Lemma clip_loop_shape
      (E : env) (fuel : nat) (modality : string) (scale_h scale_w : Z)
      (s_index : (Z * Z) * (Z * Z)) (path_content : list (list string))
      (frame_count frame_chn : Z) (t_index : list (Z * Z)) :
  forall (range : list Z) (buffer b' : ndarray fval) (w w' : world),
    clip_loop E fuel modality scale_h scale_w s_index path_content frame_count frame_chn
              t_index range buffer w = Ok (b', w') ->
    shape b' = shape buffer.
Proof.
  induction range as [|c rest IH]; intros buffer b' w w' Hrun; cbn [clip_loop] in Hrun.
  - apply ret_ok in Hrun. destruct Hrun as [-> _]. reflexivity.
  - apply bind_ok in Hrun. destruct Hrun as (window & w1 & _ & Hrun).
    apply bind_ok in Hrun. destruct Hrun as (b1 & w2 & H1 & Hrun).
    rewrite (IH _ _ _ _ Hrun). apply (frame_loop_shape _ _ _ _ _ _ _ _ _ _ _ _ _ _ _ _ _ H1).
Qed.

Lemma np_empty_ok (dims : list Z) (buffer : ndarray fval) (w w' : world) :
  np_empty dims w = Ok (buffer, w') ->
  shape buffer = map Z.to_nat dims /\ item buffer = uninit w /\ w' = w.
Proof.
  unfold np_empty. destruct (forallb _ _); [|discriminate].
  intros Heq. inversion Heq. auto.
Qed.

Lemma assemble_shape
      (E : env) (fuel : nat) (frames_path : list string) (modality : string)
      (scale_h scale_w output_h output_w output_len : Z) (mode : string)
      (buffer : ndarray fval) (w w' : world) :
  assemble E fuel frames_path modality scale_h scale_w output_h output_w output_len mode w
  = Ok (buffer, w') ->
  shape buffer = map Z.to_nat [clips_per_video_of mode; output_len; output_h; output_w;
                               frame_chn_of modality].
Proof.
  unfold assemble. intros Hrun.
  apply bind_ok in Hrun. destruct Hrun as (u1 & w1 & _ & Hrun).
  apply bind_ok in Hrun. destruct Hrun as (u2 & w2 & _ & Hrun).
  apply bind_ok in Hrun. destruct Hrun as (l0 & w3 & _ & Hrun).
  apply bind_ok in Hrun. destruct Hrun as (ts & w4 & _ & Hrun).
  apply bind_ok in Hrun. destruct Hrun as (b0 & w5 & H0 & Hrun).
  apply np_empty_ok in H0. destruct H0 as (H0 & _).
  rewrite (clip_loop_shape _ _ _ _ _ _ _ _ _ _ _ _ _ _ _ Hrun). exact H0.
Qed.

Lemma flow_mean_sub_shape (buffer out : ndarray fval) :
  flow_mean_sub buffer = Ok out -> shape out = shape buffer.
Proof.
  unfold flow_mean_sub. destruct (shape buffer) as [|N [|L [|H [|W [|C [|? ?]]]]]];
    try discriminate.
  destruct (_ && _); [discriminate|]. intros Heq. inversion Heq. reflexivity.
Qed.

(** Whatever the video, a volume that [load_clips] returns has the canonical
    shape of the configuration. *)
Lemma load_clips_shape
      (E : env) (fuel : nat) (frames_path : list string) (modality : string)
      (scale_h scale_w crop_h crop_w clip_len : Z) (mode : string) (mean_sub : bool)
      (volume : ndarray fval) (w w' : world) :
  load_clips E fuel frames_path modality scale_h scale_w crop_h crop_w clip_len mode
             mean_sub w = Ok (volume, w') ->
  shape volume = canonical_shape modality mode clip_len crop_h crop_w.
Proof.
  unfold load_clips. intros Hrun.
  apply bind_ok in Hrun. destruct Hrun as (b0 & w1 & H0 & Hrun).
  apply assemble_shape in H0.
  apply bind_ok in Hrun. destruct Hrun as (b1 & w2 & H1 & Hrun).
  assert (Hb1 : shape b1 = shape b0).
  { destruct (mean_sub && String.eqb modality "flow").
    - apply lift_ok in H1. destruct H1 as [H1 _]. apply (flow_mean_sub_shape _ _ H1).
    - apply ret_ok in H1. destruct H1 as [-> _]. reflexivity. }
  unfold canonical_shape, clips_per_video_of in *.
  destruct (str_in mode ["train"; "validation"]%string).
  - apply bind_ok in Hrun. destruct Hrun as (b2 & w3 & H2 & Hrun).
    apply lift_ok in H2. destruct H2 as [H2 _].
    apply lift_ok in Hrun. destruct Hrun as [Hrun _].
    unfold nd_index0 in H2. cbn [normalize_buffer nd_map shape] in H2.
    rewrite Hb1, H0 in H2. cbn in H2. inversion H2; subst b2. clear H2.
    unfold transpose in Hrun. cbn in Hrun. inversion Hrun. reflexivity.
  - apply lift_ok in Hrun. destruct Hrun as [Hrun _].
    unfold transpose in Hrun. cbn [normalize_buffer nd_map shape] in Hrun.
    rewrite Hb1, H0 in Hrun. cbn in Hrun. inversion Hrun. reflexivity.
Qed.

(** ** The assembler returns on valid calls *)

Lemma max_end_bound (ws : list (Z * Z)) (w : Z * Z) : In w ws -> snd w <= max_end ws.
Proof.
  induction ws as [|x ws IH]; intros Hin; [contradiction|].
  cbn [max_end fold_right]. destruct Hin as [->|Hin]; [lia|].
  specialize (IH Hin). unfold max_end in IH. lia.
Qed.

Lemma temporal_uniform_crop_stable (b c n : Z) :
  1 <= b -> 2 <= n ->
  exists (k : nat) (ws : list (Z * Z)),
    (forall fuel, (k < fuel)%nat -> temporal_uniform_crop fuel b c n = Ok ws) /\
    length ws = Z.to_nat n /\ Forall (has_width c) ws /\
    (0 <= c -> Forall (fun w => 0 <= fst w) ws).
Proof.
  intros Hb Hn.
  destruct (temporal_uniform_crop_spec b c n Hb Hn) as (k & _ & _ & Hspec).
  destruct (Hspec (S k)) as (Hd & ws & Hws & Hlen & Hw & _ & _ & Hpos); [lia|].
  exists k, ws. split; [|auto].
  intros fuel Hfuel. destruct (Hspec fuel Hfuel) as (Hd' & _).
  unfold temporal_uniform_crop in Hws |- *. rewrite Hd'. rewrite Hd in Hws. exact Hws.
Qed.

Lemma temporal_center_crop_returns (b c : Z) :
  1 <= b -> exists s, temporal_center_crop b c = Ok (s, s + c) /\ 0 <= s.
Proof.
  intros Hb. destruct (temporal_center_crop b c) as [[s e]| |] eqn:Hrun.
  - destruct (temporal_center_crop_ok b c s e Hb Hrun) as (Hs & ->). eauto.
  - exfalso. unfold temporal_center_crop in Hrun.
    destruct (c <=? b); [discriminate|]. destruct (Z.eqb_spec b 0); [lia|discriminate].
  - exfalso. unfold temporal_center_crop in Hrun.
    destruct (c <=? b); [discriminate|]. destruct (Z.eqb_spec b 0); discriminate.
Qed.

Lemma spatial_center_crop_spec (scale_h scale_w crop_h crop_w : Z) :
  crop_h <= scale_h -> crop_w <= scale_w ->
  exists a b,
    spatial_center_crop [scale_h; scale_w] [crop_h; crop_w]
    = Ok ((a, a + crop_h), (b, b + crop_w)) /\
    0 <= a /\ a + crop_h <= scale_h /\ 0 <= b /\ b + crop_w <= scale_w.
Proof.
  intros Hh Hw. exists ((scale_h - crop_h) / 2), ((scale_w - crop_w) / 2).
  split; [reflexivity|].
  assert (H1 : 0 <= (scale_h - crop_h) / 2) by (apply Z.div_pos; lia).
  assert (H2 : 0 <= (scale_w - crop_w) / 2) by (apply Z.div_pos; lia).
  assert (H3 : 2 * ((scale_h - crop_h) / 2) <= scale_h - crop_h)
    by (apply Z.mul_div_le; lia).
  assert (H4 : 2 * ((scale_w - crop_w) / 2) <= scale_w - crop_w)
    by (apply Z.mul_div_le; lia).
  lia.
Qed.

(** The windows of a valid call do not depend on the fuel, once there is
    enough for the doubling loop. *)
Lemma select_windows_spec
      (mode : string) (fc scale_h scale_w crop_h crop_w clip_len : Z) (w : world) :
  In mode ["train"; "validation"; "test"]%string ->
  1 <= fc -> 0 <= clip_len ->
  crop_h <= scale_h -> crop_w <= scale_w ->
  (mode = "train"%string ->
   crop_h < scale_h /\ crop_w < scale_w /\ ~ (fc = 32 /\ 64 <= clip_len)) ->
  exists (k : nat) (t_index : list (Z * Z)) (a b : Z) (w1 : world),
    (forall fuel, (k < fuel)%nat ->
       select_windows fuel mode fc scale_h scale_w crop_h crop_w clip_len w
       = Ok ((t_index, ((a, a + crop_h), (b, b + crop_w))), w1)) /\
    0 <= a /\ a + crop_h <= scale_h /\ 0 <= b /\ b + crop_w <= scale_w /\
    length t_index = Z.to_nat (clips_per_video_of mode) /\
    Forall (has_width clip_len) t_index /\
    Forall (fun w => 0 <= fst w) t_index /\
    uninit w1 = uninit w /\ stdout w1 = stdout w.
Proof.
  intros Hmode Hfc Hlen Hh Hw Htrain.
  unfold select_windows, clips_per_video_of.
  destruct Hmode as [<-|[<-|[<-|[]]]]; cbn [str_in existsb String.eqb Ascii.eqb Bool.eqb orb].
  - destruct (Htrain eq_refl) as (Hh' & Hw' & H32).
    destruct (temporal_crop_spec fc clip_len w Hfc H32) as (s & w1 & Ht & Hs & _).
    destruct (spatial_crop_spec scale_h scale_w crop_h crop_w w1 Hh' Hw')
      as (a & b & w2 & Hsp & Ha & Hah & Hb & Hbw).
    exists O, [(s, s + clip_len)], a, b, w2. split.
    { intros fuel _. unfold bind, ret. rewrite Ht, Hsp. reflexivity. }
    apply temporal_crop_ok in Ht. destruct Ht as (_ & _ & Hu1 & Ho1).
    assert (Hw2 : uninit w2 = uninit w1 /\ stdout w2 = stdout w1).
    { clear - Hsp. unfold spatial_crop in Hsp.
      apply bind_ok in Hsp. destruct Hsp as (? & wa & H1 & Hsp). apply lift_ok in H1.
      destruct H1 as [_ ->].
      apply bind_ok in Hsp. destruct Hsp as (? & wb & H1 & Hsp). apply lift_ok in H1.
      destruct H1 as [_ ->].
      apply bind_ok in Hsp. destruct Hsp as (? & wc & H1 & Hsp). apply lift_ok in H1.
      destruct H1 as [_ ->].
      apply bind_ok in Hsp. destruct Hsp as (? & wd & H1 & Hsp). apply randint_ok in H1.
      destruct H1 as (_ & Hu & Ho).
      apply bind_ok in Hsp. destruct Hsp as (? & we & H1 & Hsp). apply lift_ok in H1.
      destruct H1 as [_ ->].
      apply bind_ok in Hsp. destruct Hsp as (? & wf & H1 & Hsp). apply lift_ok in H1.
      destruct H1 as [_ ->].
      apply bind_ok in Hsp. destruct Hsp as (? & wg & H1 & Hsp). apply randint_ok in H1.
      destruct H1 as (_ & Hu' & Ho').
      apply ret_ok in Hsp. destruct Hsp as [_ ->]. split; congruence. }
    repeat split; try lia; try (constructor; [|constructor]); cbn; try lia;
      try reflexivity; destruct Hw2; congruence.
  - destruct (temporal_center_crop_returns fc clip_len Hfc) as (s & Ht & Hs).
    destruct (spatial_center_crop_spec scale_h scale_w crop_h crop_w Hh Hw)
      as (a & b & Hsp & Ha & Hah & Hb & Hbw).
    exists O, [(s, s + clip_len)], a, b, w. split.
    { intros fuel _. msimpl. rewrite Ht. cbn beta iota. rewrite Hsp. reflexivity. }
    repeat split; try lia; try (constructor; [|constructor]); cbn; try lia; reflexivity.
  - destruct (temporal_uniform_crop_stable fc clip_len 10 Hfc) as (k & ws & Ht & Hl & Hwd & Hpos);
      [lia|].
    destruct (spatial_center_crop_spec scale_h scale_w crop_h crop_w Hh Hw)
      as (a & b & Hsp & Ha & Hah & Hb & Hbw).
    exists k, ws, a, b, w. split.
    { intros fuel Hfuel. msimpl. rewrite (Ht fuel Hfuel). cbn beta iota.
      rewrite Hsp. reflexivity. }
    repeat split; try lia; auto.
Qed.

Lemma insert_sorted_length (x : string) (l : list string) :
  length (insert_sorted x l) = S (length l).
Proof.
  induction l as [|y l IH]; [reflexivity|]. simpl.
  destruct (String.leb x y); simpl; [reflexivity|]. rewrite IH. reflexivity.
Qed.

Lemma sort_length (l : list string) : length (sort l) = length l.
Proof.
  induction l as [|x l IH]; [reflexivity|]. simpl. rewrite insert_sorted_length, IH.
  reflexivity.
Qed.

Lemma py_range_bounds (hi c : Z) : In c (py_range 0 hi) -> 0 <= c < hi.
Proof.
  unfold py_range. intros Hin. apply in_map_iff in Hin.
  destruct Hin as (k & <- & Hk). apply in_seq in Hk. lia.
Qed.

Lemma clips_per_video_cases (mode : string) :
  clips_per_video_of mode = 1 \/ clips_per_video_of mode = 10.
Proof. unfold clips_per_video_of. destruct (str_in _ _); auto. Qed.

Lemma frame_chn_cases (modality : string) :
  frame_chn_of modality = 3 \/ frame_chn_of modality = 2.
Proof. unfold frame_chn_of. destruct (String.eqb _ _); auto. Qed.

(** On a valid call the assembly returns; an element whose frame cannot be
    decoded is left as the allocation had it, and the path of the frame is
    printed. *)
Lemma assemble_returns
      (E : env) (frames_path : list string) (modality : string)
      (scale_h scale_w crop_h crop_w clip_len : Z) (mode : string) (w : world) :
  valid_call E frames_path modality scale_h scale_w crop_h crop_w clip_len mode ->
  exists (fuel0 : nat) (t_index : list (Z * Z)) (s_index : (Z * Z) * (Z * Z)) (w1 : world),
    forall fuel, (fuel0 <= fuel)%nat ->
      select_windows fuel mode (frame_count_of E frames_path)
                     scale_h scale_w crop_h crop_w clip_len w
      = Ok ((t_index, s_index), w1) /\
      exists buffer w2,
        assemble E fuel frames_path modality scale_h scale_w crop_h crop_w clip_len mode w
        = Ok (buffer, w2) /\
        shape buffer = map Z.to_nat [clips_per_video_of mode; clip_len; crop_h; crop_w;
                                     frame_chn_of modality] /\
        uninit w2 = uninit w /\
        incl (stdout w) (stdout w2) /\
        (forall idx,
            skipped E modality (map (listing_of E) frames_path)
                    (frame_count_of E frames_path) t_index idx ->
            item buffer idx = uninit w idx) /\
        (forall c window i count,
            0 <= c < clips_per_video_of mode ->
            nth_error t_index (Z.to_nat c) = Some window ->
            0 <= i < 2 -> fst window <= count < snd window ->
            missing E modality (map (listing_of E) frames_path)
                    (frame_count_of E frames_path) i count ->
            In (frame_path (map (listing_of E) frames_path) i
                           (count mod frame_count_of E frames_path))
               (stdout w2)).
Proof.
  intros (Hmode & Hfc & Hlen & Hh & Hw & Htrain & Hdirs).
  destruct (select_windows_spec mode (frame_count_of E frames_path)
              scale_h scale_w crop_h crop_w clip_len w Hmode Hfc)
    as (k & t_index & a & b & w1 & Hsel & Ha & Hah & Hb & Hbw & Hn & Hwd & Hpos & Hu1 & Ho1);
    [lia|lia|lia|exact Htrain|].
  exists (Nat.max (S k) (S (Z.to_nat (max_end t_index)))), t_index,
         ((a, a + crop_h), (b, b + crop_w)), w1.
  intros fuel Hfuel. split; [apply Hsel; lia|].
  assert (Hmode' : str_in mode ["train"; "validation"; "test"]%string = true)
    by (apply str_in_In; exact Hmode).
  set (listing0 := match frames_path with d :: _ => listing_of E d | [] => [] end).
  set (listing1 := match frames_path with _ :: d :: _ => listing_of E d | _ => [] end).
  assert (Hfc0 : frame_count_of E frames_path = Z.of_nat (length listing0)).
  { destruct Hdirs as [(_ & d0 & -> & _)|(_ & d0 & d1 & -> & _)]; reflexivity. }
  assert (Hcase :
            (modality = "rgb"%string /\ map (listing_of E) frames_path = [listing0]) \/
            (modality = "flow"%string /\
             map (listing_of E) frames_path = [listing0; listing1] /\
             length listing1 = length listing0)).
  { destruct Hdirs as [(Hm & d0 & -> & _)|(Hm & d0 & d1 & -> & Hl)];
      [left|right]; auto. }
  assert (Hdec : modality = "rgb"%string ->
                 forall p, In p listing0 -> decode E p <> None).
  { intros Hm. destruct Hdirs as [(_ & d0 & -> & Hd)|(Hm' & _)]; [exact Hd|].
    rewrite Hm in Hm'. discriminate. }
  assert (Hwin : forall window, In window t_index ->
             has_width clip_len window /\
             forall count, fst window <= count < snd window ->
                           0 <= count < Z.of_nat (length listing0) * Z.of_nat fuel).
  { intros window Hin. rewrite Forall_forall in Hwd, Hpos.
    split; [apply Hwd; exact Hin|]. intros count Hcount.
    specialize (Hpos window Hin). cbn beta in Hpos.
    pose proof (max_end_bound t_index window Hin) as Hmax.
    rewrite <- Hfc0. nia. }
  destruct (clips_per_video_cases mode) as [Hcpv|Hcpv];
    destruct (frame_chn_cases modality) as [Hchn|Hchn].
  all: assert (Hempty : forallb (fun d => 0 <=? d)
                          [clips_per_video_of mode; clip_len; crop_h; crop_w;
                           frame_chn_of modality] = true)
      by (rewrite Hcpv, Hchn; cbn [forallb];
          repeat (match goal with
                  | |- context [0 <=? ?x] =>
                      destruct (Z.leb_spec 0 x); [cbn [andb]|lia]
                  end); reflexivity).
  all: set (buffer0 := mk_nd (map Z.to_nat [clips_per_video_of mode; clip_len; crop_h;
                                           crop_w; frame_chn_of modality]) (uninit w1)).
  all: destruct (clip_loop_spec E fuel modality scale_h scale_w crop_h crop_w a b
                   listing0 listing1 (map (listing_of E) frames_path) t_index
                   (Z.to_nat (clips_per_video_of mode)) clip_len Hcase
                   ltac:(rewrite <- Hfc0; exact Hfc) Hdec
                   ltac:(lia) ltac:(lia) Ha ltac:(lia) Hah Hb ltac:(lia) Hbw
                   ltac:(lia) Hn Hwin
                   (py_range 0 (clips_per_video_of mode)) buffer0 w1)
      as (buffer & w2 & Hloop & (Hshape & Hu2 & Ho2 & Hkeep) & Hlog);
    [intros c Hc; apply py_range_bounds in Hc; lia | reflexivity |].
  all: exists buffer, w2.
  all: split;
    [ unfold assemble; msimpl;
      replace (if String.eqb modality "rgb"
               then (length frames_path =? 1)%nat else (length frames_path =? 2)%nat)
        with true
        by (destruct Hdirs as [(-> & d0 & -> & _)|(-> & d0 & d1 & -> & _)]; reflexivity);
      cbn [assert]; cbn beta iota; rewrite Hmode'; cbn [assert]; cbn beta iota;
      replace (py_index (map (fun d => sort (glob E (d ++ "/*.jpg")%string)) frames_path) 0)
        with (Ok listing0)
        by (destruct Hdirs as [(_ & d0 & -> & _)|(_ & d0 & d1 & -> & _)]; reflexivity);
      cbn beta iota; rewrite <- Hfc0; rewrite (Hsel fuel) by lia; cbn beta iota;
      unfold np_empty; rewrite Hempty; cbn [fst snd];
      rewrite <- Hfc0 in Hloop; exact Hloop
    | ].
  all: split; [exact Hshape|]. 
  all: split; [congruence|].
  all: split; [rewrite <- Ho1; exact Ho2|].
  all: split;
    [ intros idx Hsk; rewrite <- Hu1; rewrite <- Hfc0 in Hkeep; apply (Hkeep idx Hsk)
    | intros c window i count Hc Hnth Hi Hcount Hmiss; rewrite <- Hfc0 in Hlog;
      apply (Hlog c window i count); auto;
      unfold py_range; apply in_map_iff; exists (Z.to_nat c);
      split; [lia | apply in_seq; lia] ].
Qed.

(** After the assembly nothing fails: the normalisations and the change of
    layout return, and the world stays as the assembly left it. *)
Lemma load_clips_after_assemble
      (E : env) (fuel : nat) (frames_path : list string) (modality : string)
      (scale_h scale_w crop_h crop_w clip_len : Z) (mode : string) (mean_sub : bool)
      (buffer : ndarray fval) (w w2 : world) :
  1 <= clip_len -> 1 <= crop_h -> 1 <= crop_w ->
  assemble E fuel frames_path modality scale_h scale_w crop_h crop_w clip_len mode w
  = Ok (buffer, w2) ->
  exists volume,
    load_clips E fuel frames_path modality scale_h scale_w crop_h crop_w clip_len mode
               mean_sub w = Ok (volume, w2).
Proof.
  intros Hlen Hh Hw Hasm. pose proof (assemble_shape _ _ _ _ _ _ _ _ _ _ _ _ _ Hasm) as Hshape.
  cbn [map] in Hshape.
  unfold load_clips. unfold bind at 1. rewrite Hasm.
  assert (Hmean : exists b1,
             (if mean_sub && String.eqb modality "flow"
              then lift (flow_mean_sub buffer) else ret buffer) w2 = Ok (b1, w2) /\
             shape b1 = shape buffer).
  { destruct (mean_sub && String.eqb modality "flow").
    - unfold flow_mean_sub. rewrite Hshape.
      assert (Hnz : (Z.to_nat clip_len * Z.to_nat crop_h * Z.to_nat crop_w =? 0)%nat = false).
      { apply Nat.eqb_neq. intros Hz. apply Nat.eq_mul_0 in Hz.
        destruct Hz as [Hz|Hz]; [|lia]. apply Nat.eq_mul_0 in Hz. lia. }
      rewrite Hnz. cbn [andb]. unfold lift. eexists. split; [reflexivity|reflexivity].
    - exists buffer. split; reflexivity. }
  destruct Hmean as (b1 & Hb1 & Hs1). unfold bind at 1. rewrite Hb1.
  unfold clips_per_video_of in Hshape.
  destruct (str_in mode ["train"; "validation"]%string).
  - unfold bind, lift, nd_index0, transpose. cbn [normalize_buffer nd_map shape].
    rewrite Hs1, Hshape. cbn. eexists. reflexivity.
  - unfold lift, transpose. cbn [normalize_buffer nd_map shape].
    rewrite Hs1, Hshape. cbn. eexists. reflexivity.
Qed.

Lemma valid_call_sizes
      (E : env) (frames_path : list string) (modality : string)
      (scale_h scale_w crop_h crop_w clip_len : Z) (mode : string) :
  valid_call E frames_path modality scale_h scale_w crop_h crop_w clip_len mode ->
  1 <= clip_len /\ 1 <= crop_h /\ 1 <= crop_w.
Proof. intros (_ & _ & Hl & Hh & Hw & _). lia. Qed.

(** C2: a volume that [load_clips] returns has the canonical shape of the
    configuration, (channels, clip_len, crop_h, crop_w) for train and
    validation and (clips, channels, clip_len, crop_h, crop_w) for test,
    whatever the frame count of the video; and on every valid call, with a
    video of one frame or more, a volume is returned. *)
Theorem returned_volume_shape
        (E : env) (frames_path : list string) (modality : string)
        (scale_h scale_w crop_h crop_w clip_len : Z) (mode : string) (mean_sub : bool)
        (w : world) :
  (forall fuel volume w',
      load_clips E fuel frames_path modality scale_h scale_w crop_h crop_w clip_len mode
                 mean_sub w = Ok (volume, w') ->
      shape volume = canonical_shape modality mode clip_len crop_h crop_w) /\
  (valid_call E frames_path modality scale_h scale_w crop_h crop_w clip_len mode ->
   exists fuel0 : nat,
     forall fuel, (fuel0 <= fuel)%nat ->
       exists volume w',
         load_clips E fuel frames_path modality scale_h scale_w crop_h crop_w clip_len mode
                    mean_sub w = Ok (volume, w') /\
         shape volume = canonical_shape modality mode clip_len crop_h crop_w).
Proof.
  split.
  - intros fuel volume w' Hrun. apply (load_clips_shape _ _ _ _ _ _ _ _ _ _ _ _ _ _ Hrun).
  - intros Hvalid.
    destruct (assemble_returns E frames_path modality scale_h scale_w crop_h crop_w
                clip_len mode w Hvalid) as (fuel0 & t_index & s_index & w1 & Hasm).
    destruct (valid_call_sizes _ _ _ _ _ _ _ _ _ Hvalid) as (Hl & Hh & Hw).
    exists fuel0. intros fuel Hfuel.
    destruct (Hasm fuel Hfuel) as (_ & buffer & w2 & Hrun & _).
    destruct (load_clips_after_assemble E fuel frames_path modality scale_h scale_w
                crop_h crop_w clip_len mode mean_sub buffer w w2 Hl Hh Hw Hrun)
      as (volume & Hload).
    exists volume, w2. split; [exact Hload|].
    apply (load_clips_shape _ _ _ _ _ _ _ _ _ _ _ _ _ _ Hload).
Qed.


(** ** The model at work *)

Example canonical_shape_rgb_train :
  canonical_shape "rgb" "train" 16 112 112 = [3; 16; 112; 112]%nat.
Proof. reflexivity. Qed.

Example canonical_shape_flow_test :
  canonical_shape "flow" "test" 16 112 112 = [10; 2; 16; 112; 112]%nat.
Proof. reflexivity. Qed.

Example uniform_windows_short_video :
  temporal_uniform_crop 10 5 16 10
  = Ok [(0, 16); (3, 19); (6, 22); (9, 25); (12, 28); (15, 31); (18, 34); (21, 37);
        (24, 40); (24, 40)].
Proof. reflexivity. Qed.

Example uniform_windows_single_clip :
  temporal_uniform_crop 10 5 16 1 = Raise ZeroDivisionError.
Proof. reflexivity. Qed.

Ltac solve_listing H :=
  vm_compute in H;
  repeat (destruct H as [H|H]; [subst; vm_compute; discriminate|]);
  contradiction.

Lemma returned_volume_shape_witness :
  exists fuel0 : nat,
    forall fuel, (fuel0 <= fuel)%nat ->
      exists volume w',
        load_clips demo_env fuel ["c"%string] "rgb" 3 4 2 2 2 "test" true demo_world
        = Ok (volume, w') /\
        shape volume = canonical_shape "rgb" "test" 2 2 2.
Proof.
  apply (proj2 (returned_volume_shape demo_env ["c"%string] "rgb" 3 4 2 2 2 "test" true
                                      demo_world)).
  unfold valid_call. split; [simpl; auto|]. split; [vm_compute; discriminate|].
  split; [lia|]. split; [lia|]. split; [lia|]. split; [intros H; discriminate H|].
  left. split; [reflexivity|]. exists "c"%string. split; [reflexivity|].
  intros p Hin. solve_listing Hin.
Defined.




Lemma getitem_raises_type_error_witness :
  VideoDataset.__getitem__ demo_env 10 demo_provider 0 demo_world = Raise TypeError.
Proof.
  apply (getitem_raises_type_error demo_env 10 demo_provider 0 demo_world).
  simpl. lia.
Defined.

Lemma construction_validates_witness :
  VideoDataset.__init__ demo_env "root" "ucf" 1 "train" "rgb" 16 false 8 "video" 10
                        demo_world = Raise AssertionError /\
  exists self w',
    VideoDataset.__init__ demo_env "root" "ucf" 1 "test" "rgb" 16 true 8 "video" 10
                          demo_world = Ok (self, w') /\
    length (VideoDataset._clip_names self) = length (VideoDataset._labels self) /\
    VideoDataset._modality self = "rgb"%string /\
    VideoDataset._load_mode self = "video"%string /\
    VideoDataset._clips_per_video self = 10 /\
    VideoDataset._crop_depth self = 16.
Proof.
  split.
  - apply (proj1 (construction_validates demo_env "root" "ucf" 1 "train" "rgb" 16 false 8
                                         "video" 10 demo_world)).
    unfold invalid_configuration. right. right. right. right. left.
    split; [reflexivity|discriminate].
  - refine (proj2 (proj2 (construction_validates demo_env "root" "ucf" 1 "test" "rgb" 16
                                                 true 8 "video" 10 demo_world) _) _).
    + unfold invalid_configuration.
      intros [H|[H|[H|[H|[[H _]|[[H _]|[_ H]]]]]]];
        try discriminate H; try lia; apply H; simpl; auto.
    + unfold mapping_loads. eexists _, _, _, _.
      split; [reflexivity|]. split; [vm_compute; reflexivity|].
      split; [vm_compute; reflexivity|]. split; [vm_compute; reflexivity|].
      intros _ _. discriminate.
Defined.

(** ** More on the samplers *)

Lemma half_margins (n : Z) : 0 <= n -> 0 <= n / 2 /\ n / 2 <= n - n / 2 <= n / 2 + 1.
Proof.
  intros Hn. pose proof (Z.div_mod n 2 ltac:(lia)) as Hdm.
  pose proof (Z.mod_pos_bound n 2 ltac:(lia)) as Hmod. lia.
Qed.

Lemma centre_len_covers (b c : Z) : 1 <= b -> c <= centre_len b c.
Proof.
  intros Hb. unfold centre_len. destruct (Z.leb_spec c b) as [Hle|Hgt]; [exact Hle|].
  set (m := Qceiling (inject_Z c / inject_Z b)).
  assert (Hm : (inject_Z c / inject_Z b <= inject_Z m)%Q) by apply Qle_ceiling.
  assert (Hbq : (0 < inject_Z b)%Q).
  { change (inject_Z 0 < inject_Z b)%Q. rewrite <- Zlt_Qlt. lia. }
  apply (Qmult_le_compat_r _ _ (inject_Z b)) in Hm; [|apply Qlt_le_weak; exact Hbq].
  rewrite Qmult_comm, Qmult_div_r in Hm.
  - rewrite <- inject_Z_mult, <- Zle_Qle in Hm. lia.
  - intros H0. rewrite H0 in Hbq. apply (Qlt_irrefl 0 Hbq).
Qed.

(** The centre window of a video of one frame or more lies inside the
    (looped) frame count, with as many frames before it as after it, or one
    fewer before. *)
Theorem temporal_center_crop_centred (buffer_len clip_len : Z) :
  1 <= buffer_len ->
  exists start,
    temporal_center_crop buffer_len clip_len = Ok (start, start + clip_len) /\
    0 <= start /\ start + clip_len <= centre_len buffer_len clip_len /\
    start <= centre_len buffer_len clip_len - (start + clip_len) <= start + 1.
Proof.
  intros Hb. pose proof (centre_len_covers buffer_len clip_len Hb) as Hcov.
  exists ((centre_len buffer_len clip_len - clip_len) / 2).
  destruct (half_margins (centre_len buffer_len clip_len - clip_len)) as (H0 & H1); [lia|].
  split; [|lia].
  unfold temporal_center_crop, centre_len.
  destruct (Z.leb_spec clip_len buffer_len); [reflexivity|].
  destruct (Z.eqb_spec buffer_len 0); [lia|reflexivity].
Qed.

Lemma temporal_center_crop_centred_witness :
  exists start,
    temporal_center_crop 5 16 = Ok (start, start + 16) /\
    0 <= start /\ start + 16 <= centre_len 5 16 /\
    start <= centre_len 5 16 - (start + 16) <= start + 1.
Proof. apply (temporal_center_crop_centred 5 16). lia. Defined.

(** A centre crop that fits lies inside the scaled frame, with margins that
    differ by one pixel at most in each direction. *)
Theorem spatial_center_crop_centred (scale_h scale_w crop_h crop_w : Z) :
  crop_h <= scale_h -> crop_w <= scale_w ->
  exists start_h start_w,
    spatial_center_crop [scale_h; scale_w] [crop_h; crop_w]
    = Ok ((start_h, start_h + crop_h), (start_w, start_w + crop_w)) /\
    0 <= start_h /\ start_h <= scale_h - (start_h + crop_h) <= start_h + 1 /\
    0 <= start_w /\ start_w <= scale_w - (start_w + crop_w) <= start_w + 1.
Proof.
  intros Hh Hw. exists ((scale_h - crop_h) / 2), ((scale_w - crop_w) / 2).
  split; [reflexivity|].
  destruct (half_margins (scale_h - crop_h)) as (H0 & H1); [lia|].
  destruct (half_margins (scale_w - crop_w)) as (H2 & H3); [lia|]. lia.
Qed.

Lemma spatial_center_crop_centred_witness :
  exists start_h start_w,
    spatial_center_crop [128; 171] [112; 112]
    = Ok ((start_h, start_h + 112), (start_w, start_w + 112)) /\
    0 <= start_h /\ start_h <= 128 - (start_h + 112) <= start_h + 1 /\
    0 <= start_w /\ start_w <= 171 - (start_w + 112) <= start_w + 1.
Proof. apply (spatial_center_crop_centred 128 171 112 112); lia. Defined.

(** A centre crop higher than the scaled frame is not refused: the window
    returned starts above the frame and ends at or below its last row. *)
Theorem spatial_center_crop_oversized (scale_h scale_w crop_h crop_w : Z) :
  scale_h < crop_h ->
  exists start_h w_window,
    spatial_center_crop [scale_h; scale_w] [crop_h; crop_w]
    = Ok ((start_h, start_h + crop_h), w_window) /\
    start_h < 0 /\ scale_h <= start_h + crop_h.
Proof.
  intros Hh. eexists _, _. split; [reflexivity|].
  pose proof (Z.div_mod (scale_h - crop_h) 2 ltac:(lia)) as Hdm.
  pose proof (Z.mod_pos_bound (scale_h - crop_h) 2 ltac:(lia)) as Hmod. lia.
Qed.

Lemma spatial_center_crop_oversized_witness :
  exists start_h w_window,
    spatial_center_crop [100; 171] [112; 112]
    = Ok ((start_h, start_h + 112), w_window) /\
    start_h < 0 /\ 100 <= start_h + 112.
Proof. apply (spatial_center_crop_oversized 100 171 112 112). lia. Defined.

Lemma spatial_crop_ok (scale_h scale_w crop_h crop_w : Z) (w w' : world)
      (hs ws : Z * Z) :
  spatial_crop [scale_h; scale_w] [crop_h; crop_w] w = Ok ((hs, ws), w') ->
  0 <= fst hs < scale_h - crop_h /\ snd hs = fst hs + crop_h /\
  0 <= fst ws < scale_w - crop_w /\ snd ws = fst ws + crop_w.
Proof.
  unfold spatial_crop. intros Hsp.
  apply bind_ok in Hsp. destruct Hsp as (? & wa & H1 & Hsp). apply lift_ok in H1.
  destruct H1 as [_ ->].
  apply bind_ok in Hsp. destruct Hsp as (b0 & wb & H1 & Hsp). apply lift_ok in H1.
  destruct H1 as [H1 ->]. inversion H1; subst b0.
  apply bind_ok in Hsp. destruct Hsp as (c0 & wc & H2 & Hsp). apply lift_ok in H2.
  destruct H2 as [H2 ->]. inversion H2; subst c0.
  apply bind_ok in Hsp. destruct Hsp as (r & wd & H3 & Hsp). apply randint_ok in H3.
  destruct H3 as (Hr & _).
  apply bind_ok in Hsp. destruct Hsp as (b1 & we & H4 & Hsp). apply lift_ok in H4.
  destruct H4 as [H4 ->]. inversion H4; subst b1.
  apply bind_ok in Hsp. destruct Hsp as (c1 & wf & H5 & Hsp). apply lift_ok in H5.
  destruct H5 as [H5 ->]. inversion H5; subst c1.
  apply bind_ok in Hsp. destruct Hsp as (r' & wg & H6 & Hsp). apply randint_ok in H6.
  destruct H6 as (Hr' & _).
  apply ret_ok in Hsp. destruct Hsp as [Heq _]. inversion Heq; subst. cbn. lia.
Qed.

(** A random window never holds the last frame of the (looped) source, and a
    random crop never holds the last row or the last column of the scaled
    frame: the draw of the start excludes the largest offset. *)
Theorem random_windows_miss_the_edge
        (buffer_len clip_len scale_h scale_w crop_h crop_w : Z)
        (w w1 w2 : world) (t : Z * Z) (hs ws : Z * Z) :
  temporal_crop buffer_len clip_len w = Ok (t, w1) ->
  spatial_crop [scale_h; scale_w] [crop_h; crop_w] w1 = Ok ((hs, ws), w2) ->
  snd t <= looped_len buffer_len clip_len - 1 /\
  snd hs <= scale_h - 1 /\ snd ws <= scale_w - 1.
Proof.
  intros Ht Hs. apply spatial_crop_ok in Hs. split; [|lia].
  destruct t as [s e]. unfold temporal_crop, looped_len, bind, ret in *.
  destruct (Qle_bool _ _);
    match type of Ht with
    | context [randint ?h w] =>
        destruct (randint h w) as [[r w']| |] eqn:Hr; try discriminate;
        apply randint_ok in Hr; inversion Ht; subst; cbn; lia
    end.
Qed.

Lemma random_windows_miss_the_edge_witness :
  snd (3, 19) <= looped_len 5 16 - 1 /\
  snd (10, 122) <= 128 - 1 /\ snd (17, 129) <= 171 - 1.
Proof.
  refine (random_windows_miss_the_edge 5 16 128 171 112 112 demo_world
            (mk_world (np_random demo_world) 1 (py_random demo_world) 0 []
                      (uninit demo_world))
            (mk_world (np_random demo_world) 3 (py_random demo_world) 0 []
                      (uninit demo_world))
            (3, 19) (10, 122) (17, 129) _ _); vm_compute; reflexivity.
Defined.

(** ** Edge behaviour of the assembler *)

Lemma double_buffer_len_zero (clip_len : Z) :
  1 <= clip_len -> forall fuel, double_buffer_len fuel 0 clip_len = OutOfFuel.
Proof.
  intros Hc. induction fuel as [|fuel IH]; [reflexivity|].
  cbn [double_buffer_len]. rewrite too_short_lt.
  destruct (Z.ltb_spec (2 * 0) (3 * clip_len)); [exact IH|lia].
Qed.

(** On a directory without frames the assembler does not return: the random
    policy draws from an empty range, the centre policy divides by the frame
    count, and the doubling loop of the uniform policy never ends. *)
Theorem load_clips_empty_directory
        (E : env) (fuel : nat) (frames_path : list string) (modality : string)
        (scale_h scale_w crop_h crop_w clip_len : Z) (mean_sub : bool) (w : world) :
  (if String.eqb modality "rgb"
   then (length frames_path =? 1)%nat else (length frames_path =? 2)%nat) = true ->
  frame_count_of E frames_path = 0 ->
  1 <= clip_len ->
  load_clips E fuel frames_path modality scale_h scale_w crop_h crop_w clip_len
             "train" mean_sub w = Raise ValueError /\
  load_clips E fuel frames_path modality scale_h scale_w crop_h crop_w clip_len
             "validation" mean_sub w = Raise ZeroDivisionError /\
  load_clips E fuel frames_path modality scale_h scale_w crop_h crop_w clip_len
             "test" mean_sub w = OutOfFuel.
Proof.
  intros Hdirs Hempty Hc.
  destruct frames_path as [|d0 rest].
  { destruct (String.eqb modality "rgb"); discriminate. }
  cbn [frame_count_of] in Hempty.
  assert (Hl : listing_of E d0 = []).
  { destruct (listing_of E d0); [reflexivity|]. cbn [length] in Hempty. lia. }
  unfold listing_of in Hl.
  assert (Hsel : forall mode,
             assemble E fuel (d0 :: rest) modality scale_h scale_w crop_h crop_w clip_len
                      mode w
             = if str_in mode ["train"; "validation"; "test"]%string
               then bind (select_windows fuel mode 0 scale_h scale_w crop_h crop_w clip_len)
                         (fun ts =>
                            bind (np_empty [clips_per_video_of mode; clip_len; crop_h;
                                            crop_w; frame_chn_of modality])
                                 (fun buffer =>
                                    clip_loop E fuel modality scale_h scale_w (snd ts)
                                              (map (fun d => sort (glob E (d ++ "/*.jpg")%string))
                                                   (d0 :: rest))
                                              0 (frame_chn_of modality) (fst ts)
                                              (py_range 0 (clips_per_video_of mode))
                                              buffer)) w
               else Raise AssertionError).
  { intros mode. unfold assemble. unfold bind at 1. rewrite Hdirs. cbn [assert lift].
    unfold bind at 1. destruct (str_in mode _); cbn [assert lift]; [|reflexivity].
    unfold bind at 1. cbn [map]. rewrite Hl.
    change (py_index ([] :: map (fun d => sort (glob E (d ++ "/*.jpg")%string)) rest) 0)
      with (@Ok (list string) []).
    cbn [lift length Z.of_nat]. reflexivity. }
  assert (Hshort : Qle_bool (sample_len clip_len) (inject_Z 0) = false).
  { rewrite sample_len_le. apply Z.leb_gt. lia. }
  unfold load_clips. split; [|split]; unfold bind at 1; rewrite Hsel;
    cbn [str_in existsb String.eqb Ascii.eqb Bool.eqb orb];
    unfold select_windows; cbn [str_in existsb String.eqb Ascii.eqb Bool.eqb orb].
  - unfold bind at 1. unfold bind at 1. unfold temporal_crop. unfold bind at 1.
    rewrite Hshort. rewrite randint_empty; [reflexivity|].
    unfold crop_multiplier. cbn. lia.
  - unfold bind at 1. unfold bind at 1. unfold temporal_center_crop.
    destruct (Z.leb_spec clip_len 0); [lia|]. reflexivity.
  - unfold bind at 1. unfold bind at 1. unfold temporal_uniform_crop.
    rewrite double_buffer_len_zero by exact Hc. reflexivity.
Qed.

Lemma load_clips_empty_directory_witness :
  load_clips demo_env 10 ["nowhere"%string] "rgb" 128 171 112 112 16 "train" true
             demo_world = Raise ValueError /\
  load_clips demo_env 10 ["nowhere"%string] "rgb" 128 171 112 112 16 "validation" true
             demo_world = Raise ZeroDivisionError /\
  load_clips demo_env 10 ["nowhere"%string] "rgb" 128 171 112 112 16 "test" true
             demo_world = OutOfFuel.
Proof.
  apply (load_clips_empty_directory demo_env 10 ["nowhere"%string] "rgb"
                                    128 171 112 112 16 true demo_world).
  - reflexivity.
  - reflexivity.
  - lia.
Defined.

(** A call with the wrong number of frame directories for its modality, or
    with a usage mode other than train, validation and test, stops at an
    assertion before anything is listed, drawn or allocated. *)
Theorem load_clips_asserts
        (E : env) (fuel : nat) (frames_path : list string) (modality : string)
        (scale_h scale_w crop_h crop_w clip_len : Z) (mode : string) (mean_sub : bool)
        (w : world) :
  (modality = "rgb"%string /\ length frames_path <> 1%nat) \/
  (modality <> "rgb"%string /\ length frames_path <> 2%nat) \/
  ~ In mode ["train"; "validation"; "test"]%string ->
  load_clips E fuel frames_path modality scale_h scale_w crop_h crop_w clip_len mode
             mean_sub w = Raise AssertionError.
Proof.
  intros Hbad. unfold load_clips, assemble. unfold bind at 1. unfold bind at 1.
  destruct (String.eqb_spec modality "rgb") as [Hm|Hm].
  - destruct (Nat.eqb_spec (length frames_path) 1) as [Hl|Hl]; [|reflexivity].
    cbn [assert lift]. unfold bind at 1.
    destruct Hbad as [[_ Hn]|[[Hn _]|Hmode]]; try contradiction.
    apply str_in_not_In in Hmode. rewrite Hmode. reflexivity.
  - destruct (Nat.eqb_spec (length frames_path) 2) as [Hl|Hl]; [|reflexivity].
    cbn [assert lift]. unfold bind at 1.
    destruct Hbad as [[Hn _]|[[_ Hn]|Hmode]]; try contradiction.
    apply str_in_not_In in Hmode. rewrite Hmode. reflexivity.
Qed.

Lemma load_clips_asserts_witness :
  load_clips demo_env 10 ["u"%string] "flow" 128 171 112 112 16 "test" true demo_world
  = Raise AssertionError.
Proof.
  apply (load_clips_asserts demo_env 10 ["u"%string] "flow" 128 171 112 112 16 "test" true
                            demo_world).
  right. left. split; discriminate.
Defined.

(** ** Edge behaviour of the sample provider *)

Lemma py_index_out_of_range {A : Type} (l : list A) (i : Z) :
  i < - Z.of_nat (length l) \/ Z.of_nat (length l) <= i -> py_index l i = Raise IndexError.
Proof.
  intros Hi. unfold py_index.
  destruct (Z.leb_spec 0 i), (Z.ltb_spec i (Z.of_nat (length l))); cbn [andb]; try lia;
    destruct (Z.leb_spec (- Z.of_nat (length l)) i), (Z.ltb_spec i 0); cbn [andb];
    try lia; reflexivity.
Qed.

(** An index that is neither a position of a sample nor, counted from the
    end, the negative of one, is an [IndexError]. *)
Theorem getitem_index_error
        (E : env) (fuel : nat) (self : VideoDataset.t) (index : Z) (w : world) :
  index < - Z.of_nat (length (VideoDataset._clip_names self)) \/
  Z.of_nat (length (VideoDataset._clip_names self)) <= index ->
  VideoDataset.__getitem__ E fuel self index w = Raise IndexError.
Proof.
  intros Hidx. unfold VideoDataset.__getitem__. unfold bind at 1. unfold lift at 1.
  rewrite (py_index_out_of_range _ _ Hidx). reflexivity.
Qed.

Lemma getitem_index_error_witness :
  VideoDataset.__getitem__ demo_env 10 demo_provider 208 demo_world = Raise IndexError.
Proof.
  apply (getitem_index_error demo_env 10 demo_provider 208 demo_world).
  right. simpl. lia.
Defined.

(** A valid configuration whose mapping file cannot be read fails with the
    error of [open], after the validation. *)
Theorem init_missing_mapping_file
        (E : env) (path dataset : string) (split : Z) (mode modality : string)
        (clip_len : Z) (test_mode : bool) (test_amt : Z) (load_mode : string)
        (clips_per_video : Z) (w : world) (name : string) :
  VideoDataset.validate dataset split mode modality load_mode clips_per_video = Ok tt ->
  VideoDataset.dataset_name dataset = Ok name ->
  read_text E (path_join E ("mapping/" ++ name)%string
                 (dataset ++ "_" ++ mode ++ "list0" ++ str_of_int split ++ ".txt")%string)
  = None ->
  VideoDataset.__init__ E path dataset split mode modality clip_len test_mode test_amt
                        load_mode clips_per_video w = Raise FileNotFoundError.
Proof.
  intros Hv Hname Hread. unfold VideoDataset.__init__. rewrite Hv, Hname. msimpl.
  rewrite Hread. reflexivity.
Qed.

Lemma init_missing_mapping_file_witness :
  VideoDataset.__init__ demo_env "root" "hmdb" 2 "train" "flow" 16 true 8 "clip" 1
                        demo_world = Raise FileNotFoundError.
Proof.
  apply (init_missing_mapping_file demo_env "root" "hmdb" 2 "train" "flow" 16 true 8
                                   "clip" 1 demo_world "HMDB-51"); reflexivity.
Defined.

(** ** More on the normalizers *)



(** ** The span of the flow normalizer *)

Lemma fmax_choice (a b : fval) : is_fin a -> is_fin b -> fmax a b = a \/ fmax a b = b.
Proof.
  destruct a, b; simpl; intros; try contradiction. destruct (Qle_bool _ _); auto.
Qed.

Lemma fmin_choice (a b : fval) : is_fin a -> is_fin b -> fmin a b = a \/ fmin a b = b.
Proof.
  destruct a, b; simpl; intros; try contradiction. destruct (Qle_bool _ _); auto.
Qed.

Lemma fold_choice_in (op : fval -> fval -> fval) :
  (forall a b, is_fin a -> is_fin b -> op a b = a \/ op a b = b) ->
  forall l acc, is_fin acc -> Forall is_fin l -> In (fold_left op l acc) (acc :: l).
Proof.
  intros Hop. induction l as [|x l IH]; intros acc Ha Hl; [left; reflexivity|].
  apply Forall_cons_iff in Hl. destruct Hl as [Hx Hl]. cbn [fold_left].
  destruct (Hop acc x Ha Hx) as [Heq|Heq]; rewrite Heq.
  - destruct (IH acc Ha Hl) as [Hin|Hin]; [left; exact Hin|right; right; exact Hin].
  - right. apply (IH x Hx Hl).
Qed.

Lemma freduce_choice_in (op : fval -> fval -> fval) (l : list fval) :
  (forall a b, is_fin a -> is_fin b -> op a b = a \/ op a b = b) ->
  l <> [] -> Forall is_fin l -> In (freduce op l) l.
Proof.
  intros Hop Hne Hl. destruct l as [|x l]; [congruence|].
  apply Forall_cons_iff in Hl. destruct Hl as [Hx Hl].
  apply (fold_choice_in op Hop l x Hx Hl).
Qed.

Lemma fold_fadd_sum (l : list fval) :
  forall acc, is_fin acc -> Forall is_fin l ->
    (qval (fold_left fadd l acc) == qval acc + qsum l)%Q.
Proof.
  induction l as [|x l IH]; intros acc Ha Hl; cbn [fold_left qsum].
  - ring.
  - apply Forall_cons_iff in Hl. destruct Hl as [Hx Hl].
    rewrite IH; [|rewrite fadd_fin by assumption; exact I|exact Hl].
    rewrite fadd_fin by assumption. cbn [qval]. ring.
Qed.

Lemma qsum_nonpos_element (l : list fval) :
  l <> [] -> (qsum l <= 0)%Q -> exists x, In x l /\ (qval x <= 0)%Q.
Proof.
  induction l as [|x l IH]; intros Hne Hsum; [congruence|]. cbn [qsum] in Hsum.
  destruct (Qlt_le_dec 0 (qval x)) as [Hpos|Hle].
  - destruct l as [|y l].
    + cbn [qsum] in Hsum. lra.
    + destruct IH as (z & Hin & Hz); [discriminate|lra|].
      exists z. split; [right; exact Hin|exact Hz].
  - exists x. split; [left; reflexivity|exact Hle].
Qed.

Lemma qsum_shifted_by (f g : nat -> fval) (m : Q) (ls : list nat) :
  (forall l, In l ls -> g l = Fin (qval (f l) + - m)) ->
  (qsum (map g ls) == qsum (map f ls) + - (inject_Z (Z.of_nat (length ls)) * m))%Q.
Proof.
  induction ls as [|l ls IH]; intros Hg.
  - cbn. ring.
  - cbn [map qsum length]. rewrite IH by (intros l' Hl'; apply Hg; right; exact Hl').
    rewrite (Hg l) by (left; reflexivity). cbn [qval].
    rewrite Nat2Z.inj_succ. unfold Z.succ. rewrite inject_Z_plus. ring.
Qed.

Section FlowSpan.

Variable buffer : ndarray fval.
Variables N L H W C : nat.
Hypothesis Hshape : shape buffer = [N; L; H; W; C].
Hypothesis Hfin : finite_buffer buffer.
Variables n c : nat.
Hypothesis Hn : (n < N)%nat.
Hypothesis Hc : (c < C)%nat.
Hypothesis HL : (0 < L)%nat.
Hypothesis HH : (0 < H)%nat.
Hypothesis HW : (0 < W)%nat.

Lemma positions_nonempty : positions L H W <> [].
Proof.
  intros He. assert (Hin : In (O, O, O) (positions L H W)) by (apply in_positions; lia).
  rewrite He in Hin. exact Hin.
Qed.

(** The values of a pixel over time, less their mean, sum to zero. *)
Lemma centred_sum_zero (h w : nat) :
  (h < H)%nat -> (w < W)%nat ->
  (qsum (map (fun l => centred buffer L n l h w c) (seq 0 L)) == 0)%Q.
Proof.
  intros Hh Hw.
  rewrite (qsum_shifted_by (fun l => item buffer [n; l; h; w; c])
             (fun l => centred buffer L n l h w c)
             (qval (buffer_mean buffer L n h w c))).
  2:{ intros l Hl. apply in_seq in Hl.
      apply (centred_fin buffer N L H W C Hshape Hfin n c Hn Hc HL); lia. }
  rewrite length_seq. unfold buffer_mean.
  assert (Hxs : Forall is_fin (map (fun l => item buffer [n; l; h; w; c]) (seq 0 L))).
  { apply Forall_forall. intros x Hx. apply in_map_iff in Hx.
    destruct Hx as (l & <- & Hl). apply in_seq in Hl.
    apply (item_fin buffer N L H W C Hshape Hfin n c Hn Hc); lia. }
  assert (HLq : ~ (inject_Z (Z.of_nat L) == 0)%Q).
  { intros H0. assert (Hpos : (inject_Z 0 < inject_Z (Z.of_nat L))%Q).
    { rewrite <- Zlt_Qlt. lia. }
    rewrite H0 in Hpos. apply (Qlt_irrefl _ Hpos). }
  rewrite fdiv_fin; [|apply fold_fadd_fin; [exact I|exact Hxs]|exact HLq].
  cbn [qval]. unfold fsum. rewrite (fold_fadd_sum _ (Fin 0) I Hxs). cbn [qval].
  field. exact HLq.
Qed.

Lemma centred_min_nonpos : (qval (centred_min buffer L H W n c) <= 0)%Q.
Proof.
  destruct (centred_min_fin buffer N L H W C Hshape Hfin n c Hn Hc HL positions_nonempty)
    as (_ & Hle).
  destruct (qsum_nonpos_element (map (fun l => centred buffer L n l O O c) (seq 0 L)))
    as (x & Hin & Hx).
  - destruct L; [lia|discriminate].
  - rewrite (centred_sum_zero O O HH HW). apply Qle_refl.
  - apply in_map_iff in Hin. destruct Hin as (l & <- & Hl). apply in_seq in Hl.
    eapply Qle_trans; [apply (Hle l O O); lia|exact Hx].
Qed.

(** Some position of the clip and channel takes the minimum, and is sent to
    zero by the shift. *)
Lemma shifted_zero_attained :
  exists l h w,
    (l < L)%nat /\ (h < H)%nat /\ (w < W)%nat /\
    (qval (shifted buffer L H W n l h w c) == 0)%Q.
Proof.
  set (f := fun p : nat * nat * nat => let '(l, h, w) := p in centred buffer L n l h w c).
  assert (Hall : Forall is_fin (map f (positions L H W))).
  { apply Forall_forall. intros x Hx. apply in_map_iff in Hx.
    destruct Hx as (((l, h), w) & <- & Hin). apply in_positions in Hin. simpl.
    rewrite (centred_fin buffer N L H W C Hshape Hfin n c Hn Hc HL) by lia. exact I. }
  assert (Hin : In (centred_min buffer L H W n c) (map f (positions L H W))).
  { apply (freduce_choice_in fmin _ fmin_choice).
    - intros He. apply map_eq_nil in He. exact (positions_nonempty He).
    - exact Hall. }
  apply in_map_iff in Hin. destruct Hin as (((l, h), w) & Heq & Hpos).
  apply in_positions in Hpos. exists l, h, w. repeat split; try lia.
  destruct (shifted_fin buffer N L H W C Hshape Hfin n c Hn Hc HL l h w positions_nonempty)
    as (-> & _); [lia..|].
  cbn [qval]. simpl in Heq. rewrite Heq.
  pose proof centred_min_nonpos as Hneg.
  rewrite Qabs_neg by exact Hneg. ring.
Qed.

(** Some position of the clip and channel takes the maximum of the shifted
    buffer. *)
Lemma shifted_max_attained :
  exists l h w,
    (l < L)%nat /\ (h < H)%nat /\ (w < W)%nat /\
    shifted buffer L H W n l h w c = shifted_max buffer L H W n c.
Proof.
  set (f := fun p : nat * nat * nat =>
              let '(l, h, w) := p in shifted buffer L H W n l h w c).
  assert (Hall : Forall is_fin (map f (positions L H W))).
  { apply Forall_forall. intros x Hx. apply in_map_iff in Hx.
    destruct Hx as (((l, h), w) & <- & Hin). apply in_positions in Hin. simpl.
    destruct (shifted_fin buffer N L H W C Hshape Hfin n c Hn Hc HL l h w
                positions_nonempty) as (-> & _); [lia..|]. exact I. }
  assert (Hin : In (shifted_max buffer L H W n c) (map f (positions L H W))).
  { apply (freduce_choice_in fmax _ fmax_choice).
    - intros He. apply map_eq_nil in He. exact (positions_nonempty He).
    - exact Hall. }
  apply in_map_iff in Hin. destruct Hin as (((l, h), w) & Heq & Hpos).
  apply in_positions in Hpos. exists l, h, w. repeat split; try lia. exact Heq.
Qed.

(** The rescaled value at a position, when the maximum is positive. *)
Lemma rescaled_value (l h w : nat) :
  (l < L)%nat -> (h < H)%nat -> (w < W)%nat ->
  (0 < qval (shifted_max buffer L H W n c))%Q ->
  exists q,
    fmul (fdiv (shifted buffer L H W n l h w c) (shifted_max buffer L H W n c)) (Fin 255)
    = Fin q /\
    (q == qval (shifted buffer L H W n l h w c) / qval (shifted_max buffer L H W n c) * 255)%Q /\
    (0 <= q)%Q /\ (q <= 255)%Q.
Proof.
  intros Hl Hh Hw Hpos.
  destruct (shifted_max_fin buffer N L H W C Hshape Hfin n c Hn Hc HL positions_nonempty)
    as (Hmf & Hmax).
  destruct (shifted_fin buffer N L H W C Hshape Hfin n c Hn Hc HL l h w positions_nonempty
              Hl Hh Hw) as (Hs & Hs0).
  specialize (Hmax l h w Hl Hh Hw). rewrite Hs in Hmax |- *. cbn [qval] in Hmax |- *.
  destruct (shifted_max buffer L H W n c) as [m| | |]; try contradiction.
  cbn [qval] in *.
  rewrite fdiv_fin; [|exact I|intros H0; rewrite H0 in Hpos; apply (Qlt_irrefl _ Hpos)].
  cbn [qval fmul]. eexists. split; [reflexivity|]. split; [reflexivity|].
  set (s := (qval (centred buffer L n l h w c)
             + Qabs (qval (centred_min buffer L H W n c)))%Q) in *.
  assert (H1 : (0 <= s / m)%Q) by (apply Qle_shift_div_l; [exact Hpos|lra]).
  assert (H2 : (s / m <= 1)%Q) by (apply Qle_shift_div_r; [exact Hpos|lra]).
  split; nra.
Qed.

End FlowSpan.



(** ** The layouts of the returned volume *)

(** [transpose_video_buffer] undoes the change of layout that [load_clips]
    makes for a test: from (clip, chnl, depth, h, w) it gives back the array
    of shape (clip, depth, h, w, chnl), element for element. *)
Theorem transpose_video_buffer_inverts {V : Type} (a : ndarray V) (N L H W C : nat) :
  shape a = [N; L; H; W; C] ->
  exists b c,
    transpose a [0; 4; 1; 2; 3]%nat = Ok b /\
    transpose_video_buffer b = Ok c /\
    shape b = [N; C; L; H; W] /\ shape c = [N; L; H; W; C] /\
    forall n l h w k,
      item b [n; k; l; h; w] = item a [n; l; h; w; k] /\
      item c [n; l; h; w; k] = item a [n; l; h; w; k].
Proof.
  intros Hs. unfold transpose_video_buffer, transpose. rewrite Hs. cbn.
  eexists _, _. split; [reflexivity|]. cbn. split; [reflexivity|].
  split; [reflexivity|]. split; [reflexivity|].
  intros n l h w k. split; reflexivity.
Qed.

Lemma transpose_video_buffer_inverts_witness :
  exists b c,
    transpose moving_buffer [0; 4; 1; 2; 3]%nat = Ok b /\
    transpose_video_buffer b = Ok c /\
    shape b = [1; 2; 2; 1; 2]%nat /\ shape c = [1; 2; 1; 2; 2]%nat /\
    forall n l h w k,
      item b [n; k; l; h; w] = item moving_buffer [n; l; h; w; k] /\
      item c [n; l; h; w; k] = item moving_buffer [n; l; h; w; k].
Proof. apply (transpose_video_buffer_inverts moving_buffer 1 2 1 2 2). reflexivity. Defined.

(** [transpose_clip_buffer] undoes the change of layout that [load_clips]
    makes for one clip: from (chnl, depth, h, w) it gives back the array of
    shape (depth, h, w, chnl), element for element. *)
Theorem transpose_clip_buffer_inverts {V : Type} (a : ndarray V) (L H W C : nat) :
  shape a = [L; H; W; C] ->
  exists b c,
    transpose a [3; 0; 1; 2]%nat = Ok b /\
    transpose_clip_buffer b = Ok c /\
    shape b = [C; L; H; W] /\ shape c = [L; H; W; C] /\
    forall l h w k,
      item b [k; l; h; w] = item a [l; h; w; k] /\
      item c [l; h; w; k] = item a [l; h; w; k].
Proof.
  intros Hs. unfold transpose_clip_buffer, transpose. rewrite Hs. cbn.
  eexists _, _. split; [reflexivity|]. cbn. split; [reflexivity|].
  split; [reflexivity|]. split; [reflexivity|].
  intros l h w k. split; reflexivity.
Qed.

Lemma transpose_clip_buffer_inverts_witness :
  exists b c,
    transpose (mk_nd [2; 1; 2; 3]%nat (fun idx : list nat => Z.of_nat (length idx)))
              [3; 0; 1; 2]%nat = Ok b /\
    transpose_clip_buffer b = Ok c /\
    shape b = [3; 2; 1; 2]%nat /\ shape c = [2; 1; 2; 3]%nat /\
    forall l h w k,
      item b [k; l; h; w] = Z.of_nat (length [l; h; w; k]) /\
      item c [l; h; w; k] = Z.of_nat (length [l; h; w; k]).
Proof.
  apply (transpose_clip_buffer_inverts
           (mk_nd [2; 1; 2; 3]%nat (fun idx : list nat => Z.of_nat (length idx))) 2 1 2 3).
  reflexivity.
Defined.

(** The two functions only take the rank they were written for: the video
    one fails on anything but five axes, the clip one on anything but four. *)
Theorem transpose_buffers_rank {V : Type} (a : ndarray V) :
  (length (shape a) <> 5%nat -> transpose_video_buffer a = Raise ValueError) /\
  (length (shape a) <> 4%nat -> transpose_clip_buffer a = Raise ValueError).
Proof.
  unfold transpose_video_buffer, transpose_clip_buffer, transpose. split; intros Hr.
  - destruct (Nat.eqb_spec (length [0; 2; 3; 4; 1]%nat) (length (shape a))) as [He|_];
      [simpl in He; congruence|reflexivity].
  - destruct (Nat.eqb_spec (length [1; 2; 3; 0]%nat) (length (shape a))) as [He|_];
      [simpl in He; congruence|reflexivity].
Qed.

Lemma transpose_buffers_rank_witness :
  transpose_video_buffer ramp_buffer = Raise ValueError /\
  transpose_clip_buffer moving_buffer = Raise ValueError.
Proof.
  split.
  - apply (proj1 (transpose_buffers_rank ramp_buffer)). discriminate.
  - apply (proj2 (transpose_buffers_rank moving_buffer)). discriminate.
Defined.

(** ** Reading the mapping file *)

Lemma split_on_nonempty (sep : ascii) (s : string) : split_on sep s <> [].
Proof.
  destruct s as [|ch rest]; cbn [split_on]; [discriminate|].
  destruct (Ascii.eqb ch sep); [discriminate|].
  destruct (split_on sep rest); discriminate.
Qed.

Lemma split_on_app (sep : ascii) (a b : string) :
  split_on sep (a ++ String sep b) = split_on sep a ++ split_on sep b.
Proof.
  induction a as [|ch a IH]; cbn [String.append split_on].
  - rewrite Ascii.eqb_refl. reflexivity.
  - destruct (Ascii.eqb ch sep); [rewrite IH; reflexivity|].
    rewrite IH. pose proof (split_on_nonempty sep a) as Hne.
    destruct (split_on sep a); [congruence|reflexivity].
Qed.

Lemma split_on_no_sep (sep : ascii) (s : string) :
  has_char sep s = false -> split_on sep s = [s].
Proof.
  induction s as [|ch s IH]; intros Hs; [reflexivity|].
  cbn [has_char] in Hs. apply orb_false_elim in Hs. destruct Hs as [Hch Hs].
  cbn [split_on]. rewrite Hch, IH by exact Hs. reflexivity.
Qed.

Lemma string_app_assoc (a b c : string) : (a ++ (b ++ c))%string = ((a ++ b) ++ c)%string.
Proof. induction a as [|x a IH]; [reflexivity|]. cbn [String.append]. rewrite IH. reflexivity. Qed.

Lemma has_char_app (ch : ascii) (a b : string) :
  has_char ch (a ++ b) = has_char ch a || has_char ch b.
Proof.
  induction a as [|x a IH]; [reflexivity|].
  cbn [String.append has_char]. rewrite IH. apply orb_assoc.
Qed.

Lemma mapping_line_no_newline (E : env) (s : sample) :
  well_formed_sample E s -> has_char newline (mapping_line s) = false.
Proof.
  intros (_ & _ & Hn & _ & He & _ & Hl & _). unfold mapping_line.
  rewrite !has_char_app, Hn, He, Hl. reflexivity.
Qed.

(** The lines of a well-formed text are the lines of its samples. *)
Lemma mapping_text_lines (E : env) (samples : list sample) :
  Forall (well_formed_sample E) samples ->
  split_on newline (mapping_text samples) = map mapping_line samples ++ [EmptyString].
Proof.
  induction samples as [|s rest IH]; intros Hwf; [reflexivity|].
  apply Forall_cons_iff in Hwf. destruct Hwf as [Hs Hrest].
  cbn [mapping_text map]. rewrite split_on_app.
  rewrite (split_on_no_sep newline _ (mapping_line_no_newline E s Hs)).
  rewrite IH by exact Hrest. reflexivity.
Qed.

Lemma mapping_line_tokens (E : env) (s : sample) :
  well_formed_sample E s ->
  split_on " " (mapping_line s)
  = [(sample_name s ++ "." ++ sample_ext s)%string; sample_label s] /\
  exists rest, split_on "." (sample_name s ++ "." ++ sample_ext s)
               = sample_name s :: rest.
Proof.
  intros (Hd & Hsp & _ & Hesp & _ & Hlsp & _ & _). unfold mapping_line. split.
  - replace (sample_name s ++ "." ++ sample_ext s ++ " " ++ sample_label s)%string
      with ((sample_name s ++ "." ++ sample_ext s) ++ String " " (sample_label s))%string.
    + rewrite split_on_app. rewrite (split_on_no_sep " " (sample_label s) Hlsp).
      rewrite split_on_no_sep; [reflexivity|].
      rewrite !has_char_app, Hsp, Hesp. reflexivity.
    + change (sample_name s ++ "." ++ sample_ext s)%string
        with (sample_name s ++ (String "." (sample_ext s)))%string.
      rewrite <- string_app_assoc. reflexivity.
  - change (sample_name s ++ "." ++ sample_ext s)%string
      with (sample_name s ++ String "." (sample_ext s))%string.
    rewrite split_on_app, (split_on_no_sep "." (sample_name s) Hd). eexists. reflexivity.
Qed.

(** The loop over the lines gives, for every well-formed line and in the
    order of the file, the frame directories of the sample, named by the
    token up to its first dot, and the label after the space. *)
Lemma read_mapping_well_formed (E : env) (dir modality : string) (samples : list sample) :
  Forall (well_formed_sample E) samples ->
  VideoDataset.read_mapping E dir modality (map mapping_line samples)
  = Ok (map (sample_dirs E dir modality) samples, map sample_label samples).
Proof.
  induction samples as [|s rest IH]; intros Hwf; [reflexivity|].
  apply Forall_cons_iff in Hwf. destruct Hwf as [Hs Hrest].
  cbn [map VideoDataset.read_mapping].
  destruct (mapping_line_tokens E s Hs) as (Htok & tail & Hname).
  rewrite Htok.
  change (py_index [(sample_name s ++ "." ++ sample_ext s)%string; sample_label s] 0)
    with (Ok (sample_name s ++ "." ++ sample_ext s)%string).
  cbn [obind]. rewrite Hname.
  change (py_index (sample_name s :: tail) 0) with (Ok (sample_name s)).
  cbn [obind].
  change (py_index [(sample_name s ++ "." ++ sample_ext s)%string; sample_label s] 1)
    with (Ok (sample_label s)).
  cbn [obind]. rewrite IH by exact Hrest. cbn [obind fst snd].
  unfold sample_dirs. reflexivity.
Qed.

Lemma convert_labels_well_formed (E : env) (samples : list sample) :
  Forall (well_formed_sample E) samples ->
  convert_labels E (map sample_label samples) = Ok (map sample_class samples).
Proof.
  induction samples as [|s rest IH]; intros Hwf; [reflexivity|].
  apply Forall_cons_iff in Hwf. destruct Hwf as [Hs Hrest].
  cbn [map convert_labels].
  destruct Hs as (_ & _ & _ & _ & _ & _ & _ & Hint). rewrite Hint.
  rewrite IH by exact Hrest. reflexivity.
Qed.

(** Without the reduced subset, a valid configuration over a well-formed
    mapping file gives a provider that holds the samples of the file in
    their order: the frame directories under the frame root of the dataset
    and modality, and the labels as integers. *)
Theorem init_reads_mapping
        (E : env) (path dataset : string) (split : Z) (mode modality : string)
        (clip_len : Z) (test_amt : Z) (load_mode : string) (clips_per_video : Z)
        (w : world) (name : string) (samples : list sample) :
  VideoDataset.validate dataset split mode modality load_mode clips_per_video = Ok tt ->
  VideoDataset.dataset_name dataset = Ok name ->
  read_text E (path_join E ("mapping/" ++ name)%string
                 (dataset ++ "_" ++ mode ++ "list0" ++ str_of_int split ++ ".txt")%string)
  = Some (mapping_text samples) ->
  Forall (well_formed_sample E) samples ->
  exists self,
    VideoDataset.__init__ E path dataset split mode modality clip_len false test_amt
                          load_mode clips_per_video w = Ok (self, w) /\
    VideoDataset._clip_names self
    = map (sample_dirs E (VideoDataset.frame_dir E path dataset modality) modality) samples /\
    VideoDataset._labels self = map sample_class samples /\
    VideoDataset.__len__ self = Ok (Z.of_nat (length samples)).
Proof.
  intros Hv Hname Hread Hwf. unfold VideoDataset.__init__. rewrite Hv, Hname. msimpl.
  rewrite Hread. cbn beta iota.
  rewrite (mapping_text_lines E samples Hwf), removelast_last.
  rewrite (read_mapping_well_formed E _ modality samples Hwf). cbn beta iota. cbn [snd fst].
  rewrite (convert_labels_well_formed E samples Hwf). cbn beta iota.
  eexists. split; [reflexivity|]. cbn. split; [reflexivity|]. split; [reflexivity|].
  unfold VideoDataset.__len__, VideoDataset.len. cbn.
  rewrite !length_map, Nat.eqb_refl. reflexivity.
Qed.

Lemma init_reads_mapping_witness :
  exists self,
    VideoDataset.__init__ demo_env "root" "ucf" 1 "test" "rgb" 16 false 8 "video" 10
                          demo_world = Ok (self, demo_world) /\
    VideoDataset._clip_names self
    = map (sample_dirs demo_env (VideoDataset.frame_dir demo_env "root" "ucf" "rgb") "rgb")
          demo_samples /\
    VideoDataset._labels self = map sample_class demo_samples /\
    VideoDataset.__len__ self = Ok (Z.of_nat (length demo_samples)).
Proof.
  apply (init_reads_mapping demo_env "root" "ucf" 1 "test" "rgb" 16 8 "video" 10
                            demo_world "UCF-101" demo_samples).
  - reflexivity.
  - reflexivity.
  - vm_compute. reflexivity.
  - repeat constructor; vm_compute; reflexivity.
Defined.

Lemma mapping_text_tail_lines (E : env) (samples : list sample) (tail : string) :
  Forall (well_formed_sample E) samples ->
  has_char newline tail = false ->
  split_on newline (mapping_text samples ++ tail) = map mapping_line samples ++ [tail].
Proof.
  intros Hwf Htail. induction samples as [|s rest IH].
  - cbn [mapping_text String.append map app]. apply split_on_no_sep. exact Htail.
  - apply Forall_cons_iff in Hwf. destruct Hwf as [Hs Hrest].
    cbn [mapping_text map].
    rewrite <- string_app_assoc. cbn [String.append].
    rewrite split_on_app.
    rewrite (split_on_no_sep newline _ (mapping_line_no_newline E s Hs)).
    rewrite IH by exact Hrest. reflexivity.
Qed.

(** Only the lines that end with a newline are samples: what the mapping
    file holds after its last newline is dropped, even when it is a
    well-formed line, and the provider holds the samples before it. *)
Theorem init_drops_unterminated_line
        (E : env) (path dataset : string) (split : Z) (mode modality : string)
        (clip_len : Z) (test_amt : Z) (load_mode : string) (clips_per_video : Z)
        (w : world) (name : string) (samples : list sample) (tail : string) :
  VideoDataset.validate dataset split mode modality load_mode clips_per_video = Ok tt ->
  VideoDataset.dataset_name dataset = Ok name ->
  read_text E (path_join E ("mapping/" ++ name)%string
                 (dataset ++ "_" ++ mode ++ "list0" ++ str_of_int split ++ ".txt")%string)
  = Some (mapping_text samples ++ tail)%string ->
  Forall (well_formed_sample E) samples ->
  has_char newline tail = false ->
  exists self,
    VideoDataset.__init__ E path dataset split mode modality clip_len false test_amt
                          load_mode clips_per_video w = Ok (self, w) /\
    VideoDataset._clip_names self
    = map (sample_dirs E (VideoDataset.frame_dir E path dataset modality) modality) samples /\
    VideoDataset._labels self = map sample_class samples.
Proof.
  intros Hv Hname Hread Hwf Htail. unfold VideoDataset.__init__. rewrite Hv, Hname. msimpl.
  rewrite Hread. cbn beta iota.
  rewrite (mapping_text_tail_lines E samples tail Hwf Htail), removelast_last.
  rewrite (read_mapping_well_formed E _ modality samples Hwf). cbn beta iota. cbn [snd fst].
  rewrite (convert_labels_well_formed E samples Hwf). cbn beta iota.
  eexists. split; [reflexivity|]. cbn. split; reflexivity.
Qed.

Lemma init_drops_unterminated_line_witness :
  exists self,
    VideoDataset.__init__
      (mk_env (glob demo_env) (decode demo_env) (resample demo_env)
              (fun _ => Some (mapping_text demo_samples ++ "v_Baz_g03_c02.avi 5")%string)
              (path_join demo_env) (np_int demo_env))
      "root" "ucf" 1 "test" "rgb" 16 false 8 "video" 10 demo_world
    = Ok (self, demo_world) /\
    VideoDataset._clip_names self
    = map (sample_dirs
             (mk_env (glob demo_env) (decode demo_env) (resample demo_env)
                     (fun _ => Some (mapping_text demo_samples ++ "v_Baz_g03_c02.avi 5")%string)
                     (path_join demo_env) (np_int demo_env))
             (VideoDataset.frame_dir
                (mk_env (glob demo_env) (decode demo_env) (resample demo_env)
                        (fun _ => Some (mapping_text demo_samples
                                        ++ "v_Baz_g03_c02.avi 5")%string)
                        (path_join demo_env) (np_int demo_env))
                "root" "ucf" "rgb") "rgb")
          demo_samples /\
    VideoDataset._labels self = map sample_class demo_samples.
Proof.
  apply (init_drops_unterminated_line
           (mk_env (glob demo_env) (decode demo_env) (resample demo_env)
                   (fun _ => Some (mapping_text demo_samples ++ "v_Baz_g03_c02.avi 5")%string)
                   (path_join demo_env) (np_int demo_env))
           "root" "ucf" 1 "test" "rgb" 16 8 "video" 10 demo_world "UCF-101"
           demo_samples "v_Baz_g03_c02.avi 5").
  - reflexivity.
  - reflexivity.
  - reflexivity.
  - repeat constructor; vm_compute; reflexivity.
  - reflexivity.
Defined.

Lemma py_index_first {A : Type} (l : list A) :
  l <> [] -> exists a, py_index l 0 = Ok a.
Proof.
  destruct l as [|a l]; [congruence|]. intros _. exists a.
  apply py_index_nonneg; [reflexivity|lia].
Qed.

Lemma py_index_cases {A : Type} (l : list A) (i : Z) :
  (exists a, py_index l i = Ok a) \/ py_index l i = Raise IndexError.
Proof.
  unfold py_index.
  destruct ((0 <=? i) && (i <? Z.of_nat (length l))).
  - destruct (nth_error l (Z.to_nat i)); [left; eexists; reflexivity|right; reflexivity].
  - destruct ((- Z.of_nat (length l) <=? i) && (i <? 0)); [|right; reflexivity].
    destruct (nth_error l (Z.to_nat (Z.of_nat (length l) + i)));
      [left; eexists; reflexivity|right; reflexivity].
Qed.

(** The loop over the lines stops with an [IndexError] at the first line
    that holds no space, since that line has no second token. *)
Lemma read_mapping_line_without_space
      (E : env) (dir modality : string) (lines : list string) (line : string) :
  In line lines -> has_char " " line = false ->
  VideoDataset.read_mapping E dir modality lines = Raise IndexError.
Proof.
  intros Hin Hsp. induction lines as [|l rest IH]; [contradiction|].
  cbn [VideoDataset.read_mapping].
  destruct (py_index_first (split_on " " l) (split_on_nonempty " " l)) as (token & ->).
  cbn [obind].
  destruct (py_index_first (split_on "." token) (split_on_nonempty "." token)) as (name & ->).
  cbn [obind].
  destruct (py_index_cases (split_on " " l) 1) as [(label & Hl)|Hl].
  - rewrite Hl. cbn [obind].
    destruct Hin as [->|Hin].
    + rewrite (split_on_no_sep " " line Hsp) in Hl. discriminate Hl.
    + rewrite (IH Hin). reflexivity.
  - rewrite Hl. reflexivity.
Qed.

(** A line of the mapping file without a space, a blank line for one, makes
    the constructor fail with an [IndexError]: the label of the line is
    read as its second token. *)
Theorem init_line_without_space
        (E : env) (path dataset : string) (split : Z) (mode modality : string)
        (clip_len : Z) (test_mode : bool) (test_amt : Z) (load_mode : string)
        (clips_per_video : Z) (w : world) (name content line : string) :
  VideoDataset.validate dataset split mode modality load_mode clips_per_video = Ok tt ->
  VideoDataset.dataset_name dataset = Ok name ->
  read_text E (path_join E ("mapping/" ++ name)%string
                 (dataset ++ "_" ++ mode ++ "list0" ++ str_of_int split ++ ".txt")%string)
  = Some content ->
  In line (removelast (split_on newline content)) ->
  has_char " " line = false ->
  VideoDataset.__init__ E path dataset split mode modality clip_len test_mode test_amt
                        load_mode clips_per_video w = Raise IndexError.
Proof.
  intros Hv Hname Hread Hin Hsp. unfold VideoDataset.__init__. rewrite Hv, Hname. msimpl.
  rewrite Hread. cbn beta iota.
  rewrite (read_mapping_line_without_space E _ modality _ line Hin Hsp). reflexivity.
Qed.

Lemma init_line_without_space_witness :
  VideoDataset.__init__
    (mk_env (glob demo_env) (decode demo_env) (resample demo_env)
            (fun _ => Some (mapping_text demo_samples ++ String newline "")%string)
            (path_join demo_env) (np_int demo_env))
    "root" "ucf" 1 "test" "rgb" 16 false 8 "video" 10 demo_world = Raise IndexError.
Proof.
  apply (init_line_without_space
           (mk_env (glob demo_env) (decode demo_env) (resample demo_env)
                   (fun _ => Some (mapping_text demo_samples ++ String newline "")%string)
                   (path_join demo_env) (np_int demo_env))
           "root" "ucf" 1 "test" "rgb" 16 false 8 "video" 10 demo_world "UCF-101"
           (mapping_text demo_samples ++ String newline "")%string ""%string).
  - reflexivity.
  - reflexivity.
  - reflexivity.
  - vm_compute. right. right. left. reflexivity.
  - reflexivity.
Defined.

(** What a constructed provider was built from. *)
Lemma init_ok_inv
      (E : env) (path dataset : string) (split : Z) (mode modality : string)
      (clip_len : Z) (test_mode : bool) (test_amt : Z) (load_mode : string)
      (clips_per_video : Z) (w w' : world) (self : VideoDataset.t) :
  VideoDataset.__init__ E path dataset split mode modality clip_len test_mode test_amt
                        load_mode clips_per_video w = Ok (self, w') ->
  exists name content m labels,
    VideoDataset.validate dataset split mode modality load_mode clips_per_video = Ok tt /\
    VideoDataset.dataset_name dataset = Ok name /\
    read_text E (path_join E ("mapping/" ++ name)%string
                   (dataset ++ "_" ++ mode ++ "list0" ++ str_of_int split ++ ".txt")%string)
    = Some content /\
    VideoDataset.read_mapping E (VideoDataset.frame_dir E path dataset modality) modality
                              (removelast (split_on newline content)) = Ok m /\
    convert_labels E (snd m) = Ok labels /\
    length (fst m) = length labels /\
    (if test_mode then
       exists idxs,
         VideoDataset.sample_indices (fst m) labels (py_range 0 test_amt) w = Ok (idxs, w') /\
         select (fst m) idxs = Ok (VideoDataset._clip_names self) /\
         select labels idxs = Ok (VideoDataset._labels self)
     else
       VideoDataset._clip_names self = fst m /\ VideoDataset._labels self = labels /\ w' = w).
Proof.
  unfold VideoDataset.__init__. intros Hrun.
  apply bind_ok in Hrun. destruct Hrun as ([] & w1 & Hv & Hrun).
  apply lift_ok in Hv. destruct Hv as [Hv ->].
  apply bind_ok in Hrun. destruct Hrun as (name & w1 & Hn & Hrun).
  apply lift_ok in Hn. destruct Hn as [Hn ->].
  apply bind_ok in Hrun. destruct Hrun as (content & w1 & Hc & Hrun).
  apply lift_ok in Hc. destruct Hc as [Hc ->].
  apply bind_ok in Hrun. destruct Hrun as (m & w1 & Hm & Hrun).
  apply lift_ok in Hm. destruct Hm as [Hm ->].
  apply bind_ok in Hrun. destruct Hrun as (labels & w1 & Hl & Hrun).
  apply lift_ok in Hl. destruct Hl as [Hl ->].
  apply bind_ok in Hrun. destruct Hrun as (cl & w1 & Hcl & Hrun).
  apply ret_ok in Hrun. destruct Hrun as [-> ->].
  exists name, content, m, labels.
  split; [exact Hv|]. split; [exact Hn|]. split.
  { destruct (read_text E _); [inversion Hc; reflexivity|discriminate]. }
  split; [exact Hm|]. split; [exact Hl|]. split.
  { rewrite (read_mapping_lengths _ _ _ _ _ Hm).
    symmetry. apply (convert_labels_length _ _ _ Hl). }
  destruct test_mode.
  - apply bind_ok in Hcl. destruct Hcl as (idxs & w2 & Hi & Hcl).
    apply bind_ok in Hcl. destruct Hcl as (names & w3 & Hs1 & Hcl).
    apply lift_ok in Hs1. destruct Hs1 as [Hs1 ->].
    apply bind_ok in Hcl. destruct Hcl as (labels' & w3 & Hs2 & Hcl).
    apply lift_ok in Hs2. destruct Hs2 as [Hs2 ->].
    apply ret_ok in Hcl. destruct Hcl as [-> ->]. cbn.
    exists idxs. auto.
  - apply ret_ok in Hcl. destruct Hcl as [-> ->]. cbn. auto.
Qed.

Lemma select_ok_inv {A : Type} (l : list A) :
  forall idxs r,
    select l idxs = Ok r ->
    length r = length idxs /\
    forall j a, nth_error r j = Some a ->
                exists i, nth_error idxs j = Some i /\ py_index l i = Ok a.
Proof.
  induction idxs as [|i rest IH]; intros r Hr; cbn [select] in Hr.
  - inversion Hr. split; [reflexivity|]. intros [|j] a Hj; discriminate.
  - apply obind_ok in Hr. destruct Hr as (a0 & Ha0 & Hr).
    apply obind_ok in Hr. destruct Hr as (r0 & Hr0 & Hr). inversion Hr; subst r.
    destruct (IH r0 Hr0) as (Hlen & Hnth). split; [simpl; lia|].
    intros [|j] a Hj; cbn [nth_error] in *.
    + inversion Hj; subst. exists i. auto.
    + apply Hnth. exact Hj.
Qed.

Lemma sample_indices_ok_inv (names : list (list string)) (labels : list Z) :
  forall range w idxs w',
    VideoDataset.sample_indices names labels range w = Ok (idxs, w') ->
    length idxs = length range /\
    Forall (fun i => 0 <= i < Z.of_nat (length labels)) idxs.
Proof.
  induction range as [|x rest IH]; intros w idxs w' Hrun;
    cbn [VideoDataset.sample_indices] in Hrun.
  - apply ret_ok in Hrun. destruct Hrun as [-> _]. split; [reflexivity|constructor].
  - apply bind_ok in Hrun. destruct Hrun as (n & w1 & Hn & Hrun).
    apply lift_ok in Hn. destruct Hn as [Hn ->].
    apply bind_ok in Hrun. destruct Hrun as (i & w2 & Hi & Hrun).
    apply bind_ok in Hrun. destruct Hrun as (r & w3 & Hr & Hrun).
    apply ret_ok in Hrun. destruct Hrun as [-> ->].
    destruct (IH _ _ _ Hr) as (Hlen & Hall). split; [simpl; lia|].
    constructor; [|exact Hall].
    unfold VideoDataset.len in Hn. destruct (_ =? _)%nat; [|discriminate].
    cbn [assert obind] in Hn. inversion Hn; subst n.
    unfold randrange0 in Hi. destruct (Z.leb_spec (Z.of_nat (length labels)) 0);
      [discriminate|].
    inversion Hi. apply Z.mod_pos_bound. lia.
Qed.

Lemma py_index_nth_error {A : Type} (l : list A) (i : Z) (a : A) :
  0 <= i -> py_index l i = Ok a -> nth_error l (Z.to_nat i) = Some a.
Proof.
  intros Hi. unfold py_index.
  destruct (Z.leb_spec 0 i); [|lia]. cbn [andb].
  destruct (i <? Z.of_nat (length l)).
  - destruct (nth_error l (Z.to_nat i)); intros Heq; inversion Heq; reflexivity.
  - destruct (Z.ltb_spec i 0); [lia|]. rewrite andb_false_r. discriminate.
Qed.

(** Every provider that the constructor returns passes the assertion of
    [__len__]: it has as many frame-directory entries as labels, and
    [__len__] is that number. *)
Theorem len_of_constructed_provider
        (E : env) (path dataset : string) (split : Z) (mode modality : string)
        (clip_len : Z) (test_mode : bool) (test_amt : Z) (load_mode : string)
        (clips_per_video : Z) (w w' : world) (self : VideoDataset.t) :
  VideoDataset.__init__ E path dataset split mode modality clip_len test_mode test_amt
                        load_mode clips_per_video w = Ok (self, w') ->
  VideoDataset.__len__ self = Ok (Z.of_nat (length (VideoDataset._clip_names self))) /\
  length (VideoDataset._clip_names self) = length (VideoDataset._labels self).
Proof.
  intros Hrun.
  destruct (init_ok_inv _ _ _ _ _ _ _ _ _ _ _ _ _ _ Hrun)
    as (name & content & m & labels & _ & _ & _ & _ & _ & Hlen & Hmode).
  assert (Heq : length (VideoDataset._clip_names self)
                = length (VideoDataset._labels self)).
  { destruct test_mode.
    - destruct Hmode as (idxs & _ & Hs1 & Hs2).
      apply select_ok_inv in Hs1. apply select_ok_inv in Hs2.
      destruct Hs1 as [H1 _]. destruct Hs2 as [H2 _]. congruence.
    - destruct Hmode as (-> & -> & _). exact Hlen. }
  split; [|exact Heq].
  unfold VideoDataset.__len__, VideoDataset.len. rewrite Heq, Nat.eqb_refl. reflexivity.
Qed.

Lemma len_of_constructed_provider_witness :
  exists self w',
    VideoDataset.__init__ demo_env "root" "ucf" 1 "test" "rgb" 16 true 8 "video" 10
                          demo_world = Ok (self, w') /\
    VideoDataset.__len__ self = Ok (Z.of_nat (length (VideoDataset._clip_names self))) /\
    length (VideoDataset._clip_names self) = length (VideoDataset._labels self).
Proof.
  eexists _, _. split; [vm_compute; reflexivity|].
  refine (len_of_constructed_provider demo_env "root" "ucf" 1 "test" "rgb" 16 true 8
                                      "video" 10 demo_world _ _ _).
  vm_compute. reflexivity.
Defined.

(** The reduced subset has [test_amt] samples (none for a negative amount),
    and each of them is a sample of the mapping file with its own label:
    the draw is with replacement and keeps the pairs together. *)
Theorem reduced_subset_of_mapping
        (E : env) (path dataset : string) (split : Z) (mode modality : string)
        (clip_len : Z) (test_amt : Z) (load_mode : string)
        (clips_per_video : Z) (w w' : world) (self : VideoDataset.t) :
  VideoDataset.__init__ E path dataset split mode modality clip_len true test_amt
                        load_mode clips_per_video w = Ok (self, w') ->
  length (VideoDataset._labels self) = Z.to_nat test_amt /\
  exists name content m labels,
    VideoDataset.dataset_name dataset = Ok name /\
    read_text E (path_join E ("mapping/" ++ name)%string
                   (dataset ++ "_" ++ mode ++ "list0" ++ str_of_int split ++ ".txt")%string)
    = Some content /\
    VideoDataset.read_mapping E (VideoDataset.frame_dir E path dataset modality) modality
                              (removelast (split_on newline content)) = Ok m /\
    convert_labels E (snd m) = Ok labels /\
    forall j dirs label,
      nth_error (VideoDataset._clip_names self) j = Some dirs ->
      nth_error (VideoDataset._labels self) j = Some label ->
      exists i, nth_error (fst m) i = Some dirs /\ nth_error labels i = Some label.
Proof.
  intros Hrun.
  destruct (init_ok_inv _ _ _ _ _ _ _ _ _ _ _ _ _ _ Hrun)
    as (name & content & m & labels & _ & Hname & Hread & Hmap & Hconv & Hlen & Hmode).
  cbn iota in Hmode. destruct Hmode as (idxs & Hidx & Hs1 & Hs2).
  apply sample_indices_ok_inv in Hidx. destruct Hidx as (Hn & Hrange).
  apply select_ok_inv in Hs1. apply select_ok_inv in Hs2.
  destruct Hs1 as (Hl1 & Hnth1). destruct Hs2 as (Hl2 & Hnth2).
  split.
  { rewrite Hl2, Hn. unfold py_range. rewrite length_map, length_seq. f_equal. lia. }
  exists name, content, m, labels. repeat split; try assumption.
  intros j dirs label Hd Hlab.
  destruct (Hnth1 j dirs Hd) as (i & Hi & Hpd).
  destruct (Hnth2 j label Hlab) as (i' & Hi' & Hpl).
  rewrite Hi in Hi'. inversion Hi'; subst i'.
  rewrite Forall_forall in Hrange.
  assert (Hir : 0 <= i < Z.of_nat (length labels)).
  { apply Hrange. eapply nth_error_In; eauto. }
  exists (Z.to_nat i). split; apply py_index_nth_error; try lia; assumption.
Qed.

Lemma reduced_subset_of_mapping_witness :
  exists self w',
    VideoDataset.__init__ demo_env "root" "ucf" 1 "test" "rgb" 16 true 8 "video" 10
                          demo_world = Ok (self, w') /\
    length (VideoDataset._labels self) = Z.to_nat 8 /\
    exists name content m labels,
      VideoDataset.dataset_name "ucf" = Ok name /\
      read_text demo_env
                (path_join demo_env ("mapping/" ++ name)%string
                           ("ucf" ++ "_" ++ "test" ++ "list0" ++ str_of_int 1 ++ ".txt")%string)
      = Some content /\
      VideoDataset.read_mapping demo_env
                                (VideoDataset.frame_dir demo_env "root" "ucf" "rgb") "rgb"
                                (removelast (split_on newline content)) = Ok m /\
      convert_labels demo_env (snd m) = Ok labels /\
      forall j dirs label,
        nth_error (VideoDataset._clip_names self) j = Some dirs ->
        nth_error (VideoDataset._labels self) j = Some label ->
        exists i, nth_error (fst m) i = Some dirs /\ nth_error labels i = Some label.
Proof.
  eexists _, _. split; [vm_compute; reflexivity|].
  refine (reduced_subset_of_mapping demo_env "root" "ucf" 1 "test" "rgb" 16 8 "video" 10
                                    demo_world _ _ _).
  vm_compute. reflexivity.
Defined.

(** A mapping file without any newline gives no sample: the provider is
    empty without the reduced subset, and drawing the subset from it fails
    with the [ValueError] of [random.randrange] on an empty range. *)
Theorem init_file_without_newline
        (E : env) (path dataset : string) (split : Z) (mode modality : string)
        (clip_len : Z) (test_amt : Z) (load_mode : string) (clips_per_video : Z)
        (w : world) (name content : string) :
  VideoDataset.validate dataset split mode modality load_mode clips_per_video = Ok tt ->
  VideoDataset.dataset_name dataset = Ok name ->
  read_text E (path_join E ("mapping/" ++ name)%string
                 (dataset ++ "_" ++ mode ++ "list0" ++ str_of_int split ++ ".txt")%string)
  = Some content ->
  has_char newline content = false ->
  1 <= test_amt ->
  (exists self,
      VideoDataset.__init__ E path dataset split mode modality clip_len false test_amt
                            load_mode clips_per_video w = Ok (self, w) /\
      VideoDataset._clip_names self = [] /\ VideoDataset._labels self = []) /\
  VideoDataset.__init__ E path dataset split mode modality clip_len true test_amt
                        load_mode clips_per_video w = Raise ValueError.
Proof.
  intros Hv Hname Hread Hnl Hamt.
  assert (Hrange : exists rest, py_range 0 test_amt = 0 :: rest).
  { unfold py_range. destruct (Z.to_nat (test_amt - 0)) eqn:Hk; [lia|].
    cbn [seq map]. eexists. reflexivity. }
  destruct Hrange as (rest & Hrange).
  unfold VideoDataset.__init__. rewrite Hv, Hname. msimpl.
  rewrite Hread. cbn beta iota.
  rewrite (split_on_no_sep newline content Hnl). cbn [removelast VideoDataset.read_mapping].
  cbn beta iota. cbn [convert_labels snd fst]. split.
  - eexists. split; [reflexivity|]. split; reflexivity.
  - rewrite Hrange. reflexivity.
Qed.

Lemma init_file_without_newline_witness :
  (exists self,
      VideoDataset.__init__
        (mk_env (glob demo_env) (decode demo_env) (resample demo_env)
                (fun _ => Some "v_Foo_g01_c01.avi 7"%string) (path_join demo_env)
                (np_int demo_env))
        "root" "ucf" 1 "test" "rgb" 16 false 8 "video" 10 demo_world
      = Ok (self, demo_world) /\
      VideoDataset._clip_names self = [] /\ VideoDataset._labels self = []) /\
  VideoDataset.__init__
    (mk_env (glob demo_env) (decode demo_env) (resample demo_env)
            (fun _ => Some "v_Foo_g01_c01.avi 7"%string) (path_join demo_env)
            (np_int demo_env))
    "root" "ucf" 1 "test" "rgb" 16 true 8 "video" 10 demo_world = Raise ValueError.
Proof.
  apply (init_file_without_newline
           (mk_env (glob demo_env) (decode demo_env) (resample demo_env)
                   (fun _ => Some "v_Foo_g01_c01.avi 7"%string) (path_join demo_env)
                   (np_int demo_env))
           "root" "ucf" 1 "test" "rgb" 16 8 "video" 10 demo_world "UCF-101"
           "v_Foo_g01_c01.avi 7"); try reflexivity.
  lia.
Defined.

(** ** What the loading loops store *)

Lemma broadcast_index_same3 (H W C h x k : nat) :
  (h < H)%nat -> (x < W)%nat -> (k < C)%nat ->
  broadcast_index [H; W; C] [h; x; k] = [h; x; k].
Proof.
  intros Hh Hx Hk. unfold broadcast_index. cbn.
  destruct (Nat.eqb_spec H 1), (Nat.eqb_spec W 1), (Nat.eqb_spec C 1);
    repeat f_equal; lia.
Qed.

Lemma broadcast_index_same2 (H W h x : nat) :
  (h < H)%nat -> (x < W)%nat -> broadcast_index [H; W] [h; x] = [h; x].
Proof.
  intros Hh Hx. unfold broadcast_index. cbn.
  destruct (Nat.eqb_spec H 1), (Nat.eqb_spec W 1); repeat f_equal; lia.
Qed.

Lemma slice_lo_inside (n a : Z) : 0 <= a <= n -> slice_lo n a = Z.to_nat a.
Proof.
  intros Ha. unfold slice_lo, slice_bound. destruct (Z.ltb_spec a 0); [lia|].
  f_equal. lia.
Qed.

Lemma store_rgb_value (buffer : ndarray fval) (N L H W C : nat) (c t : Z) (src : ndarray Z) :
  shape buffer = [N; L; H; W; C] ->
  0 <= c < Z.of_nat N -> 0 <= t < Z.of_nat L -> shape src = [H; W; C] ->
  exists b', store_rgb buffer c t src = Ok b' /\
             shape b' = shape buffer /\
             (forall idx, ~ in_slot c t None idx -> item b' idx = item buffer idx) /\
             forall h x k, (h < H)%nat -> (x < W)%nat -> (k < C)%nat ->
                           item b' [Z.to_nat c; Z.to_nat t; h; x; k]
                           = to_float (item src [h; x; k]).
Proof.
  intros Hs Hc Ht Hsrc.
  destruct (store_rgb_ok buffer N L H W C c t src Hs Hc Ht Hsrc) as (b' & Hrun & Hb' & Hkeep).
  exists b'. split; [exact Hrun|]. split; [exact Hb'|]. split; [exact Hkeep|].
  intros h x k Hh Hx Hk. unfold store_rgb in Hrun. rewrite Hs in Hrun.
  rewrite (axis_index_ok N c Hc), (axis_index_ok L t Ht) in Hrun. cbn [obind] in Hrun.
  rewrite Hsrc, broadcasts_refl in Hrun. inversion Hrun. cbn [item].
  rewrite !Nat.eqb_refl. cbn [andb]. rewrite broadcast_index_same3 by assumption.
  reflexivity.
Qed.

Lemma store_flow_value (buffer : ndarray fval) (N L H W C : nat) (c t i : Z)
      (src : ndarray Z) :
  shape buffer = [N; L; H; W; C] ->
  0 <= c < Z.of_nat N -> 0 <= t < Z.of_nat L -> 0 <= i < Z.of_nat C ->
  shape src = [H; W] ->
  exists b', store_flow buffer c t i src = Ok b' /\
             shape b' = shape buffer /\
             (forall idx, ~ in_slot c t (Some i) idx -> item b' idx = item buffer idx) /\
             forall h x, (h < H)%nat -> (x < W)%nat ->
                         item b' [Z.to_nat c; Z.to_nat t; h; x; Z.to_nat i]
                         = to_float (item src [h; x]).
Proof.
  intros Hs Hc Ht Hi Hsrc.
  destruct (store_flow_ok buffer N L H W C c t i src Hs Hc Ht Hi Hsrc)
    as (b' & Hrun & Hb' & Hkeep).
  exists b'. split; [exact Hrun|]. split; [exact Hb'|]. split; [exact Hkeep|].
  intros h x Hh Hx. unfold store_flow in Hrun. rewrite Hs in Hrun.
  rewrite (axis_index_ok N c Hc), (axis_index_ok L t Ht), (axis_index_ok C i Hi) in Hrun.
  cbn [obind] in Hrun.
  rewrite Hsrc, broadcasts_refl in Hrun. inversion Hrun. cbn [item].
  rewrite !Nat.eqb_refl. cbn [andb]. rewrite broadcast_index_same2 by assumption.
  reflexivity.
Qed.

Section StoreValue.

Variable E : env.
Variables scale_h scale_w crop_h crop_w a b : Z.
Variables N L : nat.
Variables c t ccount : Z.

Hypothesis Hsh : 1 <= scale_h.
Hypothesis Hsw : 1 <= scale_w.
Hypothesis Ha : 0 <= a.
Hypothesis Hch : 0 <= crop_h.
Hypothesis Hah : a + crop_h <= scale_h.
Hypothesis Hb : 0 <= b.
Hypothesis Hcw : 0 <= crop_w.
Hypothesis Hbw : b + crop_w <= scale_w.
Hypothesis Hc : 0 <= c < Z.of_nat N.
Hypothesis Ht : 0 <= t < Z.of_nat L.

(** The stored colour frame, element by element. *)
Lemma store_frame_rgb_value
      (path_content : list (list string)) (f : ndarray Z) (r0 c0 : nat)
      (buffer : ndarray fval) (w : world) :
  shape f = [S r0; S c0; 3%nat] ->
  shape buffer = [N; L; Z.to_nat crop_h; Z.to_nat crop_w; 3%nat] ->
  exists b' r,
    store_frame E "rgb" scale_h scale_w ((a, a + crop_h), (b, b + crop_w)) path_content
                c t ccount [Some f] 0 buffer w = Ok (b', w) /\
    resize E f scale_w scale_h = Ok r /\
    shape b' = shape buffer /\
    (forall idx, ~ in_slot c t None idx -> item b' idx = item buffer idx) /\
    forall h x k,
      (h < Z.to_nat crop_h)%nat -> (x < Z.to_nat crop_w)%nat -> (k < 3)%nat ->
      item b' [Z.to_nat c; Z.to_nat t; h; x; k]
      = to_float (item r [(Z.to_nat a + h)%nat; (Z.to_nat b + x)%nat; k]).
Proof.
  intros Hf Hshape. unfold store_frame. msimpl.
  change (py_index [Some f] 0) with (Ok (Some f)). cbn beta iota.
  destruct (resize_ok E f scale_w scale_h r0 c0 [3%nat] Hsw Hsh Hf) as (f1 & Hr & Hf1).
  mgo Hr. cbn [String.eqb Ascii.eqb Bool.eqb]. cbn beta iota. cbn [fst snd].
  unfold crop3. rewrite Hf1. cbn [fst snd].
  rewrite !slice_len_inside, !slice_lo_inside by lia. cbn beta iota.
  match goal with
  | |- context [store_rgb buffer c t ?g] =>
      destruct (store_rgb_value buffer N L (Z.to_nat crop_h) (Z.to_nat crop_w) 3 c t g)
        as (b' & Hstore & Hb' & Hkeep & Hval);
        [exact Hshape|exact Hc|exact Ht|reflexivity|]
  end.
  mgo Hstore. exists b', f1. split; [reflexivity|]. split; [reflexivity|].
  split; [exact Hb'|]. split; [exact Hkeep|].
  intros h x k Hh Hx Hk. rewrite (Hval h x k Hh Hx Hk). reflexivity.
Qed.

(** A stored flow frame, element by element; a frame that is not decoded
    leaves the buffer as it was. *)
Lemma store_frame_flow_value
      (path_content : list (list string)) (buffer_frame : list (option (ndarray Z)))
      (i : Z) (listing : list string) (path : string) (buffer : ndarray fval) (w : world) :
  0 <= i < 2 ->
  py_index buffer_frame i = Ok (imread E path IMREAD_GRAYSCALE) ->
  py_index path_content i = Ok listing ->
  py_index listing ccount = Ok path ->
  shape buffer = [N; L; Z.to_nat crop_h; Z.to_nat crop_w; 2%nat] ->
  exists b' w',
    store_frame E "flow" scale_h scale_w ((a, a + crop_h), (b, b + crop_w)) path_content
                c t ccount buffer_frame i buffer w = Ok (b', w') /\
    shape b' = shape buffer /\
    (forall idx, ~ in_slot c t (Some i) idx -> item b' idx = item buffer idx) /\
    match imread E path IMREAD_GRAYSCALE with
    | Some f =>
        exists r,
          resize E f scale_w scale_h = Ok r /\
          forall h x,
            (h < Z.to_nat crop_h)%nat -> (x < Z.to_nat crop_w)%nat ->
            item b' [Z.to_nat c; Z.to_nat t; h; x; Z.to_nat i]
            = to_float (item r [(Z.to_nat a + h)%nat; (Z.to_nat b + x)%nat])
    | None => b' = buffer
    end.
Proof.
  intros Hi Hframe Hlisting Hpath Hshape. unfold store_frame. msimpl. mgo Hframe.
  destruct (imread E path IMREAD_GRAYSCALE) as [f|] eqn:Hread.
  - destruct (imread_gray_shape E path f Hread) as (r0 & c0 & Hf).
    destruct (resize_ok E f scale_w scale_h r0 c0 [] Hsw Hsh Hf) as (f1 & Hr & Hf1).
    mgo Hr. cbn [String.eqb Ascii.eqb Bool.eqb]. cbn beta iota.
    unfold newaxis2. rewrite Hf1. cbn [length Nat.ltb Nat.leb firstn skipn app].
    cbn beta iota. cbn [fst snd].
    unfold crop3. cbn [shape fst snd].
    rewrite !slice_len_inside, !slice_lo_inside by lia. cbn beta iota.
    unfold plane0. cbn [shape Nat.eqb]. cbn beta iota.
    match goal with
    | |- context [store_flow buffer c t i ?p] =>
        destruct (store_flow_value buffer N L (Z.to_nat crop_h) (Z.to_nat crop_w) 2 c t i p)
          as (b' & Hstore & Hb' & Hkeep & Hval);
          [exact Hshape|exact Hc|exact Ht|lia|reflexivity|]
    end.
    mgo Hstore. exists b', w. split; [reflexivity|]. split; [exact Hb'|].
    split; [exact Hkeep|]. exists f1. split; [reflexivity|].
    intros h x Hh Hx. rewrite (Hval h x Hh Hx). reflexivity.
  - mgo Hlisting. mgo Hpath. unfold print. cbn beta iota.
    eexists _, _. split; [reflexivity|]. split; [reflexivity|].
    split; reflexivity.
Qed.

End StoreValue.

(** A slot that already holds its frame, or still holds what it held, is
    described by the same expected content. *)
Lemma expected_item_absorb (E : env) (modality : string) (path_content : list (list string))
      (scale_h scale_w : Z) (s_index : (Z * Z) * (Z * Z)) (frame_count : Z)
      (t_index : list (Z * Z)) (buffer b1 : ndarray fval) (idx : list nat) :
  item b1 idx = expected_item E modality path_content scale_h scale_w s_index
                              frame_count t_index buffer idx \/
  item b1 idx = item buffer idx ->
  expected_item E modality path_content scale_h scale_w s_index frame_count t_index b1 idx
  = expected_item E modality path_content scale_h scale_w s_index frame_count t_index buffer idx.
Proof.
  unfold expected_item.
  destruct idx as [|n [|l [|h [|x [|k [|? ?]]]]]]; try (intros [H|H]; exact H).
  destruct (nth_error t_index n) as [window|]; [|intros [H|H]; exact H].
  destruct (frame_pixel _ _ _ _ _ _ _ _ _ _); [reflexivity|intros [H|H]; exact H].
Qed.

Section AssembleContent.

Variable E : env.
Variable fuel : nat.
Variable modality : string.
Variables scale_h scale_w crop_h crop_w a b : Z.
Variables listing0 listing1 : list string.
Variable path_content : list (list string).
Variable t_index : list (Z * Z).
Variable N : nat.
Variable L : Z.

Let fc := Z.of_nat (length listing0).
Let s_index := ((a, a + crop_h), (b, b + crop_w)).

Local Abbreviation good := (good_shape modality crop_h crop_w N L).
Local Abbreviation pixel := (frame_pixel E modality path_content scale_h scale_w s_index).
Local Abbreviation expected :=
  (expected_item E modality path_content scale_h scale_w s_index fc t_index).

Hypothesis Hcase :
  (modality = "rgb"%string /\ path_content = [listing0]) \/
  (modality = "flow"%string /\ path_content = [listing0; listing1] /\
   length listing1 = length listing0).
Hypothesis Hfc : 1 <= fc.
Hypothesis Hdec :
  modality = "rgb"%string -> forall p, In p listing0 -> decode E p <> None.
Hypothesis Hsh : 1 <= scale_h.
Hypothesis Hsw : 1 <= scale_w.
Hypothesis Ha : 0 <= a.
Hypothesis Hch : 0 <= crop_h.
Hypothesis Hah : a + crop_h <= scale_h.
Hypothesis Hb : 0 <= b.
Hypothesis Hcw : 0 <= crop_w.
Hypothesis Hbw : b + crop_w <= scale_w.
Hypothesis HL : 0 <= L.
Hypothesis Hlen : length t_index = N.
Hypothesis Hwin :
  forall window, In window t_index ->
    has_width L window /\
    forall count, fst window <= count < snd window ->
                  0 <= count < fc * Z.of_nat fuel.

(** One turn of the loop writes the slot of its position and no other. *)
Lemma frame_step_content (c : Z) (window : Z * Z) (count : Z)
      (buffer : ndarray fval) (w : world) :
  0 <= c < Z.of_nat N ->
  nth_error t_index (Z.to_nat c) = Some window ->
  fst window <= count < snd window ->
  good buffer ->
  exists b' w',
    frame_step E fuel modality scale_h scale_w s_index path_content fc
               (frame_chn_of modality) c (fst window) count buffer w = Ok (b', w') /\
    good b' /\
    (forall idx, ~ in_slot c (count - fst window) None idx -> item b' idx = item buffer idx) /\
    forall h x k,
      (h < Z.to_nat crop_h)%nat -> (x < Z.to_nat crop_w)%nat ->
      (k < Z.to_nat (frame_chn_of modality))%nat ->
      item b' [Z.to_nat c; Z.to_nat (count - fst window); h; x; k]
      = match pixel (count mod fc) h x k with
        | Some z => to_float z
        | None => item buffer [Z.to_nat c; Z.to_nat (count - fst window); h; x; k]
        end.
Proof.
  intros Hc Hnth Hcount Hshape.
  assert (Hin : In window t_index) by (eapply nth_error_In; eauto).
  destruct (Hwin window Hin) as (Hwidth & Hrange). specialize (Hrange count Hcount).
  unfold has_width in Hwidth.
  assert (Ht : 0 <= count - fst window < Z.of_nat (Z.to_nat L)) by lia.
  unfold frame_step. msimpl. rewrite (wrap_index_spec fc Hfc fuel count Hrange).
  cbn beta iota.
  assert (Hcc : 0 <= count mod fc < fc) by (apply Z.mod_pos_bound; lia).
  set (ccount := count mod fc) in *.
  destruct (py_index_in_range listing0 ccount Hcc) as (p0 & Hp0 & Hin0).
  unfold frame_pixel. cbn [fst snd s_index].
  destruct Hcase as [(Hm & Hpc)|(Hm & Hpc & Hlen1)].
  - (* colour frames *)
    unfold good_shape in *. rewrite Hm in *. rewrite Hpc in *.
    cbn [frame_chn_of String.eqb Ascii.eqb Bool.eqb] in *.
    assert (Hpath0 : frame_path [listing0] 0 ccount = p0)
      by (unfold frame_path; change (py_index [listing0] 0) with (Ok listing0);
          cbn beta iota; rewrite Hp0; reflexivity).
    rewrite Hpath0.
    unfold read_frames. cbn [Z.eqb Pos.eqb].
    change (py_index [listing0] 0) with (Ok listing0). cbn [obind]. rewrite Hp0.
    cbn [obind].
    destruct (imread E p0 IMREAD_COLOR) as [f|] eqn:Hread.
    2:{ apply imread_none in Hread. exfalso. exact (Hdec eq_refl p0 Hin0 Hread). }
    destruct (imread_color_shape E p0 f Hread) as (r0 & c0 & Hf).
    destruct (cvtColor_ok f (S r0) (S c0) Hf) as (g & Hg & Hgs).
    rewrite Hg. cbn [obind]. cbn beta iota.
    change (py_range 0 (Z.of_nat (length [Some g]))) with [0].
    cbn [store_frames]. msimpl.
    destruct (store_frame_rgb_value E scale_h scale_w crop_h crop_w a b N (Z.to_nat L)
                c (count - fst window) ccount Hsh Hsw Ha Hch Hah Hb Hcw Hbw Hc Ht
                [listing0] g r0 c0 buffer w Hgs Hshape)
      as (b' & r & Hstore & Hres & Hb' & Hkeep & Hval).
    fold s_index in Hstore. rewrite Hstore. cbn beta iota.
    exists b', w. split; [reflexivity|]. split; [rewrite Hb'; exact Hshape|].
    split; [exact Hkeep|].
    intros h x k Hh Hx Hk. rewrite Hres. apply Hval; assumption.
  - (* flow frames *)
    unfold good_shape in *. rewrite Hm in *. rewrite Hpc in *.
    cbn [frame_chn_of String.eqb Ascii.eqb Bool.eqb] in *.
    unfold read_frames. cbn [Z.eqb Pos.eqb].
    change (py_index [listing0; listing1] 0) with (Ok listing0).
    change (py_index [listing0; listing1] 1) with (Ok listing1).
    cbn [obind]. rewrite Hp0. cbn [obind].
    assert (Hcc1 : 0 <= ccount < Z.of_nat (length listing1)) by (rewrite Hlen1; exact Hcc).
    destruct (py_index_in_range listing1 ccount Hcc1) as (p1 & Hp1 & _).
    rewrite Hp1. cbn [obind]. cbn beta iota.
    set (frames := [imread E p0 IMREAD_GRAYSCALE; imread E p1 IMREAD_GRAYSCALE]).
    change (py_range 0 (Z.of_nat (length frames))) with [0; 1].
    cbn [store_frames]. msimpl.
    destruct (store_frame_flow_value E scale_h scale_w crop_h crop_w a b N (Z.to_nat L)
                c (count - fst window) ccount Hsh Hsw Ha Hch Hah Hb Hcw Hbw Hc Ht
                [listing0; listing1] frames 0 listing0 p0 buffer w)
      as (b1 & w1 & Hs1 & Hb1 & Hk1 & Hv1);
      [lia|reflexivity|reflexivity|exact Hp0|exact Hshape|].
    fold s_index in Hs1. rewrite Hs1. cbn beta iota.
    destruct (store_frame_flow_value E scale_h scale_w crop_h crop_w a b N (Z.to_nat L)
                c (count - fst window) ccount Hsh Hsw Ha Hch Hah Hb Hcw Hbw Hc Ht
                [listing0; listing1] frames 1 listing1 p1 b1 w1)
      as (b2 & w2 & Hs2 & Hb2 & Hk2 & Hv2);
      [lia|reflexivity|reflexivity|exact Hp1|rewrite Hb1; exact Hshape|].
    fold s_index in Hs2. rewrite Hs2. cbn beta iota.
    exists b2, w2. split; [reflexivity|].
    split; [rewrite Hb2, Hb1; exact Hshape|].
    assert (Hpath0 : frame_path [listing0; listing1] 0 ccount = p0)
      by (unfold frame_path; change (py_index [listing0; listing1] 0) with (Ok listing0);
          cbn beta iota; rewrite Hp0; reflexivity).
    assert (Hpath1 : frame_path [listing0; listing1] 1 ccount = p1)
      by (unfold frame_path; change (py_index [listing0; listing1] 1) with (Ok listing1);
          cbn beta iota; rewrite Hp1; reflexivity).
    split.
    + intros idx Hslot.
      rewrite Hk2, Hk1; [reflexivity| |];
        intros Hs; apply Hslot;
        destruct idx as [|? [|? [|? [|? [|? [|? ?]]]]]]; try contradiction;
        cbn [in_slot] in *; tauto.
    + intros h x k Hh Hx Hk.
      assert (Hk' : k = O \/ k = 1%nat) by (change (Z.to_nat 2) with 2%nat in Hk; lia).
      destruct Hk' as [->| ->].
      * change (Z.of_nat 0) with 0. rewrite Hpath0.
        assert (H21 : item b2 [Z.to_nat c; Z.to_nat (count - fst window); h; x; O]
                      = item b1 [Z.to_nat c; Z.to_nat (count - fst window); h; x; O]).
        { apply Hk2. cbn [in_slot]. intros (_ & _ & Hbad). discriminate Hbad. }
        rewrite H21.
        destruct (imread E p0 IMREAD_GRAYSCALE) as [f|].
        -- destruct Hv1 as (r & Hres & Hv1). rewrite Hres. apply (Hv1 h x Hh Hx).
        -- rewrite Hv1. reflexivity.
      * change (Z.of_nat 1) with 1. rewrite Hpath1.
        assert (H10 : item b1 [Z.to_nat c; Z.to_nat (count - fst window); h; x; 1%nat]
                      = item buffer [Z.to_nat c; Z.to_nat (count - fst window); h; x; 1%nat]).
        { apply Hk1. cbn [in_slot]. intros (_ & _ & Hbad). discriminate Hbad. }
        destruct (imread E p1 IMREAD_GRAYSCALE) as [f|].
        -- destruct Hv2 as (r & Hres & Hv2). rewrite Hres. apply (Hv2 h x Hh Hx).
        -- rewrite Hv2. exact H10.
Qed.

(** The turns of one clip write the slots of their positions, each with the
    frame at its looped index, and nothing else. *)
Lemma frame_loop_content (c : Z) (window : Z * Z) :
  0 <= c < Z.of_nat N ->
  nth_error t_index (Z.to_nat c) = Some window ->
  forall (turns : nat) (count : Z) (buffer : ndarray fval) (w : world),
    fst window <= count -> count + Z.of_nat turns <= snd window ->
    good buffer ->
    exists b' w',
      frame_loop E fuel modality scale_h scale_w s_index path_content fc
                 (frame_chn_of modality) c (fst window) turns count buffer w
      = Ok (b', w') /\
      good b' /\
      forall n l h x k,
        (h < Z.to_nat crop_h)%nat -> (x < Z.to_nat crop_w)%nat ->
        (k < Z.to_nat (frame_chn_of modality))%nat ->
        item b' [n; l; h; x; k]
        = if (n =? Z.to_nat c)%nat
             && (count - fst window <=? Z.of_nat l)
             && (Z.of_nat l <? count - fst window + Z.of_nat turns)
          then expected buffer [n; l; h; x; k]
          else item buffer [n; l; h; x; k].
Proof.
  intros Hc Hnth. induction turns as [|turns IH]; intros count buffer w Hlo Hhi Hshape.
  - exists buffer, w. split; [reflexivity|]. split; [exact Hshape|].
    intros n l h x k _ _ _.
    destruct (n =? Z.to_nat c)%nat; cbn [andb]; [|reflexivity].
    destruct (Z.leb_spec (count - fst window) (Z.of_nat l)); cbn [andb]; [|reflexivity].
    destruct (Z.ltb_spec (Z.of_nat l) (count - fst window + Z.of_nat 0)); [lia|reflexivity].
  - cbn [frame_loop]. unfold bind at 1.
    destruct (frame_step_content c window count buffer w Hc Hnth)
      as (b1 & w1 & Hs1 & Hg1 & Hk1 & Hv1); [lia|exact Hshape|].
    rewrite Hs1.
    destruct (IH (count + 1) b1 w1) as (b2 & w2 & Hs2 & Hg2 & Hv2); [lia|lia|exact Hg1|].
    rewrite Hs2. exists b2, w2. split; [reflexivity|]. split; [exact Hg2|].
    intros n l h x k Hh Hx Hk. rewrite (Hv2 n l h x k Hh Hx Hk).
    destruct (Nat.eqb_spec n (Z.to_nat c)) as [->|Hn]; cbn [andb].
    2:{ apply Hk1. cbn [in_slot]. intros (Hbad & _). contradiction. }
    destruct (Z.eq_dec (Z.of_nat l) (count - fst window)) as [Hl|Hl].
    + (* the slot of this turn *)
      assert (Hl' : l = Z.to_nat (count - fst window)) by lia.
      destruct (Z.leb_spec (count + 1 - fst window) (Z.of_nat l)); [lia|]. cbn [andb].
      destruct (Z.leb_spec (count - fst window) (Z.of_nat l)); [|lia]. cbn [andb].
      destruct (Z.ltb_spec (Z.of_nat l) (count - fst window + Z.of_nat (S turns))); [|lia].
      subst l. rewrite (Hv1 h x k Hh Hx Hk).
      cbn [expected_item]. rewrite Hnth.
      rewrite Z2Nat.id by lia.
      replace (fst window + (count - fst window)) with count by lia. reflexivity.
    + (* another slot *)
      assert (Hkeep : forall h' x' k',
                 item b1 [Z.to_nat c; l; h'; x'; k'] = item buffer [Z.to_nat c; l; h'; x'; k']).
      { intros h' x' k'. apply Hk1. cbn [in_slot]. intros (_ & Hbad & _). lia. }
      destruct (Z.leb_spec (count + 1 - fst window) (Z.of_nat l)),
               (Z.leb_spec (count - fst window) (Z.of_nat l)); try lia; cbn [andb].
      * replace (Z.of_nat l <? count + 1 - fst window + Z.of_nat turns)
          with (Z.of_nat l <? count - fst window + Z.of_nat (S turns))
          by (apply Bool.eq_true_iff_eq; rewrite !Z.ltb_lt; lia).
        destruct (Z.of_nat l <? count - fst window + Z.of_nat (S turns)); [|apply Hkeep].
        cbn [expected_item]. rewrite Hnth. rewrite Hkeep. reflexivity.
      * apply Hkeep.
Qed.

(** The clips of a call write their slots, each position with the frame at
    its looped index, and nothing else. *)
Lemma clip_loop_content :
  forall (range : list Z) (buffer : ndarray fval) (w : world),
    (forall c, In c range -> 0 <= c < Z.of_nat N) ->
    good buffer ->
    exists b' w',
      clip_loop E fuel modality scale_h scale_w s_index path_content fc
                (frame_chn_of modality) t_index range buffer w = Ok (b', w') /\
      good b' /\
      forall n l h x k,
        (l < Z.to_nat L)%nat ->
        (h < Z.to_nat crop_h)%nat -> (x < Z.to_nat crop_w)%nat ->
        (k < Z.to_nat (frame_chn_of modality))%nat ->
        item b' [n; l; h; x; k]
        = if existsb (Z.eqb (Z.of_nat n)) range
          then expected buffer [n; l; h; x; k]
          else item buffer [n; l; h; x; k].
Proof.
  induction range as [|c rest IH]; intros buffer w Hrange Hshape.
  - exists buffer, w. split; [reflexivity|]. split; [exact Hshape|]. reflexivity.
  - assert (Hc : 0 <= c < Z.of_nat N) by (apply Hrange; left; reflexivity).
    assert (Hc' : 0 <= c < Z.of_nat (length t_index)) by (rewrite Hlen; exact Hc).
    destruct (nth_error t_index (Z.to_nat c)) as [window|] eqn:Hnth;
      [|apply nth_error_None in Hnth; lia].
    cbn [clip_loop]. unfold bind at 1. unfold lift at 1.
    rewrite (py_index_nonneg t_index c window Hnth) by lia.
    unfold bind at 1.
    assert (Hwidth : has_width L window).
    { apply Hwin. eapply nth_error_In; eauto. }
    unfold has_width in Hwidth.
    destruct (frame_loop_content c window Hc Hnth (Z.to_nat (snd window - fst window))
                (fst window) buffer w) as (b1 & w1 & Hs1 & Hg1 & Hv1);
      [lia|lia|exact Hshape|].
    rewrite Hs1.
    destruct (IH b1 w1) as (b2 & w2 & Hs2 & Hg2 & Hv2);
      [intros c0 Hc0; apply Hrange; right; exact Hc0|exact Hg1|].
    rewrite Hs2. exists b2, w2. split; [reflexivity|]. split; [exact Hg2|].
    intros n l h x k Hl Hh Hx Hk. rewrite (Hv2 n l h x k Hl Hh Hx Hk).
    assert (H1 : item b1 [n; l; h; x; k]
                 = if (n =? Z.to_nat c)%nat then expected buffer [n; l; h; x; k]
                   else item buffer [n; l; h; x; k]).
    { rewrite (Hv1 n l h x k Hh Hx Hk).
      destruct (n =? Z.to_nat c)%nat; cbn [andb]; [|reflexivity].
      destruct (Z.leb_spec (fst window - fst window) (Z.of_nat l)); [|lia]. cbn [andb].
      destruct (Z.ltb_spec (Z.of_nat l)
                  (fst window - fst window
                   + Z.of_nat (Z.to_nat (snd window - fst window)))); [reflexivity|lia]. }
    cbn [existsb].
    assert (Hn : (Z.of_nat n =? c) = (n =? Z.to_nat c)%nat).
    { apply Bool.eq_true_iff_eq. rewrite Z.eqb_eq, Nat.eqb_eq. lia. }
    rewrite Hn.
    destruct (n =? Z.to_nat c)%nat, (existsb (Z.eqb (Z.of_nat n)) rest); cbn [orb];
      first [ exact H1
            | apply expected_item_absorb; left; exact H1
            | apply expected_item_absorb; right; exact H1 ].
Qed.

End AssembleContent.

Lemma existsb_py_range (n : nat) (hi : Z) :
  Z.of_nat n < hi -> existsb (Z.eqb (Z.of_nat n)) (py_range 0 hi) = true.
Proof.
  intros Hn. apply existsb_exists. exists (Z.of_nat n). split; [|apply Z.eqb_refl].
  unfold py_range. apply in_map_iff. exists n. split; [lia|]. apply in_seq. lia.
Qed.

(** On a valid call every element of the assembled buffer is the pixel the
    loops put there: element [n, l, h, x, k] is channel [k] of the pixel at
    the crop offset plus [(h, x)] of the resized frame at index
    [(start of window n + l) mod frame_count] (for flow, the frame of
    direction [k]), or what the allocation held when that frame does not
    decode. *)
Theorem assembled_buffer_content
      (E : env) (frames_path : list string) (modality : string)
      (scale_h scale_w crop_h crop_w clip_len : Z) (mode : string) (w : world) :
  valid_call E frames_path modality scale_h scale_w crop_h crop_w clip_len mode ->
  exists (fuel0 : nat) (t_index : list (Z * Z)) (s_index : (Z * Z) * (Z * Z)) (w1 : world),
    forall fuel, (fuel0 <= fuel)%nat ->
      select_windows fuel mode (frame_count_of E frames_path)
                     scale_h scale_w crop_h crop_w clip_len w
      = Ok ((t_index, s_index), w1) /\
      exists buffer w2,
        assemble E fuel frames_path modality scale_h scale_w crop_h crop_w clip_len mode w
        = Ok (buffer, w2) /\
        forall (n l h x k : nat) (window : Z * Z),
          nth_error t_index n = Some window ->
          (l < Z.to_nat clip_len)%nat ->
          (h < Z.to_nat crop_h)%nat -> (x < Z.to_nat crop_w)%nat ->
          (k < Z.to_nat (frame_chn_of modality))%nat ->
          item buffer [n; l; h; x; k]
          = match frame_pixel E modality (map (listing_of E) frames_path)
                              scale_h scale_w s_index
                              ((fst window + Z.of_nat l) mod frame_count_of E frames_path)
                              h x k with
            | Some z => to_float z
            | None => uninit w [n; l; h; x; k]
            end.
Proof.
  intros (Hmode & Hfc & Hlen & Hh & Hw & Htrain & Hdirs).
  destruct (select_windows_spec mode (frame_count_of E frames_path)
              scale_h scale_w crop_h crop_w clip_len w Hmode Hfc)
    as (k0 & t_index & a & b & w1 & Hsel & Ha & Hah & Hb & Hbw & Hn & Hwd & Hpos & Hu1 & Ho1);
    [lia|lia|lia|exact Htrain|].
  exists (Nat.max (S k0) (S (Z.to_nat (max_end t_index)))), t_index,
         ((a, a + crop_h), (b, b + crop_w)), w1.
  intros fuel Hfuel. split; [apply Hsel; lia|].
  assert (Hmode' : str_in mode ["train"; "validation"; "test"]%string = true)
    by (apply str_in_In; exact Hmode).
  set (listing0 := match frames_path with d :: _ => listing_of E d | [] => [] end).
  set (listing1 := match frames_path with _ :: d :: _ => listing_of E d | _ => [] end).
  assert (Hfc0 : frame_count_of E frames_path = Z.of_nat (length listing0)).
  { destruct Hdirs as [(_ & d0 & -> & _)|(_ & d0 & d1 & -> & _)]; reflexivity. }
  assert (Hcase :
            (modality = "rgb"%string /\ map (listing_of E) frames_path = [listing0]) \/
            (modality = "flow"%string /\
             map (listing_of E) frames_path = [listing0; listing1] /\
             length listing1 = length listing0)).
  { destruct Hdirs as [(Hm & d0 & -> & _)|(Hm & d0 & d1 & -> & Hl)];
      [left|right]; auto. }
  assert (Hdec : modality = "rgb"%string ->
                 forall p, In p listing0 -> decode E p <> None).
  { intros Hm. destruct Hdirs as [(_ & d0 & -> & Hd)|(Hm' & _)]; [exact Hd|].
    rewrite Hm in Hm'. discriminate. }
  assert (Hwin : forall window, In window t_index ->
             has_width clip_len window /\
             forall count, fst window <= count < snd window ->
                           0 <= count < Z.of_nat (length listing0) * Z.of_nat fuel).
  { intros window Hin. rewrite Forall_forall in Hwd, Hpos.
    split; [apply Hwd; exact Hin|]. intros count Hcount.
    specialize (Hpos window Hin). cbn beta in Hpos.
    pose proof (max_end_bound t_index window Hin) as Hmax.
    rewrite <- Hfc0. nia. }
  destruct (clips_per_video_cases mode) as [Hcpv|Hcpv];
    destruct (frame_chn_cases modality) as [Hchn|Hchn].
  all: assert (Hempty : forallb (fun d => 0 <=? d)
                          [clips_per_video_of mode; clip_len; crop_h; crop_w;
                           frame_chn_of modality] = true)
      by (rewrite Hcpv, Hchn; cbn [forallb];
          repeat (match goal with
                  | |- context [0 <=? ?x] =>
                      destruct (Z.leb_spec 0 x); [cbn [andb]|lia]
                  end); reflexivity).
  all: set (buffer0 := mk_nd (map Z.to_nat [clips_per_video_of mode; clip_len; crop_h;
                                           crop_w; frame_chn_of modality]) (uninit w1)).
  all: destruct (clip_loop_content E fuel modality scale_h scale_w crop_h crop_w a b
                   listing0 listing1 (map (listing_of E) frames_path) t_index
                   (Z.to_nat (clips_per_video_of mode)) clip_len Hcase
                   ltac:(rewrite <- Hfc0; exact Hfc) Hdec
                   ltac:(lia) ltac:(lia) Ha ltac:(lia) Hah Hb ltac:(lia) Hbw
                   ltac:(lia) Hn Hwin
                   (py_range 0 (clips_per_video_of mode)) buffer0 w1)
      as (buffer & w2 & Hloop & Hshape & Hval);
    [intros c Hc; apply py_range_bounds in Hc; lia | reflexivity |].
  all: exists buffer, w2.
  all: split;
    [ unfold assemble; msimpl;
      replace (if String.eqb modality "rgb"
               then (length frames_path =? 1)%nat else (length frames_path =? 2)%nat)
        with true
        by (destruct Hdirs as [(-> & d0 & -> & _)|(-> & d0 & d1 & -> & _)]; reflexivity);
      cbn [assert]; cbn beta iota; rewrite Hmode'; cbn [assert]; cbn beta iota;
      replace (py_index (map (fun d => sort (glob E (d ++ "/*.jpg")%string)) frames_path) 0)
        with (Ok listing0)
        by (destruct Hdirs as [(_ & d0 & -> & _)|(_ & d0 & d1 & -> & _)]; reflexivity);
      cbn beta iota; rewrite <- Hfc0; rewrite (Hsel fuel) by lia; cbn beta iota;
      unfold np_empty; rewrite Hempty; cbn [fst snd];
      rewrite <- Hfc0 in Hloop; exact Hloop
    | ].
  all: intros n l h x k window Hnth Hl Hhh Hx Hk.
  all: rewrite (Hval n l h x k Hl Hhh Hx Hk).
  all: assert (Hlt : (n < length t_index)%nat)
      by (apply nth_error_Some; rewrite Hnth; discriminate).
  all: rewrite existsb_py_range by lia.
  all: cbn [expected_item]; rewrite Hnth, <- Hfc0, <- Hu1; reflexivity.
Qed.

Lemma assembled_buffer_content_witness :
  exists (fuel0 : nat) (t_index : list (Z * Z)) (s_index : (Z * Z) * (Z * Z)) (w1 : world),
    forall fuel, (fuel0 <= fuel)%nat ->
      select_windows fuel "test" (frame_count_of demo_env ["c"%string]) 3 4 2 2 2 demo_world
      = Ok ((t_index, s_index), w1) /\
      exists buffer w2,
        assemble demo_env fuel ["c"%string] "rgb" 3 4 2 2 2 "test" demo_world
        = Ok (buffer, w2) /\
        forall (n l h x k : nat) (window : Z * Z),
          nth_error t_index n = Some window ->
          (l < Z.to_nat 2)%nat ->
          (h < Z.to_nat 2)%nat -> (x < Z.to_nat 2)%nat ->
          (k < Z.to_nat (frame_chn_of "rgb"))%nat ->
          item buffer [n; l; h; x; k]
          = match frame_pixel demo_env "rgb" (map (listing_of demo_env) ["c"%string])
                              3 4 s_index
                              ((fst window + Z.of_nat l)
                               mod frame_count_of demo_env ["c"%string])
                              h x k with
            | Some z => to_float z
            | None => uninit demo_world [n; l; h; x; k]
            end.
Proof.
  apply (assembled_buffer_content demo_env ["c"%string] "rgb" 3 4 2 2 2 "test" demo_world).
  unfold valid_call. split; [simpl; auto|]. split; [vm_compute; discriminate|].
  split; [lia|]. split; [lia|]. split; [lia|]. split; [intros H; discriminate H|].
  left. split; [reflexivity|]. exists "c"%string. split; [reflexivity|].
  intros p Hin. solve_listing Hin.
Defined.

(** What [load_clips] returns is the assembled buffer, mean-subtracted for
    flow when asked, normalised element by element and laid out channels
    first: element [k, l, h, x] of a train or validation volume is element
    [0, l, h, x, k] of the buffer, element [n, k, l, h, x] of a test volume
    is element [n, l, h, x, k]. *)
Theorem returned_volume_layout
      (E : env) (fuel : nat) (frames_path : list string) (modality : string)
      (scale_h scale_w crop_h crop_w clip_len : Z) (mode : string) (mean_sub : bool)
      (buffer : ndarray fval) (w w2 : world) :
  1 <= clip_len -> 1 <= crop_h -> 1 <= crop_w ->
  assemble E fuel frames_path modality scale_h scale_w crop_h crop_w clip_len mode w
  = Ok (buffer, w2) ->
  exists b1 volume,
    (if mean_sub && String.eqb modality "flow"
     then flow_mean_sub buffer else Ok buffer) = Ok b1 /\
    load_clips E fuel frames_path modality scale_h scale_w crop_h crop_w clip_len mode
               mean_sub w = Ok (volume, w2) /\
    forall n l h x k : nat,
      item volume (if str_in mode ["train"; "validation"]%string
                   then [k; l; h; x] else [n; k; l; h; x])
      = normalize_elt
          (item b1 [if str_in mode ["train"; "validation"]%string then O else n;
                    l; h; x; k]).
Proof.
  intros Hlen Hh Hw Hasm.
  pose proof (assemble_shape _ _ _ _ _ _ _ _ _ _ _ _ _ Hasm) as Hshape.
  cbn [map] in Hshape.
  assert (Hmean : exists b1,
             (if mean_sub && String.eqb modality "flow"
              then flow_mean_sub buffer else Ok buffer) = Ok b1 /\
             shape b1 = shape buffer).
  { destruct (mean_sub && String.eqb modality "flow").
    - unfold flow_mean_sub. rewrite Hshape.
      assert (Hnz : (Z.to_nat clip_len * Z.to_nat crop_h * Z.to_nat crop_w =? 0)%nat = false).
      { apply Nat.eqb_neq. intros Hz. apply Nat.eq_mul_0 in Hz.
        destruct Hz as [Hz|Hz]; [|lia]. apply Nat.eq_mul_0 in Hz. lia. }
      rewrite Hnz. cbn [andb]. eexists. split; reflexivity.
    - exists buffer. split; reflexivity. }
  destruct Hmean as (b1 & Hb1 & Hs1). exists b1.
  assert (Hrun : (if mean_sub && String.eqb modality "flow"
                  then lift (flow_mean_sub buffer) else ret buffer) w2 = Ok (b1, w2)).
  { destruct (mean_sub && String.eqb modality "flow").
    - unfold lift. rewrite Hb1. reflexivity.
    - injection Hb1 as <-. reflexivity. }
  unfold load_clips. unfold bind at 1. rewrite Hasm. unfold bind at 1. rewrite Hrun.
  unfold clips_per_video_of in Hshape.
  destruct (str_in mode ["train"; "validation"]%string).
  - unfold bind, lift, nd_index0, transpose. cbn [normalize_buffer nd_map shape].
    rewrite Hs1, Hshape. cbn. eexists. split; [exact Hb1|].
    split; [reflexivity|]. intros n l h x k. reflexivity.
  - unfold lift, transpose. cbn [normalize_buffer nd_map shape].
    rewrite Hs1, Hshape. cbn. eexists. split; [exact Hb1|].
    split; [reflexivity|]. intros n l h x k. reflexivity.
Qed.

Lemma returned_volume_layout_witness :
  exists (fuel : nat) (buffer : ndarray fval) (w2 : world),
    assemble demo_env fuel ["u"; "v"]%string "flow" 3 4 2 2 2 "validation" demo_world
    = Ok (buffer, w2) /\
    exists b1 volume,
      (if true && String.eqb "flow" "flow"
       then flow_mean_sub buffer else Ok buffer) = Ok b1 /\
      load_clips demo_env fuel ["u"; "v"]%string "flow" 3 4 2 2 2 "validation"
                 true demo_world = Ok (volume, w2) /\
      forall n l h x k : nat,
        item volume (if str_in "validation" ["train"; "validation"]%string
                     then [k; l; h; x] else [n; k; l; h; x])
        = normalize_elt
            (item b1 [if str_in "validation" ["train"; "validation"]%string then O else n;
                      l; h; x; k]).
Proof.
  assert (Hvalid : valid_call demo_env ["u"; "v"]%string "flow" 3 4 2 2 2 "validation").
  { unfold valid_call. split; [simpl; auto|]. split; [vm_compute; discriminate|].
    split; [lia|]. split; [lia|]. split; [lia|]. split; [intros H; discriminate H|].
    right. split; [reflexivity|]. exists "u"%string, "v"%string. split; reflexivity. }
  destruct (assemble_returns demo_env ["u"; "v"]%string "flow" 3 4 2 2 2 "validation"
              demo_world Hvalid) as (fuel0 & t_index & s_index & w1 & Hret).
  destruct (Hret fuel0 (Nat.le_refl fuel0)) as (_ & buffer & w2 & Hasm & _).
  exists fuel0, buffer, w2. split; [exact Hasm|].
  apply (returned_volume_layout demo_env fuel0 ["u"; "v"]%string "flow" 3 4 2 2 2
                                "validation" true buffer demo_world w2);
    [lia|lia|lia|exact Hasm].
Defined.
